(** * IntaSend Go client: transport core, client construction and the
    resource operations.

    A shallow embedding of [intasend.go], [http.go], the options file, the
    error types, and the operations of [wallet.go], [collection.go],
    [checkout.go], the payout file, [paymentlink.go] and [refund.go],
    followed by the properties checked against them: first those the
    specification states, then further properties of the code.

    Conventions.
    - Go's [int] and [time.Duration] are signed 64-bit integers (the [gc]
      toolchain on 64-bit targets); they are carried in [Z] and every
      arithmetic operation of the source is followed by [wrap64].
    - Go strings are byte strings; they are carried as [string].
    - [float64] is the IEEE binary64 type [PrimFloat.float].
    - [encoding/json], [net/url] and the network are outside the repository:
      encoding of the request structs follows their [json] tags down to a
      JSON document ([JSON]); decoding of responses, URL parsing and the
      answers of the remote side are parameters of the development.
    - [log.Printf] output (the [debug] flag) is not recorded: it never feeds
      back into control flow. *)

From Stdlib Require Import ZArith String List Bool Lia PrimFloat DecimalString.
From stdpp Require Import gmap strings.
Import ListNotations.

#[local] Set Warnings "-register-all".

Local Open Scope string_scope.
Local Open Scope Z_scope.

(** ** Go machine integers *)

Definition int64_min : Z := - 2 ^ 63.
Definition int64_max : Z := 2 ^ 63 - 1.

(** Two's-complement wrap-around of a mathematical integer into [int64]. *)
Definition wrap64 (z : Z) : Z := (z + 2 ^ 63) mod 2 ^ 64 - 2 ^ 63.

Definition in_int64 (z : Z) : Prop := int64_min <= z <= int64_max.

(** [x << s] on [int64] for a shift count [s >= 0]: bits shifted past the
    width are lost, so counts of 64 and more give 0. *)
Definition shl64 (x s : Z) : Z := wrap64 (Z.shiftl x s).

(** [x * y] on [int64]. *)
Definition mul64 (x y : Z) : Z := wrap64 (x * y).

(** [time.Duration]: nanoseconds in an [int64]. *)
Definition Duration : Type := Z.
Definition Second : Duration := 1000000000.

(** ** Strings *)

(** [strings.HasPrefix(s, prefix)]. *)
Definition HasPrefix (s prefix : string) : bool := String.prefix prefix s.

(** [s == ""]. *)
Definition isEmpty (s : string) : bool := String.eqb s "".

(** ** JSON documents *)

Inductive jsonError : Type :=
| UnsupportedValue (what : string)
| SyntaxError (what : string)
| UnmarshalTypeError (what : string).

Inductive JSON : Type :=
| JNull
| JBool (b : bool)
| JNumber (f : float)
| JString (s : string)
| JArray (items : list JSON)
| JObject (members : list (string * JSON)).

(** The value of member [k] of an object (the first one of that name). *)
Fixpoint members_lookup (k : string) (ms : list (string * JSON)) : option JSON :=
  match ms with
  | [] => None
  | (k', v) :: rest => if String.eqb k k' then Some v else members_lookup k rest
  end.

Definition jsonField (j : JSON) (k : string) : option JSON :=
  match j with
  | JObject ms => members_lookup k ms
  | _ => None
  end.

(** What a decoder leaves in a [string] field for member [k]: the member's
    value, or the zero value when the member is absent. *)
Definition jsonStringField (j : JSON) (k : string) : string :=
  match jsonField j k with
  | Some (JString s) => s
  | _ => ""
  end.

(** Struct fields as [encoding/json] writes them.  A plain field is always
    written; an [omitempty] field is dropped when it holds the zero value of
    its type (the empty string, [false]). *)
Definition fieldString (name value : string) : list (string * JSON) :=
  [(name, JString value)].

Definition fieldStringOmitEmpty (name value : string) : list (string * JSON) :=
  if isEmpty value then [] else [(name, JString value)].

Definition fieldBoolOmitEmpty (name : string) (value : bool) : list (string * JSON) :=
  if value then [(name, JBool true)] else [].

(** A [float64] field: [json.Marshal] refuses NaN and the infinities. *)
Definition fieldFloat (name : string) (value : float) : option (list (string * JSON)) :=
  if is_nan value || is_infinity value then None else Some [(name, JNumber value)].

(** [json.Marshal] for the type of a request payload. *)
Class Marshal (B : Type) : Type := marshal : B -> jsonError + JSON.

(** [json.Unmarshal(data, &v)] for the type of [v]: the value left in [v]
    (which may be partly filled when decoding fails) and the error. *)
Class Unmarshal (R : Type) : Type := unmarshal : string -> R -> R * option jsonError.

(** ** Errors (the errors file) *)

Inductive sentinel : Type :=
| ErrMissingPublishableKey
| ErrMissingSecretKey
| ErrInvalidEnvironment
| ErrNoKeysProvided.

Definition sentinel_text (e : sentinel) : string :=
  match e with
  | ErrMissingPublishableKey => "intasend: publishable key is required"
  | ErrMissingSecretKey => "intasend: secret key is required"
  | ErrInvalidEnvironment => "intasend: could not determine environment from keys"
  | ErrNoKeysProvided => "intasend: at least one API key must be provided"
  end.

(** [APIError].  [HTTPStatusCode] carries the tag [json:"-"]: the decoder
    never reads or writes it.  The other five fields are the ones the decoder
    sees, gathered in [APIErrorFields]. *)
Record APIError : Type := mkAPIError {
  HTTPStatusCode : Z;
  Code : string;
  Message : string;
  Detail : string;
  Errors : list (string * list string);
  RequestID : string
}.

Record APIErrorFields : Type := mkAPIErrorFields {
  fCode : string;
  fMessage : string;
  fDetail : string;
  fErrors : list (string * list string);
  fRequestID : string
}.

Definition decodedFields (e : APIError) : APIErrorFields :=
  {| fCode := Code e; fMessage := Message e; fDetail := Detail e;
     fErrors := Errors e; fRequestID := RequestID e |}.

Definition withDecodedFields (e : APIError) (f : APIErrorFields) : APIError :=
  {| HTTPStatusCode := HTTPStatusCode e;
     Code := fCode f; Message := fMessage f; Detail := fDetail f;
     Errors := fErrors f; RequestID := fRequestID f |}.

Definition withMessage (e : APIError) (m : string) : APIError :=
  {| HTTPStatusCode := HTTPStatusCode e;
     Code := Code e; Message := m; Detail := Detail e;
     Errors := Errors e; RequestID := RequestID e |}.

(** [json.Unmarshal(data, apiErr)] for [apiErr : *APIError]. *)
Definition unmarshalAPIError `{Unmarshal APIErrorFields}
  (data : string) (e : APIError) : APIError * option jsonError :=
  let '(f, err) := unmarshal data (decodedFields e) in (withDecodedFields e f, err).

Definition IsNotFound (e : APIError) : bool := HTTPStatusCode e =? 404.

Definition IsAuthenticationError (e : APIError) : bool :=
  (HTTPStatusCode e =? 401) || (HTTPStatusCode e =? 403).

Definition IsValidationError (e : APIError) : bool :=
  (HTTPStatusCode e =? 400) && (0 <? Z.of_nat (List.length (Errors e))).

Definition IsRateLimited (e : APIError) : bool := HTTPStatusCode e =? 429.

(** [context.Context.Err()] once the context is done. *)
Inductive ctxError : Type := Canceled | DeadlineExceeded.

(** Errors of the transport below the client ([net/http], [io]). *)
Inductive transportError : Type :=
| TransportCtx (e : ctxError)
| TransportFailure (what : string).

Record NetworkError : Type := mkNetworkError {
  Err : transportError;
  NetMessage : string
}.

Definition Unwrap (e : NetworkError) : transportError := Err e.

(** The dynamic type of an [error] value that leaves the package. *)
Inductive error : Type :=
| ESentinel (e : sentinel)
| EOption (what : string)
| EMarshalBody (e : jsonError)
| ECreateRequest (what : string)
| EContext (e : ctxError)
| EAPI (e : APIError)
| ENetwork (e : NetworkError)
| EUnmarshalResponse (e : jsonError).

(** [AsAPIError]: the [*APIError] inside an error, if it is one. *)
Definition AsAPIError (e : option error) : option APIError :=
  match e with
  | Some (EAPI a) => Some a
  | _ => None
  end.

Definition IsAPIError (e : option error) : bool :=
  match AsAPIError e with Some _ => true | None => false end.

Definition IsNetworkError (e : option error) : bool :=
  match e with Some (ENetwork _) => true | _ => false end.

(** ** The client ([intasend.go]) *)

Definition SandboxBaseURL : string := "https://sandbox.intasend.com/api/v1".
Definition ProductionBaseURL : string := "https://payment.intasend.com/api/v1".
Definition DefaultTimeout : Duration := 30 * Second.
Definition DefaultMaxRetries : Z := 3.
Definition DefaultRetryWait : Duration := 1 * Second.
Definition Version : string := "1.0.0".

(** [*http.Client]: the one [New] builds, or one handed in by the caller. *)
Inductive HTTPClient : Type :=
| OwnHTTPClient (Timeout : Duration)
| CallerHTTPClient (id : nat).

(** [Client].  The six service fields only point back at the client and are
    left out; a service method takes the client itself. *)
Record Client : Type := mkClient {
  publishableKey : string;
  secretKey : string;
  baseURL : string;
  httpClient : option HTTPClient;
  timeout : Duration;
  maxRetries : Z;
  retryWait : Duration;
  userAgent : string;
  debug : bool
}.

Definition setPublishableKey (c : Client) (v : string) : Client :=
  mkClient v (secretKey c) (baseURL c) (httpClient c) (timeout c)
           (maxRetries c) (retryWait c) (userAgent c) (debug c).

Definition setSecretKey (c : Client) (v : string) : Client :=
  mkClient (publishableKey c) v (baseURL c) (httpClient c) (timeout c)
           (maxRetries c) (retryWait c) (userAgent c) (debug c).

Definition setBaseURL (c : Client) (v : string) : Client :=
  mkClient (publishableKey c) (secretKey c) v (httpClient c) (timeout c)
           (maxRetries c) (retryWait c) (userAgent c) (debug c).

Definition setHTTPClient (c : Client) (v : option HTTPClient) : Client :=
  mkClient (publishableKey c) (secretKey c) (baseURL c) v (timeout c)
           (maxRetries c) (retryWait c) (userAgent c) (debug c).

Definition setTimeout (c : Client) (v : Duration) : Client :=
  mkClient (publishableKey c) (secretKey c) (baseURL c) (httpClient c) v
           (maxRetries c) (retryWait c) (userAgent c) (debug c).

Definition setRetry (c : Client) (n : Z) (w : Duration) : Client :=
  mkClient (publishableKey c) (secretKey c) (baseURL c) (httpClient c) (timeout c)
           n w (userAgent c) (debug c).

Definition setDebug (c : Client) (v : bool) : Client :=
  mkClient (publishableKey c) (secretKey c) (baseURL c) (httpClient c) (timeout c)
           (maxRetries c) (retryWait c) (userAgent c) v.

Definition setUserAgent (c : Client) (v : string) : Client :=
  mkClient (publishableKey c) (secretKey c) (baseURL c) (httpClient c) (timeout c)
           (maxRetries c) (retryWait c) v (debug c).

(** ** Options (the options file) *)

(** [type Option func(c *Client) error]: the client after the option ran, or
    the error it returned. *)
Definition Option : Type := Client -> error + Client.

Definition WithPublishableKey (key : string) : Option :=
  fun c => inr (setPublishableKey c key).

Definition WithSecretKey (key : string) : Option :=
  fun c => inr (setSecretKey c key).

Definition WithBaseURL (url : string) : Option :=
  fun c => inr (setBaseURL c url).

Definition WithHTTPClient (client : option HTTPClient) : Option :=
  fun c => inr (setHTTPClient c client).

Definition WithTimeout (t : Duration) : Option :=
  fun c => inr (setTimeout c t).

Definition WithRetry (n : Z) (waitTime : Duration) : Option :=
  fun c => inr (setRetry c n waitTime).

Definition WithDebug (d : bool) : Option :=
  fun c => inr (setDebug c d).

Definition WithUserAgent (ua : string) : Option :=
  fun c => inr (setUserAgent c ua).

Definition WithSandbox : Option :=
  fun c => inr (setBaseURL c SandboxBaseURL).

Definition WithProduction : Option :=
  fun c => inr (setBaseURL c ProductionBaseURL).

(** ** Construction *)

(** [detectEnvironment]: the base URL from the key prefixes, publishable key
    first; the client is left as it is when no prefix is recognised. *)
Definition detectEnvironment (c : Client) : Client :=
  if HasPrefix (publishableKey c) "ISPubKey_test" then setBaseURL c SandboxBaseURL
  else if HasPrefix (publishableKey c) "ISPubKey_live" then setBaseURL c ProductionBaseURL
  else if HasPrefix (secretKey c) "ISSecretKey_test" then setBaseURL c SandboxBaseURL
  else if HasPrefix (secretKey c) "ISSecretKey_live" then setBaseURL c ProductionBaseURL
  else c.

(** The client [New] starts from. *)
Definition initialClient : Client :=
  {| publishableKey := ""; secretKey := ""; baseURL := ""; httpClient := None;
     timeout := DefaultTimeout; maxRetries := DefaultMaxRetries;
     retryWait := DefaultRetryWait; userAgent := String.append "intasend-go/" Version;
     debug := false |}.

(** The loop over [opts] in [New]: the first option that fails ends it. *)
Fixpoint applyOptions (opts : list Option) (c : Client) : error + Client :=
  match opts with
  | [] => inr c
  | opt :: rest =>
      match opt c with
      | inl e => inl e
      | inr c' => applyOptions rest c'
      end
  end.

(** [New]: [inl err] stands for [(nil, err)], [inr c] for [(c, nil)]. *)
Definition New (opts : list Option) : error + Client :=
  match applyOptions opts initialClient with
  | inl e => inl e
  | inr c =>
      if isEmpty (publishableKey c) && isEmpty (secretKey c) then
        inl (ESentinel ErrNoKeysProvided)
      else
        let c := if isEmpty (baseURL c) then detectEnvironment c else c in
        if isEmpty (baseURL c) then inl (ESentinel ErrInvalidEnvironment)
        else
          let c := match httpClient c with
                   | None => setHTTPClient c (Some (OwnHTTPClient (timeout c)))
                   | Some _ => c
                   end in
          inr c
  end.

Definition IsSandbox (c : Client) : bool := String.eqb (baseURL c) SandboxBaseURL.

Definition IsProduction (c : Client) : bool := String.eqb (baseURL c) ProductionBaseURL.

(** ** The transport core ([http.go]) *)

Definition headerAuthorization : string := "Authorization".
Definition headerContentType : string := "Content-Type".
Definition headerPublicAPIKey : string := "X-IntaSend-Public-API-Key".
Definition headerIntaSendPublicKey : string := "INTASEND_PUBLIC_API_KEY".
Definition headerUserAgent : string := "User-Agent".
Definition contentTypeJSON : string := "application/json".

Definition MethodGet : string := "GET".
Definition MethodPost : string := "POST".

(** [requestConfig].  [body] and [result] are [interface{}] in the source:
    [None] is the nil interface, [Some] holds the payload, respectively the
    value behind the result pointer. *)
Record requestConfig (B R : Type) : Type := mkRequestConfig {
  method : string;
  path : string;
  body : option B;
  result : option R;
  requiresAuth : bool;
  publicKeyOnly : bool
}.

Arguments mkRequestConfig {B R} _ _ _ _ _ _.
Arguments method {B R} _.
Arguments path {B R} _.
Arguments body {B R} _.
Arguments result {B R} _.
Arguments requiresAuth {B R} _.
Arguments publicKeyOnly {B R} _.

(** [http.Header] with one value per name.  [Set] and [Get] canonicalise the
    name on both sides in the same way, and the five names used here stay
    pairwise distinct under it, so the map is keyed by the names as written. *)
Definition Header_Set (h : gmap string string) (name value : string) : gmap string string :=
  <[name := value]> h.

Definition Header_Get (h : gmap string string) (name : string) : option string :=
  h !! name.

(** [*http.Request] as handed to [httpClient.Do]. *)
Record Request : Type := mkRequest {
  reqMethod : string;
  reqURL : string;
  reqHeader : gmap string string;
  reqBody : option JSON
}.

(** What the world does during one pass of the retry loop: which case of the
    [select] is taken when the pass waits (read only when [attempt > 0]), and
    what comes back from [Do] and [io.ReadAll]. *)
Inductive selectOutcome : Type :=
| CtxDone (e : ctxError)
| TimerFired.

Inductive exchangeOutcome : Type :=
| DoFails (e : transportError)
| ReadFails (status : Z) (e : transportError)
| Response (status : Z) (respBody : string).

Record Round : Type := mkRound {
  selected : selectOutcome;
  exchange : exchangeOutcome
}.

(** What a call does that can be seen from outside. *)
Inductive event : Type :=
| EvWait (d : Duration)
| EvSend (r : Request).

(** How one pass of the loop ends: [continue] with the error recorded in
    [lastErr], or [return] with an error value and the value left behind the
    result pointer. *)
Inductive control (R : Type) : Type :=
| Continue (lastErr : option error)
| Return (err : option error) (res : option R).

Arguments Continue {R} _.
Arguments Return {R} _ _.

(** How a call ends.  [Starved]: the loop wants another pass and the world has
    no more rounds to offer, so the call has not returned. *)
Inductive completion (R : Type) : Type :=
| Done (err : option error) (res : option R)
| Starved.

Arguments Done {R} _ _.
Arguments Starved {R}.

(** [c.retryWait * time.Duration(1<<(attempt-1))], for [attempt > 0].  The
    constant [1] takes the type [time.Duration], so both the shift and the
    product are [int64] operations. *)
Definition waitTime (c : Client) (attempt : Z) : Duration :=
  mul64 (retryWait c) (shl64 1 (wrap64 (attempt - 1))).

(** What a pass does before it builds the request: from the second pass on
    it starts the backoff wait (lines 50-60). *)
Definition waitedBefore (c : Client) (attempt : Z) : list event :=
  if 0 <? attempt then [EvWait (waitTime c attempt)] else [].

(** The non-2xx test and the "client error other than 429" test of the loop. *)
Definition isErrorStatus (status : Z) : bool := (status <? 200) || (300 <=? status).

Definition isTerminalStatus (status : Z) : bool :=
  (400 <=? status) && (status <? 500) && negb (status =? 429).

Section Transport.

Context {B R : Type} `{Marshal B} `{Unmarshal R} `{Unmarshal APIErrorFields}.

(** [http.NewRequestWithContext(ctx, method, url, body)] for a non-nil
    context: the error it returns, if any (a malformed method or URL). *)
Variable newRequestError : string -> string -> option string.

(** The header block of lines 72-82. *)
Definition requestHeader (c : Client) (cfg : requestConfig B R) : gmap string string :=
  let h := Header_Set ∅ headerContentType contentTypeJSON in
  let h := Header_Set h headerUserAgent (userAgent c) in
  let h := if negb (isEmpty (publishableKey c))
           then Header_Set (Header_Set h headerPublicAPIKey (publishableKey c))
                           headerIntaSendPublicKey (publishableKey c)
           else h in
  if requiresAuth cfg && negb (isEmpty (secretKey c))
  then Header_Set h headerAuthorization (String.append "Bearer " (secretKey c))
  else h.

Definition buildRequest (c : Client) (cfg : requestConfig B R)
  (bodyBytes : option JSON) : Request :=
  {| reqMethod := method cfg;
     reqURL := String.append (baseURL c) (path cfg);
     reqHeader := requestHeader c cfg;
     reqBody := bodyBytes |}.

(** Lines 115-119: the [*APIError] built from a non-2xx response. *)
Definition apiErrorOf (status : Z) (respBody : string) : APIError :=
  let apiErr := mkAPIError status "" "" "" [] "" in
  match unmarshalAPIError respBody apiErr with
  | (apiErr, Some _) => withMessage apiErr respBody
  | (apiErr, None) => apiErr
  end.

(** Lines 129-135, the 2xx branch: the error returned and the value left
    behind the result pointer.  Decoding happens only when a result was asked
    for and the body is not empty. *)
Definition decodeResult (cfg : requestConfig B R) (respBody : string)
  : option error * option R :=
  match result cfg with
  | Some r =>
      if 0 <? Z.of_nat (String.length respBody) then
        match unmarshal respBody r with
        | (r', Some e) => (Some (EUnmarshalResponse e), Some r')
        | (r', None) => (None, Some r')
        end
      else (None, Some r)
  | None => (None, None)
  end.

(** One pass of the loop body (lines 50-135) at counter value [attempt]. *)
Definition attemptOnce (c : Client) (cfg : requestConfig B R)
  (bodyBytes : option JSON) (attempt : Z) (rd : Round) : list event * control R :=
  let waited := waitedBefore c attempt in
  match (if 0 <? attempt then selected rd else TimerFired) with
  | CtxDone e => (waited, Return (Some (EContext e)) (result cfg))
  | TimerFired =>
      match newRequestError (method cfg) (String.append (baseURL c) (path cfg)) with
      | Some what => (waited, Return (Some (ECreateRequest what)) (result cfg))
      | None =>
          let req := buildRequest c cfg bodyBytes in
          let sent := (waited ++ [EvSend req])%list in
          match exchange rd with
          | DoFails e =>
              (sent, Continue (Some (ENetwork (mkNetworkError e "request failed"))))
          | ReadFails _ e =>
              (sent, Continue (Some (ENetwork (mkNetworkError e "failed to read response"))))
          | Response status respBody =>
              if isErrorStatus status then
                let apiErr := apiErrorOf status respBody in
                if isTerminalStatus status
                then (sent, Return (Some (EAPI apiErr)) (result cfg))
                else (sent, Continue (Some (EAPI apiErr)))
              else
                let '(err, res) := decodeResult cfg respBody in
                (sent, Return err res)
          end
      end
  end.

(** The [for attempt := 0; attempt <= c.maxRetries; attempt++] loop and the
    final [return lastErr], started at [attempt] with [lastErr]; one round of
    the world per pass. *)
Fixpoint retryLoop (c : Client) (cfg : requestConfig B R) (bodyBytes : option JSON)
  (script : list Round) (attempt : Z) (lastErr : option error)
  {struct script} : list event * completion R :=
  if attempt <=? maxRetries c then
    match script with
    | [] => ([], Starved)
    | rd :: rest =>
        match attemptOnce c cfg bodyBytes attempt rd with
        | (evs, Return err res) => (evs, Done err res)
        | (evs, Continue lastErr') =>
            let '(evs', fin) :=
              retryLoop c cfg bodyBytes rest (wrap64 (attempt + 1)) lastErr' in
            ((evs ++ evs')%list, fin)
        end
    end
  else ([], Done lastErr (result cfg)).

(** [doRequest]: the payload is encoded once, then the loop runs. *)
Definition doRequest (c : Client) (cfg : requestConfig B R)
  (script : list Round) : list event * completion R :=
  match body cfg with
  | Some b =>
      match marshal b with
      | inl e => ([], Done (Some (EMarshalBody e)) (result cfg))
      | inr bodyBytes => retryLoop c cfg (Some bodyBytes) script 0 None
      end
  | None => retryLoop c cfg None script 0 None
  end.

(** [get], [post] and [postPublic]. *)
Definition get (c : Client) (path : string) (result : option R)
  (script : list Round) : list event * completion R :=
  doRequest c (mkRequestConfig MethodGet path None result true false) script.

Definition post (c : Client) (path : string) (body : option B) (result : option R)
  (script : list Round) : list event * completion R :=
  doRequest c (mkRequestConfig MethodPost path body result true false) script.

Definition postPublic (c : Client) (path : string) (body : option B) (result : option R)
  (script : list Round) : list event * completion R :=
  doRequest c (mkRequestConfig MethodPost path body result false true) script.

(** The payload as [doRequest] encodes it before the loop: the error of
    [json.Marshal], or the bytes handed to every attempt ([None] when there is
    no payload). *)
Definition encodedBody (cfg : requestConfig B R) : jsonError + option JSON :=
  match body cfg with
  | Some b =>
      match marshal b with
      | inl e => inl e
      | inr bodyBytes => inr (Some bodyBytes)
      end
  | None => inr None
  end.

(** The events of a pass that gets as far as sending, and of [n] such passes
    in a row from counter value [attempt] on. *)
Definition passEvents (c : Client) (cfg : requestConfig B R)
  (bodyBytes : option JSON) (attempt : Z) : list event :=
  (waitedBefore c attempt ++ [EvSend (buildRequest c cfg bodyBytes)])%list.

Fixpoint retryEvents (c : Client) (cfg : requestConfig B R)
  (bodyBytes : option JSON) (attempt : Z) (n : nat) : list event :=
  match n with
  | O => []
  | S n' =>
      (passEvents c cfg bodyBytes attempt
         ++ retryEvents c cfg bodyBytes (attempt + 1) n')%list
  end.

(** The request constructor accepts the method and URL of the call. *)
Definition requestAccepted (c : Client) (cfg : requestConfig B R) : Prop :=
  newRequestError (method cfg) (String.append (baseURL c) (path cfg)) = None.

End Transport.

(** A round in which the backoff wait (if any) runs to its end and the server
    answers with [status] and [respBody]. *)
Definition answers (rd : Round) (status : Z) (respBody : string) : Prop :=
  selected rd = TimerFired /\ exchange rd = Response status respBody.

(** A round after which the loop goes on to the next attempt, if it has one:
    the wait runs to its end and the exchange fails in the transport or is
    answered with a non-2xx status that is not a client error other than 429. *)
Definition retryableRound (rd : Round) : Prop :=
  selected rd = TimerFired /\
  match exchange rd with
  | DoFails _ | ReadFails _ _ => True
  | Response status _ => isErrorStatus status = true /\ isTerminalStatus status = false
  end.

(** A round of a server that answers 500. *)
Definition answers500 (rd : Round) : Prop := exists respBody, answers rd 500 respBody.

(** The requests among the events of a call, in order, and the waits. *)
Fixpoint requestsOf (evs : list event) : list Request :=
  match evs with
  | [] => []
  | EvSend r :: rest => r :: requestsOf rest
  | EvWait _ :: rest => requestsOf rest
  end.

Fixpoint waitsOf (evs : list event) : list Duration :=
  match evs with
  | [] => []
  | EvWait d :: rest => d :: waitsOf rest
  | EvSend _ :: rest => waitsOf rest
  end.

(** ** Resource operations *)

(** How a call of an operation ends: it returns [(value, err)], it has not
    returned because the world offers no further round, or it panics on a nil
    request pointer. *)
Inductive callOutcome (T : Type) : Type :=
| Returns (value : option T) (err : option error)
| NotReturned
| Panics.

Arguments Returns {T} _ _.
Arguments NotReturned {T}.
Arguments Panics {T}.

(** The three-way ending [if err != nil { return nil, err }; return &resp, nil]
    shared by all operations. *)
Definition finish {T : Type} (fin : completion T) : callOutcome T :=
  match fin with
  | Done (Some err) _ => Returns None (Some err)
  | Done None res => Returns res None
  | Starved => NotReturned
  end.

(** A JSON object from the fields of a struct, in declaration order; [None]
    from a field stands for a value [json.Marshal] refuses. *)
Definition marshalStruct (fields : list (option (list (string * JSON)))) : jsonError + JSON :=
  match foldr (fun f acc =>
                 match f, acc with
                 | Some ms, Some rest => Some (ms ++ rest)%list
                 | _, _ => None
                 end) (Some []) fields with
  | Some ms => inr (JObject ms)
  | None => inl (UnsupportedValue "float64")
  end.

(** *** [wallet.go] *)

Definition WalletTypeWorking : string := "WORKING".

Record CreateWalletRequest : Type := mkCreateWalletRequest {
  cwCurrency : string;
  cwLabel : string;
  cwWalletType : string;
  cwCanDisburse : bool
}.

#[export] Instance marshalCreateWalletRequest : Marshal CreateWalletRequest :=
  fun r => marshalStruct
    [ Some (fieldString "currency" (cwCurrency r));
      Some (fieldString "label" (cwLabel r));
      Some (fieldStringOmitEmpty "wallet_type" (cwWalletType r));
      Some (fieldBoolOmitEmpty "can_disburse" (cwCanDisburse r)) ].

Record FundMPesaRequest : Type := mkFundMPesaRequest {
  fmWalletID : string;
  fmPhoneNumber : string;
  fmAmount : float;
  fmEmail : string;
  fmAPIRef : string
}.

Record fundMPesaBody : Type := mkFundMPesaBody {
  fbPublicKey : string;
  fbWalletID : string;
  fbPhoneNumber : string;
  fbAmount : float;
  fbEmail : string;
  fbAPIRef : string;
  fbMethod : string;
  fbCurrency : string
}.

#[export] Instance marshalFundMPesaBody : Marshal fundMPesaBody :=
  fun b => marshalStruct
    [ Some (fieldStringOmitEmpty "public_key" (fbPublicKey b));
      Some (fieldString "wallet_id" (fbWalletID b));
      Some (fieldString "phone_number" (fbPhoneNumber b));
      fieldFloat "amount" (fbAmount b);
      Some (fieldStringOmitEmpty "email" (fbEmail b));
      Some (fieldStringOmitEmpty "api_ref" (fbAPIRef b));
      Some (fieldString "method" (fbMethod b));
      Some (fieldString "currency" (fbCurrency b)) ].

(** *** [collection.go] *)

Record STKPushRequest : Type := mkSTKPushRequest {
  spPhoneNumber : string;
  spAmount : float;
  spAPIRef : string;
  spName : string;
  spEmail : string;
  spWalletID : string
}.

Record stkPushRequestBody : Type := mkStkPushRequestBody {
  sbPublicKey : string;
  sbPhoneNumber : string;
  sbAmount : float;
  sbAPIRef : string;
  sbName : string;
  sbEmail : string;
  sbWalletID : string;
  sbMethod : string;
  sbCurrency : string
}.

#[export] Instance marshalStkPushRequestBody : Marshal stkPushRequestBody :=
  fun b => marshalStruct
    [ Some (fieldStringOmitEmpty "public_key" (sbPublicKey b));
      Some (fieldString "phone_number" (sbPhoneNumber b));
      fieldFloat "amount" (sbAmount b);
      Some (fieldStringOmitEmpty "api_ref" (sbAPIRef b));
      Some (fieldStringOmitEmpty "name" (sbName b));
      Some (fieldStringOmitEmpty "email" (sbEmail b));
      Some (fieldStringOmitEmpty "wallet_id" (sbWalletID b));
      Some (fieldString "method" (sbMethod b));
      Some (fieldString "currency" (sbCurrency b)) ].

Section Operations.

(** The response structs ([Wallet], [FundMPesaResponse], [STKPushResponse])
    are only ever decoded into: each is a type with its decoder and the zero
    value that [var resp T] declares. *)
Context {Wallet FundMPesaResponse STKPushResponse : Type}.
Context `{Unmarshal Wallet} `{Unmarshal FundMPesaResponse} `{Unmarshal STKPushResponse}.
Context `{Unmarshal APIErrorFields}.
Variable zeroWallet : Wallet.
Variable zeroFundMPesaResponse : FundMPesaResponse.
Variable zeroSTKPushResponse : STKPushResponse.
Variable newRequestError : string -> string -> option string.

(** [WalletService.Create].  [req] is a pointer into the caller's memory [h]
    (an address holding nothing is the nil pointer); the memory after the call
    is returned with the events and the ending.  [post] encodes what the
    pointer holds at the time of the call. *)
Definition WalletService_Create (c : Client) (h : gmap positive CreateWalletRequest)
  (req : positive) (script : list Round)
  : gmap positive CreateWalletRequest * list event * callOutcome Wallet :=
  match h !! req with
  | None => (h, [], Panics)
  | Some r =>
      let h' := if isEmpty (cwWalletType r)
                then <[req := mkCreateWalletRequest (cwCurrency r) (cwLabel r)
                                WalletTypeWorking (cwCanDisburse r)]> h
                else h in
      let '(evs, fin) :=
        post newRequestError c "/wallets/" (h' !! req) (Some zeroWallet) script in
      (h', evs, finish fin)
  end.

(** [WalletService.FundMPesa]; [None] for [req] is the nil pointer. *)
Definition WalletService_FundMPesa (c : Client) (req : option FundMPesaRequest)
  (script : list Round) : list event * callOutcome FundMPesaResponse :=
  match req with
  | None => ([], Panics)
  | Some req =>
      let body := {| fbPublicKey := publishableKey c;
                     fbWalletID := fmWalletID req;
                     fbPhoneNumber := fmPhoneNumber req;
                     fbAmount := fmAmount req;
                     fbEmail := fmEmail req;
                     fbAPIRef := fmAPIRef req;
                     fbMethod := "M-PESA";
                     fbCurrency := "KES" |} in
      let '(evs, fin) :=
        post newRequestError c "/payment/mpesa-stk-push/" (Some body)
             (Some zeroFundMPesaResponse) script in
      (evs, finish fin)
  end.

(** [CollectionService.MPesaSTKPush]; [None] for [req] is the nil pointer. *)
Definition CollectionService_MPesaSTKPush (c : Client) (req : option STKPushRequest)
  (script : list Round) : list event * callOutcome STKPushResponse :=
  match req with
  | None => ([], Panics)
  | Some req =>
      let body := {| sbPublicKey := publishableKey c;
                     sbPhoneNumber := spPhoneNumber req;
                     sbAmount := spAmount req;
                     sbAPIRef := spAPIRef req;
                     sbName := spName req;
                     sbEmail := spEmail req;
                     sbWalletID := spWalletID req;
                     sbMethod := "M-PESA";
                     sbCurrency := "KES" |} in
      let '(evs, fin) :=
        post newRequestError c "/payment/mpesa-stk-push/" (Some body)
             (Some zeroSTKPushResponse) script in
      (evs, finish fin)
  end.

End Operations.


(** ** Vocabulary for further properties of the transport core *)

(** The error values a pass hands back with [return], as opposed to those it
    records in [lastErr], which come out only when the budget is used up: no
    error (success), the context's error, a request that could not be built,
    a 2xx body that did not decode, and an [APIError] for a client error
    other than 429. *)
Definition returnedByPass (err : option error) : Prop :=
  match err with
  | None => True
  | Some (EContext _) => True
  | Some (ECreateRequest _) => True
  | Some (EUnmarshalResponse _) => True
  | Some (EAPI e) => isTerminalStatus (HTTPStatusCode e) = true
  | Some _ => False
  end.

(** An error that, when it is an [APIError], carries a status that is not a
    2xx one. *)
Definition carriesErrorStatus (err : option error) : Prop :=
  forall a, err = Some (EAPI a) -> isErrorStatus (HTTPStatusCode a) = true.



(** ** Vocabulary for further properties of construction *)

(** An option that sets a key or the endpoint and nothing else. *)
Definition setsKeyOrEndpoint (opt : Option) : Prop :=
  (exists key, opt = WithPublishableKey key) \/
  (exists key, opt = WithSecretKey key) \/
  (exists url, opt = WithBaseURL url) \/
  opt = WithSandbox \/ opt = WithProduction.


(** ** The other resource operations *)

(** More struct fields as [encoding/json] writes them: a [bool] field without
    [omitempty], and a [float64] field with it (dropped when the value equals
    zero, of either sign; NaN is not zero and is refused as before). *)
Definition fieldBool (name : string) (value : bool) : list (string * JSON) :=
  [(name, JBool value)].

Definition fieldFloatOmitEmpty (name : string) (value : float)
  : option (list (string * JSON)) :=
  if (value =? 0)%float then Some [] else fieldFloat name value.

(** A payload handed over as a pointer: [None] is the nil pointer, which
    [json.Marshal] writes as [null]. *)
#[export] Instance marshalPointer {T : Type} `{Marshal T} : Marshal (option T) :=
  fun p => match p with
           | None => inr JNull
           | Some v => marshal v
           end.

(** The payload type of a call that has no payload. *)
#[export] Instance marshalNoPayload : Marshal Empty_set :=
  fun e => match e with end.

(** [fmt.Sprintf] with one [%s] verb between two literal pieces. *)
Definition sprintf1 (before arg after : string) : string :=
  String.append before (String.append arg after).

(** *** [wallet.go], continued *)

Record IntraTransferRequest : Type := mkIntraTransferRequest {
  itSourceID : string;
  itDestinationID : string;
  itAmount : float;
  itNarrative : string
}.

Record intraTransferBody : Type := mkIntraTransferBody {
  ibWalletID : string;
  ibAmount : float;
  ibNarrative : string
}.

#[export] Instance marshalIntraTransferBody : Marshal intraTransferBody :=
  fun b => marshalStruct
    [ Some (fieldString "wallet_id" (ibWalletID b));
      fieldFloat "amount" (ibAmount b);
      Some (fieldString "narrative" (ibNarrative b)) ].

Record WalletCustomer : Type := mkWalletCustomer {
  wcFirstName : string;
  wcLastName : string;
  wcEmail : string;
  wcPhoneNumber : string;
  wcCountry : string;
  wcCity : string;
  wcAddress : string;
  wcState : string;
  wcZipcode : string
}.

Record FundCheckoutRequest : Type := mkFundCheckoutRequest {
  fcWalletID : string;
  fcAmount : float;
  fcCurrency : string;
  fcCustomer : WalletCustomer;
  fcHost : string;
  fcRedirectURL : string;
  fcAPIRef : string;
  fcCardTariff : string;
  fcMobileTariff : string
}.

Record fundCheckoutBody : Type := mkFundCheckoutBody {
  fkPublicKey : string;
  fkWalletID : string;
  fkAmount : float;
  fkCurrency : string;
  fkEmail : string;
  fkFirstName : string;
  fkLastName : string;
  fkPhoneNumber : string;
  fkCountry : string;
  fkHost : string;
  fkRedirectURL : string;
  fkAPIRef : string;
  fkCardTariff : string;
  fkMobileTariff : string
}.

#[export] Instance marshalFundCheckoutBody : Marshal fundCheckoutBody :=
  fun b => marshalStruct
    [ Some (fieldStringOmitEmpty "public_key" (fkPublicKey b));
      Some (fieldString "wallet_id" (fkWalletID b));
      fieldFloat "amount" (fkAmount b);
      Some (fieldString "currency" (fkCurrency b));
      Some (fieldString "email" (fkEmail b));
      Some (fieldStringOmitEmpty "first_name" (fkFirstName b));
      Some (fieldStringOmitEmpty "last_name" (fkLastName b));
      Some (fieldStringOmitEmpty "phone_number" (fkPhoneNumber b));
      Some (fieldStringOmitEmpty "country" (fkCountry b));
      Some (fieldString "host" (fkHost b));
      Some (fieldStringOmitEmpty "redirect_url" (fkRedirectURL b));
      Some (fieldStringOmitEmpty "api_ref" (fkAPIRef b));
      Some (fieldStringOmitEmpty "card_tarrif" (fkCardTariff b));
      Some (fieldStringOmitEmpty "mobile_tarrif" (fkMobileTariff b)) ].

(** *** [collection.go], continued *)

Record ChargeRequest : Type := mkChargeRequest {
  crFirstName : string;
  crLastName : string;
  crEmail : string;
  crPhoneNumber : string;
  crHost : string;
  crAmount : float;
  crCurrency : string;
  crAPIRef : string;
  crRedirectURL : string;
  crComment : string;
  crMethod : string;
  crWalletID : string;
  crCardTariff : string;
  crMobileTariff : string;
  crCountry : string;
  crAddress : string;
  crCity : string;
  crState : string;
  crZipcode : string
}.

Record chargeRequestBody : Type := mkChargeRequestBody {
  cbPublicKey : string;
  cbFirstName : string;
  cbLastName : string;
  cbEmail : string;
  cbPhoneNumber : string;
  cbHost : string;
  cbAmount : float;
  cbCurrency : string;
  cbAPIRef : string;
  cbRedirectURL : string;
  cbComment : string;
  cbMethod : string;
  cbWalletID : string;
  cbCardTariff : string;
  cbMobileTariff : string;
  cbCountry : string;
  cbAddress : string;
  cbCity : string;
  cbState : string;
  cbZipcode : string
}.

#[export] Instance marshalChargeRequestBody : Marshal chargeRequestBody :=
  fun b => marshalStruct
    [ Some (fieldStringOmitEmpty "public_key" (cbPublicKey b));
      Some (fieldStringOmitEmpty "first_name" (cbFirstName b));
      Some (fieldStringOmitEmpty "last_name" (cbLastName b));
      Some (fieldString "email" (cbEmail b));
      Some (fieldStringOmitEmpty "phone_number" (cbPhoneNumber b));
      Some (fieldString "host" (cbHost b));
      fieldFloat "amount" (cbAmount b);
      Some (fieldString "currency" (cbCurrency b));
      Some (fieldStringOmitEmpty "api_ref" (cbAPIRef b));
      Some (fieldStringOmitEmpty "redirect_url" (cbRedirectURL b));
      Some (fieldStringOmitEmpty "comment" (cbComment b));
      Some (fieldStringOmitEmpty "method" (cbMethod b));
      Some (fieldStringOmitEmpty "wallet_id" (cbWalletID b));
      Some (fieldStringOmitEmpty "card_tarrif" (cbCardTariff b));
      Some (fieldStringOmitEmpty "mobile_tarrif" (cbMobileTariff b));
      Some (fieldStringOmitEmpty "country" (cbCountry b));
      Some (fieldStringOmitEmpty "address" (cbAddress b));
      Some (fieldStringOmitEmpty "city" (cbCity b));
      Some (fieldStringOmitEmpty "state" (cbState b));
      Some (fieldStringOmitEmpty "zipcode" (cbZipcode b)) ].

Record StatusOptions : Type := mkStatusOptions {
  soCheckoutID : string;
  soSignature : string
}.

Record statusRequest : Type := mkStatusRequest {
  srInvoiceID : string;
  srPublicKey : string;
  srCheckoutID : string;
  srSignature : string
}.

#[export] Instance marshalStatusRequest : Marshal statusRequest :=
  fun r => marshalStruct
    [ Some (fieldString "invoice_id" (srInvoiceID r));
      Some (fieldStringOmitEmpty "public_key" (srPublicKey r));
      Some (fieldStringOmitEmpty "checkout_id" (srCheckoutID r));
      Some (fieldStringOmitEmpty "signature" (srSignature r)) ].

(** *** [checkout.go] *)

Record CheckoutCustomer : Type := mkCheckoutCustomer {
  ccFirstName : string;
  ccLastName : string;
  ccEmail : string;
  ccPhoneNumber : string;
  ccCountry : string;
  ccCity : string;
  ccAddress : string;
  ccState : string;
  ccZipcode : string
}.

Record CreateCheckoutRequest : Type := mkCreateCheckoutRequest {
  coAmount : float;
  coCurrency : string;
  coCustomer : CheckoutCustomer;
  coHost : string;
  coRedirectURL : string;
  coAPIRef : string;
  coComment : string;
  coMethod : string;
  coCardTariff : string;
  coMobileTariff : string;
  coWalletID : string
}.

Record createCheckoutBody : Type := mkCreateCheckoutBody {
  ckPublicKey : string;
  ckAmount : float;
  ckCurrency : string;
  ckEmail : string;
  ckFirstName : string;
  ckLastName : string;
  ckPhoneNumber : string;
  ckCountry : string;
  ckAddress : string;
  ckCity : string;
  ckState : string;
  ckZipcode : string;
  ckHost : string;
  ckRedirectURL : string;
  ckAPIRef : string;
  ckComment : string;
  ckMethod : string;
  ckCardTariff : string;
  ckMobileTariff : string;
  ckWalletID : string
}.

#[export] Instance marshalCreateCheckoutBody : Marshal createCheckoutBody :=
  fun b => marshalStruct
    [ Some (fieldStringOmitEmpty "public_key" (ckPublicKey b));
      fieldFloat "amount" (ckAmount b);
      Some (fieldString "currency" (ckCurrency b));
      Some (fieldString "email" (ckEmail b));
      Some (fieldStringOmitEmpty "first_name" (ckFirstName b));
      Some (fieldStringOmitEmpty "last_name" (ckLastName b));
      Some (fieldStringOmitEmpty "phone_number" (ckPhoneNumber b));
      Some (fieldStringOmitEmpty "country" (ckCountry b));
      Some (fieldStringOmitEmpty "address" (ckAddress b));
      Some (fieldStringOmitEmpty "city" (ckCity b));
      Some (fieldStringOmitEmpty "state" (ckState b));
      Some (fieldStringOmitEmpty "zipcode" (ckZipcode b));
      Some (fieldString "host" (ckHost b));
      Some (fieldStringOmitEmpty "redirect_url" (ckRedirectURL b));
      Some (fieldStringOmitEmpty "api_ref" (ckAPIRef b));
      Some (fieldStringOmitEmpty "comment" (ckComment b));
      Some (fieldStringOmitEmpty "method" (ckMethod b));
      Some (fieldStringOmitEmpty "card_tarrif" (ckCardTariff b));
      Some (fieldStringOmitEmpty "mobile_tarrif" (ckMobileTariff b));
      Some (fieldStringOmitEmpty "wallet_id" (ckWalletID b)) ].

Record CheckoutStatusRequest : Type := mkCheckoutStatusRequest {
  csSignature : string;
  csCheckoutID : string;
  csInvoiceID : string
}.

#[export] Instance marshalCheckoutStatusRequest : Marshal CheckoutStatusRequest :=
  fun r => marshalStruct
    [ Some (fieldString "signature" (csSignature r));
      Some (fieldString "checkout_id" (csCheckoutID r));
      Some (fieldString "invoice_id" (csInvoiceID r)) ].

(** *** The payout file *)

Definition ProviderMPesaB2C : string := "MPESA-B2C".
Definition ProviderMPesaB2B : string := "MPESA-B2B".
Definition ProviderPesaLink : string := "PESALINK".
Definition ProviderIntaSend : string := "INTASEND".
Definition ProviderAirtime : string := "AIRTIME".

Definition ApprovalRequired : string := "YES".
Definition ApprovalNotRequired : string := "NO".

Record Transaction : Type := mkTransaction {
  txName : string;
  txAccount : string;
  txAmount : string;
  txNarrative : string;
  txAccountType : string;
  txAccountReference : string;
  txBankCode : string
}.

(** A [Transaction] on the wire; all its fields are strings, so encoding it
    cannot fail. *)
Definition transactionJSON (t : Transaction) : JSON :=
  JObject (fieldStringOmitEmpty "name" (txName t)
           ++ fieldString "account" (txAccount t)
           ++ fieldString "amount" (txAmount t)
           ++ fieldStringOmitEmpty "narrative" (txNarrative t)
           ++ fieldStringOmitEmpty "account_type" (txAccountType t)
           ++ fieldStringOmitEmpty "account_reference" (txAccountReference t)
           ++ fieldStringOmitEmpty "bank_code" (txBankCode t))%list.

(** A Go slice: [None] is the nil slice, [Some l] a slice holding [l].
    [len] and [range] see no difference between nil and empty;
    [json.Marshal] does: nil is written [null], empty [[]]. *)
Definition sliceElems {A : Type} (s : option (list A)) : list A :=
  match s with
  | None => []
  | Some l => l
  end.

Definition transactionsJSON (s : option (list Transaction)) : JSON :=
  match s with
  | None => JNull
  | Some l => JArray (map transactionJSON l)
  end.

Record InitiateRequest : Type := mkInitiateRequest {
  irProvider : string;
  irCurrency : string;
  irTransactions : option (list Transaction);
  irCallbackURL : string;
  irWalletID : string;
  irRequiresApproval : string
}.

#[export] Instance marshalInitiateRequest : Marshal InitiateRequest :=
  fun r => marshalStruct
    [ Some (fieldString "provider" (irProvider r));
      Some (fieldString "currency" (irCurrency r));
      Some [("transactions", transactionsJSON (irTransactions r))];
      Some (fieldStringOmitEmpty "callback_url" (irCallbackURL r));
      Some (fieldStringOmitEmpty "wallet_id" (irWalletID r));
      Some (fieldStringOmitEmpty "requires_approval" (irRequiresApproval r)) ].

(** [MPesaRequest], [IntaSendTransferRequest] and [AirtimeRequest] are three
    struct types with the same five fields. *)
Record SimplePayoutRequest : Type := mkSimplePayoutRequest {
  prCurrency : string;
  prTransactions : option (list Transaction);
  prCallbackURL : string;
  prWalletID : string;
  prRequiresApproval : string
}.

Record B2BTransaction : Type := mkB2BTransaction {
  b2Name : string;
  b2Account : string;
  b2AccountType : string;
  b2AccountReference : string;
  b2Amount : string;
  b2Narrative : string
}.

Record MPesaB2BRequest : Type := mkMPesaB2BRequest {
  mbCurrency : string;
  mbTransactions : option (list B2BTransaction);
  mbCallbackURL : string;
  mbWalletID : string;
  mbRequiresApproval : string
}.

Record BankTransaction : Type := mkBankTransaction {
  bkName : string;
  bkAccount : string;
  bkBankCode : string;
  bkAmount : string;
  bkNarrative : string
}.

Record BankRequest : Type := mkBankRequest {
  brCurrency : string;
  brTransactions : option (list BankTransaction);
  brCallbackURL : string;
  brWalletID : string;
  brRequiresApproval : string
}.

Record ApproveRequest : Type := mkApproveRequest {
  apTrackingID : string;
  apNonce : string;
  apWalletID : string
}.

#[export] Instance marshalApproveRequest : Marshal ApproveRequest :=
  fun r => marshalStruct
    [ Some (fieldString "tracking_id" (apTrackingID r));
      Some (fieldStringOmitEmpty "nonce" (apNonce r));
      Some (fieldStringOmitEmpty "wallet_id" (apWalletID r)) ].

Record payoutStatusRequest : Type := mkPayoutStatusRequest {
  psTrackingID : string
}.

#[export] Instance marshalPayoutStatusRequest : Marshal payoutStatusRequest :=
  fun r => marshalStruct [ Some (fieldString "tracking_id" (psTrackingID r)) ].

(** The loops of [MPesaB2B] and [Bank]: one [Transaction] per element, in
    order, into a slice made with the length of the input. *)
Definition b2bTransaction (t : B2BTransaction) : Transaction :=
  {| txName := b2Name t; txAccount := b2Account t; txAmount := b2Amount t;
     txNarrative := b2Narrative t; txAccountType := b2AccountType t;
     txAccountReference := b2AccountReference t; txBankCode := "" |}.

Definition bankTransaction (t : BankTransaction) : Transaction :=
  {| txName := bkName t; txAccount := bkAccount t; txAmount := bkAmount t;
     txNarrative := bkNarrative t; txAccountType := "";
     txAccountReference := ""; txBankCode := bkBankCode t |}.

(** *** [paymentlink.go] and [refund.go] *)

Record CreatePaymentLinkRequest : Type := mkCreatePaymentLinkRequest {
  plTitle : string;
  plCurrency : string;
  plAmount : float;
  plMobileTariff : string;
  plCardTariff : string;
  plIsActive : bool
}.

#[export] Instance marshalCreatePaymentLinkRequest : Marshal CreatePaymentLinkRequest :=
  fun r => marshalStruct
    [ Some (fieldString "title" (plTitle r));
      Some (fieldString "currency" (plCurrency r));
      fieldFloatOmitEmpty "amount" (plAmount r);
      Some (fieldStringOmitEmpty "mobile_tarrif" (plMobileTariff r));
      Some (fieldStringOmitEmpty "card_tarrif" (plCardTariff r));
      Some (fieldBool "is_active" (plIsActive r)) ].

Record CreateChargebackRequest : Type := mkCreateChargebackRequest {
  cgInvoice : string;
  cgAmount : float;
  cgReason : string;
  cgReasonDetails : string
}.

#[export] Instance marshalCreateChargebackRequest : Marshal CreateChargebackRequest :=
  fun r => marshalStruct
    [ Some (fieldString "invoice" (cgInvoice r));
      fieldFloat "amount" (cgAmount r);
      Some (fieldString "reason" (cgReason r));
      Some (fieldStringOmitEmpty "reason_details" (cgReasonDetails r)) ].

Section MoreOperations.

(** Each operation below decodes into a response struct of its own; as
    before the response is a type [Resp] with its decoder and the zero value
    that [var resp T] declares, and every operation can be used at its own
    response type. *)
Context {Resp : Type} `{Unmarshal Resp} `{Unmarshal APIErrorFields}.
Variable zeroResp : Resp.
Variable newRequestError : string -> string -> option string.

(** [get] with no payload type to speak of. *)
Definition getInto (c : Client) (path : string) (script : list Round)
  : list event * callOutcome Resp :=
  let '(evs, fin) :=
    @get Empty_set Resp _ _ _ newRequestError c path (Some zeroResp) script in
  (evs, finish fin).

Definition postInto {P : Type} `{Marshal P} (c : Client) (path : string) (payload : P)
  (script : list Round) : list event * callOutcome Resp :=
  let '(evs, fin) := post newRequestError c path (Some payload) (Some zeroResp) script in
  (evs, finish fin).

Definition postPublicInto {P : Type} `{Marshal P} (c : Client) (path : string)
  (payload : P) (script : list Round) : list event * callOutcome Resp :=
  let '(evs, fin) :=
    postPublic newRequestError c path (Some payload) (Some zeroResp) script in
  (evs, finish fin).

(** [WalletService]: [List], [Get], [Transactions], [IntraTransfer],
    [FundCheckout]. *)
Definition WalletService_List (c : Client) (script : list Round)
  : list event * callOutcome Resp :=
  getInto c "/wallets/" script.

Definition WalletService_Get (c : Client) (walletID : string) (script : list Round)
  : list event * callOutcome Resp :=
  getInto c (sprintf1 "/wallets/" walletID "/") script.

Definition WalletService_Transactions (c : Client) (walletID : string)
  (script : list Round) : list event * callOutcome Resp :=
  getInto c (sprintf1 "/wallets/" walletID "/transactions/") script.

Definition WalletService_IntraTransfer (c : Client) (req : option IntraTransferRequest)
  (script : list Round) : list event * callOutcome Resp :=
  match req with
  | None => ([], Panics)
  | Some req =>
      let body := {| ibWalletID := itDestinationID req;
                     ibAmount := itAmount req;
                     ibNarrative := itNarrative req |} in
      let path := sprintf1 "/wallets/" (itSourceID req) "/intra_transfer/" in
      postInto c path body script
  end.

Definition WalletService_FundCheckout (c : Client) (req : option FundCheckoutRequest)
  (script : list Round) : list event * callOutcome Resp :=
  match req with
  | None => ([], Panics)
  | Some req =>
      let body := {| fkPublicKey := publishableKey c;
                     fkWalletID := fcWalletID req;
                     fkAmount := fcAmount req;
                     fkCurrency := fcCurrency req;
                     fkEmail := wcEmail (fcCustomer req);
                     fkFirstName := wcFirstName (fcCustomer req);
                     fkLastName := wcLastName (fcCustomer req);
                     fkPhoneNumber := wcPhoneNumber (fcCustomer req);
                     fkCountry := wcCountry (fcCustomer req);
                     fkHost := fcHost req;
                     fkRedirectURL := fcRedirectURL req;
                     fkAPIRef := fcAPIRef req;
                     fkCardTariff := fcCardTariff req;
                     fkMobileTariff := fcMobileTariff req |} in
      postPublicInto c "/checkout/" body script
  end.

(** [CollectionService]: [Charge] and [Status]. *)
Definition CollectionService_Charge (c : Client) (req : option ChargeRequest)
  (script : list Round) : list event * callOutcome Resp :=
  match req with
  | None => ([], Panics)
  | Some req =>
      let body := {| cbPublicKey := publishableKey c;
                     cbFirstName := crFirstName req;
                     cbLastName := crLastName req;
                     cbEmail := crEmail req;
                     cbPhoneNumber := crPhoneNumber req;
                     cbHost := crHost req;
                     cbAmount := crAmount req;
                     cbCurrency := crCurrency req;
                     cbAPIRef := crAPIRef req;
                     cbRedirectURL := crRedirectURL req;
                     cbComment := crComment req;
                     cbMethod := crMethod req;
                     cbWalletID := crWalletID req;
                     cbCardTariff := crCardTariff req;
                     cbMobileTariff := crMobileTariff req;
                     cbCountry := crCountry req;
                     cbAddress := crAddress req;
                     cbCity := crCity req;
                     cbState := crState req;
                     cbZipcode := crZipcode req |} in
      postPublicInto c "/checkout/" body script
  end.

Definition CollectionService_Status (c : Client) (invoiceID : string)
  (opts : option StatusOptions) (script : list Round)
  : list event * callOutcome Resp :=
  let req := {| srInvoiceID := invoiceID; srPublicKey := publishableKey c;
                srCheckoutID := ""; srSignature := "" |} in
  let req := match opts with
             | Some o => {| srInvoiceID := srInvoiceID req;
                            srPublicKey := srPublicKey req;
                            srCheckoutID := soCheckoutID o;
                            srSignature := soSignature o |}
             | None => req
             end in
  postPublicInto c "/payment/status/" req script.

(** [CheckoutService]: [Create] and [CheckStatus].  [CheckStatus] hands its
    pointer on without reading it. *)
Definition CheckoutService_Create (c : Client) (req : option CreateCheckoutRequest)
  (script : list Round) : list event * callOutcome Resp :=
  match req with
  | None => ([], Panics)
  | Some req =>
      let body := {| ckPublicKey := publishableKey c;
                     ckAmount := coAmount req;
                     ckCurrency := coCurrency req;
                     ckEmail := ccEmail (coCustomer req);
                     ckFirstName := ccFirstName (coCustomer req);
                     ckLastName := ccLastName (coCustomer req);
                     ckPhoneNumber := ccPhoneNumber (coCustomer req);
                     ckCountry := ccCountry (coCustomer req);
                     ckAddress := ccAddress (coCustomer req);
                     ckCity := ccCity (coCustomer req);
                     ckState := ccState (coCustomer req);
                     ckZipcode := ccZipcode (coCustomer req);
                     ckHost := coHost req;
                     ckRedirectURL := coRedirectURL req;
                     ckAPIRef := coAPIRef req;
                     ckComment := coComment req;
                     ckMethod := coMethod req;
                     ckCardTariff := coCardTariff req;
                     ckMobileTariff := coMobileTariff req;
                     ckWalletID := coWalletID req |} in
      postPublicInto c "/checkout/" body script
  end.

Definition CheckoutService_CheckStatus (c : Client) (req : option CheckoutStatusRequest)
  (script : list Round) : list event * callOutcome Resp :=
  postPublicInto c "/payment/status/" req script.

(** [PayoutService].  [Initiate] and [Approve] hand their pointer on without
    reading it; the five provider methods read theirs and go through
    [Initiate]. *)
Definition PayoutService_Initiate (c : Client) (req : option InitiateRequest)
  (script : list Round) : list event * callOutcome Resp :=
  postInto c "/send-money/initiate/" req script.

Definition initiateWith (provider : string) (req : SimplePayoutRequest) : InitiateRequest :=
  {| irProvider := provider;
     irCurrency := prCurrency req;
     irTransactions := prTransactions req;
     irCallbackURL := prCallbackURL req;
     irWalletID := prWalletID req;
     irRequiresApproval := prRequiresApproval req |}.

Definition PayoutService_MPesa (c : Client) (req : option SimplePayoutRequest)
  (script : list Round) : list event * callOutcome Resp :=
  match req with
  | None => ([], Panics)
  | Some req => PayoutService_Initiate c (Some (initiateWith ProviderMPesaB2C req)) script
  end.

Definition PayoutService_MPesaB2B (c : Client) (req : option MPesaB2BRequest)
  (script : list Round) : list event * callOutcome Resp :=
  match req with
  | None => ([], Panics)
  | Some req =>
      let transactions := Some (map b2bTransaction (sliceElems (mbTransactions req))) in
      let initReq := {| irProvider := ProviderMPesaB2B;
                        irCurrency := mbCurrency req;
                        irTransactions := transactions;
                        irCallbackURL := mbCallbackURL req;
                        irWalletID := mbWalletID req;
                        irRequiresApproval := mbRequiresApproval req |} in
      PayoutService_Initiate c (Some initReq) script
  end.

Definition PayoutService_Bank (c : Client) (req : option BankRequest)
  (script : list Round) : list event * callOutcome Resp :=
  match req with
  | None => ([], Panics)
  | Some req =>
      let transactions := Some (map bankTransaction (sliceElems (brTransactions req))) in
      let initReq := {| irProvider := ProviderPesaLink;
                        irCurrency := brCurrency req;
                        irTransactions := transactions;
                        irCallbackURL := brCallbackURL req;
                        irWalletID := brWalletID req;
                        irRequiresApproval := brRequiresApproval req |} in
      PayoutService_Initiate c (Some initReq) script
  end.

Definition PayoutService_IntaSend (c : Client) (req : option SimplePayoutRequest)
  (script : list Round) : list event * callOutcome Resp :=
  match req with
  | None => ([], Panics)
  | Some req => PayoutService_Initiate c (Some (initiateWith ProviderIntaSend req)) script
  end.

Definition PayoutService_Airtime (c : Client) (req : option SimplePayoutRequest)
  (script : list Round) : list event * callOutcome Resp :=
  match req with
  | None => ([], Panics)
  | Some req => PayoutService_Initiate c (Some (initiateWith ProviderAirtime req)) script
  end.

Definition PayoutService_Approve (c : Client) (req : option ApproveRequest)
  (script : list Round) : list event * callOutcome Resp :=
  postInto c "/send-money/approve/" req script.

Definition PayoutService_Status (c : Client) (trackingID : string)
  (script : list Round) : list event * callOutcome Resp :=
  postInto c "/send-money/status/" (Some {| psTrackingID := trackingID |}) script.

(** [PaymentLinkService] and [RefundService]. *)
Definition PaymentLinkService_List (c : Client) (script : list Round)
  : list event * callOutcome Resp :=
  getInto c "/paymentlinks/" script.

Definition PaymentLinkService_Create (c : Client) (req : option CreatePaymentLinkRequest)
  (script : list Round) : list event * callOutcome Resp :=
  postInto c "/paymentlinks/" req script.

Definition PaymentLinkService_Get (c : Client) (linkID : string) (script : list Round)
  : list event * callOutcome Resp :=
  getInto c (sprintf1 "/paymentlinks/" linkID "/") script.

Definition RefundService_List (c : Client) (script : list Round)
  : list event * callOutcome Resp :=
  getInto c "/chargebacks/" script.

Definition RefundService_Create (c : Client) (req : option CreateChargebackRequest)
  (script : list Round) : list event * callOutcome Resp :=
  postInto c "/chargebacks/" req script.

Definition RefundService_Get (c : Client) (chargebackID : string) (script : list Round)
  : list event * callOutcome Resp :=
  getInto c (sprintf1 "/chargebacks/" chargebackID "/") script.

End MoreOperations.


(** ** Error texts (the errors file) *)

(** The [%d] verb of [fmt.Sprintf] on an [int]. *)
Definition formatInt (n : Z) : string := NilZero.string_of_int (Z.to_int n).

(** [APIError.Error]: the message if there is one, else the detail if there
    is one, else the status alone. *)
Definition APIError_Error (e : APIError) : string :=
  if negb (isEmpty (Message e)) then
    String.append "intasend: API error (HTTP "
      (String.append (formatInt (HTTPStatusCode e))
         (String.append "): " (Message e)))
  else if negb (isEmpty (Detail e)) then
    String.append "intasend: API error (HTTP "
      (String.append (formatInt (HTTPStatusCode e))
         (String.append "): " (Detail e)))
  else
    String.append "intasend: API error (HTTP "
      (String.append (formatInt (HTTPStatusCode e)) ")").

(** ** A small world for running the definitions

    Stand-ins for the parameters, used to evaluate calls on concrete inputs:
    a decoder that accepts the empty object [{}] (which sets no field) and
    reports a syntax error on anything else, and a request constructor that
    accepts every method and URL. *)

Definition decodeEmptyObject {T : Type} (data : string) (v : T) : T * option jsonError :=
  if String.eqb data "{}" then (v, None)
  else (v, Some (SyntaxError "invalid character looking for beginning of value")).

Definition emptyObjectDecoder (T : Type) : Unmarshal T := decodeEmptyObject.

Definition acceptAnyRequest (method url : string) : option string := None.

(** A payload type for calls without a body. *)
#[export] Instance marshalUnit : Marshal unit := fun _ => inr JNull.

(** The client of the test suite's helper: sandbox keys, no retries. *)
Definition testClient (retries : Z) (wait : Duration) : Client :=
  {| publishableKey := "ISPubKey_test_abc123";
     secretKey := "ISSecretKey_test_secret";
     baseURL := "http://127.0.0.1:8080";
     httpClient := Some (CallerHTTPClient 0);
     timeout := DefaultTimeout;
     maxRetries := retries;
     retryWait := wait;
     userAgent := String.append "intasend-go/" Version;
     debug := false |}.

(** The descriptor of [Wallet().List]: [get] on [/wallets/], decoding into a
    response value. *)
Definition walletListConfig : requestConfig unit unit :=
  mkRequestConfig MethodGet "/wallets/" None (Some tt) true false.

(** [doRequest] in the small world. *)
Definition runList (c : Client) (script : list Round) : list event * completion unit :=
  @doRequest unit unit marshalUnit (emptyObjectDecoder unit)
    (emptyObjectDecoder APIErrorFields) acceptAnyRequest c walletListConfig script.

(** The [APIError] the small world builds from an answer. *)
Definition sampleAPIError (status : Z) (respBody : string) : APIError :=
  @apiErrorOf (emptyObjectDecoder APIErrorFields) status respBody.

(** The three operations in the small world; the response structs are
    stood in for by [unit]. *)
Definition runCreate (c : Client) (h : gmap positive CreateWalletRequest)
  (req : positive) (script : list Round)
  : gmap positive CreateWalletRequest * list event * callOutcome unit :=
  @WalletService_Create unit (emptyObjectDecoder unit)
    (emptyObjectDecoder APIErrorFields) tt acceptAnyRequest c h req script.

Definition runFundMPesa (c : Client) (req : option FundMPesaRequest)
  (script : list Round) : list event * callOutcome unit :=
  @WalletService_FundMPesa unit (emptyObjectDecoder unit)
    (emptyObjectDecoder APIErrorFields) tt acceptAnyRequest c req script.

Definition runMPesaSTKPush (c : Client) (req : option STKPushRequest)
  (script : list Round) : list event * callOutcome unit :=
  @CollectionService_MPesaSTKPush unit (emptyObjectDecoder unit)
    (emptyObjectDecoder APIErrorFields) tt acceptAnyRequest c req script.

(** The requests of the test suite. *)
Definition sampleFundMPesaRequest : FundMPesaRequest :=
  {| fmWalletID := "W-001"; fmPhoneNumber := "254712345678"; fmAmount := 5000%float;
     fmEmail := "test@example.com"; fmAPIRef := "" |}.

Definition sampleSTKPushRequest : STKPushRequest :=
  {| spPhoneNumber := "254712345678"; spAmount := 100%float; spAPIRef := "order-123";
     spName := ""; spEmail := ""; spWalletID := "" |}.

Definition sampleCreateWalletRequest : CreateWalletRequest :=
  {| cwCurrency := "KES"; cwLabel := "Test Wallet"; cwWalletType := "";
     cwCanDisburse := false |}.

(** A server that answers 200 with an empty object. *)
Definition okRound : Round := mkRound TimerFired (Response 200 "{}").

(** A server that keeps answering 500 with a body no decoder accepts. *)
Definition failingRound : Round :=
  mkRound TimerFired (Response 500 "upstream exploded").


(** Further rounds and parameters of the small world: a connection that is
    refused, a context found cancelled, a rate-limiting server, and a request
    constructor that refuses every URL. *)
Definition refusedRound : Round :=
  mkRound TimerFired (DoFails (TransportFailure "connection refused")).


Definition rateLimitedRound : Round :=
  mkRound TimerFired (Response 429 "slow down").

Definition rejectAnyRequest (method url : string) : option string :=
  Some "parse: invalid URL".


(** A server that answers 204 with no body. *)
Definition noContentRound : Round := mkRound TimerFired (Response 204 "").

(** A server that answers 404 with a body no decoder accepts. *)
Definition notFoundRound : Round := mkRound TimerFired (Response 404 "no such wallet").

(** Requests for the other operations, after the examples of the package
    documentation. *)
Definition sampleIntraTransferRequest : IntraTransferRequest :=
  {| itSourceID := "W-SRC"; itDestinationID := "W-DST"; itAmount := 1000%float;
     itNarrative := "" |}.

Definition sampleWalletCustomer : WalletCustomer :=
  {| wcFirstName := "John"; wcLastName := "Doe"; wcEmail := "john@example.com";
     wcPhoneNumber := "254712345678"; wcCountry := "KE"; wcCity := "Nairobi";
     wcAddress := "1 Moi Avenue"; wcState := "Nairobi"; wcZipcode := "00100" |}.

Definition sampleFundCheckoutRequest : FundCheckoutRequest :=
  {| fcWalletID := "W-001"; fcAmount := 5000%float; fcCurrency := "KES";
     fcCustomer := sampleWalletCustomer; fcHost := "https://example.com";
     fcRedirectURL := ""; fcAPIRef := ""; fcCardTariff := ""; fcMobileTariff := "" |}.

Definition sampleCheckoutCustomer : CheckoutCustomer :=
  {| ccFirstName := "John"; ccLastName := "Doe"; ccEmail := "john@example.com";
     ccPhoneNumber := "254712345678"; ccCountry := "KE"; ccCity := "Nairobi";
     ccAddress := "1 Moi Avenue"; ccState := "Nairobi"; ccZipcode := "00100" |}.

Definition sampleCreateCheckoutRequest : CreateCheckoutRequest :=
  {| coAmount := 1000%float; coCurrency := "KES"; coCustomer := sampleCheckoutCustomer;
     coHost := "https://example.com"; coRedirectURL := ""; coAPIRef := "";
     coComment := ""; coMethod := ""; coCardTariff := ""; coMobileTariff := "";
     coWalletID := "" |}.


Definition sampleTransaction : Transaction :=
  {| txName := "John Doe"; txAccount := "254712345678"; txAmount := "1000";
     txNarrative := "Salary"; txAccountType := ""; txAccountReference := "";
     txBankCode := "" |}.

Definition sampleMPesaRequest : SimplePayoutRequest :=
  {| prCurrency := "KES"; prTransactions := Some [sampleTransaction];
     prCallbackURL := ""; prWalletID := ""; prRequiresApproval := "" |}.

Definition sampleEmptyPayoutRequest : SimplePayoutRequest :=
  {| prCurrency := "KES"; prTransactions := None;
     prCallbackURL := ""; prWalletID := ""; prRequiresApproval := "" |}.

Definition sampleB2BTransaction : B2BTransaction :=
  {| b2Name := "Business Ltd"; b2Account := "247247"; b2AccountType := "PayBill";
     b2AccountReference := "1001200010"; b2Amount := "10000"; b2Narrative := "Invoice" |}.

Definition sampleMPesaB2BRequest : MPesaB2BRequest :=
  {| mbCurrency := "KES"; mbTransactions := Some [sampleB2BTransaction];
     mbCallbackURL := ""; mbWalletID := ""; mbRequiresApproval := "YES" |}.

Definition sampleBankTransaction : BankTransaction :=
  {| bkName := "John Doe"; bkAccount := "0123456789"; bkBankCode := "2";
     bkAmount := "5000"; bkNarrative := "Payment" |}.

Definition sampleBankRequest : BankRequest :=
  {| brCurrency := "KES"; brTransactions := Some [sampleBankTransaction];
     brCallbackURL := ""; brWalletID := ""; brRequiresApproval := "" |}.

Definition samplePaymentLinkRequest : CreatePaymentLinkRequest :=
  {| plTitle := "Donations"; plCurrency := "KES"; plAmount := 0%float;
     plMobileTariff := ""; plCardTariff := ""; plIsActive := false |}.

Definition sampleChargebackRequest : CreateChargebackRequest :=
  {| cgInvoice := "INV-001"; cgAmount := infinity; cgReason := "Duplicate payment";
     cgReasonDetails := "" |}.


(** An option that fails, as a caller may write one. *)
Definition failingOption (what : string) : Option := fun _ => inl (EOption what).

(** * Properties *)

(** ** Strings and machine integers *)

Lemma isEmpty_true (s : string) : isEmpty s = true <-> s = "".
Proof. unfold isEmpty. apply String.eqb_eq. Qed.

Lemma isEmpty_false (s : string) : isEmpty s = false <-> s <> "".
Proof. unfold isEmpty. apply String.eqb_neq. Qed.

Lemma HasPrefix_substring (s p : string) :
  HasPrefix s p = true -> substring 0 (String.length p) s = p.
Proof. unfold HasPrefix. apply prefix_correct. Qed.

Lemma HasPrefix_nonempty (s p : string) :
  p <> "" -> HasPrefix s p = true -> isEmpty s = false.
Proof.
  intros Hp Hs. apply isEmpty_false. intros ->.
  destruct p; [congruence | discriminate Hs].
Qed.

(** Two different prefixes of the same length never match the same key. *)
Lemma HasPrefix_exclusive (s p q : string) :
  String.length p = String.length q -> p <> q ->
  HasPrefix s p = true -> HasPrefix s q = false.
Proof.
  intros Hlen Hne Hp. destruct (HasPrefix s q) eqn:Hq; [| reflexivity].
  apply HasPrefix_substring in Hp, Hq. rewrite Hlen in Hp. congruence.
Qed.

(** ** Construction *)

Lemma detectEnvironment_keys (c : Client) :
  publishableKey (detectEnvironment c) = publishableKey c /\
  secretKey (detectEnvironment c) = secretKey c.
Proof.
  unfold detectEnvironment.
  repeat match goal with |- context [if ?b then _ else _] => destruct b end;
    split; reflexivity.
Qed.

(** What [New] does once the options have run, case by case. *)
Lemma New_after_options (opts : list Option) (c : Client) :
  applyOptions opts initialClient = inr c ->
  New opts =
    if isEmpty (publishableKey c) && isEmpty (secretKey c)
    then inl (ESentinel ErrNoKeysProvided)
    else
      let c1 := if isEmpty (baseURL c) then detectEnvironment c else c in
      if isEmpty (baseURL c1) then inl (ESentinel ErrInvalidEnvironment)
      else inr (match httpClient c1 with
                | None => setHTTPClient c1 (Some (OwnHTTPClient (timeout c1)))
                | Some _ => c1
                end).
Proof. intros Hopts. unfold New. rewrite Hopts. reflexivity. Qed.

Lemma New_detects (opts : list Option) (c : Client) (url : string) :
  applyOptions opts initialClient = inr c ->
  baseURL c = "" ->
  detectEnvironment c = setBaseURL c url ->
  url <> "" ->
  isEmpty (publishableKey c) && isEmpty (secretKey c) = false ->
  exists c', New opts = inr c' /\ baseURL c' = url /\
             publishableKey c' = publishableKey c /\ secretKey c' = secretKey c.
Proof.
  intros Hopts Hurl Hdet Hne Hkeys.
  rewrite (New_after_options _ _ Hopts), Hkeys.
  assert (He : isEmpty (baseURL c) = true) by (apply isEmpty_true; exact Hurl).
  rewrite He. cbn zeta. rewrite Hdet.
  assert (Hu : isEmpty (baseURL (setBaseURL c url)) = false)
    by (apply isEmpty_false; exact Hne).
  rewrite Hu.
  eexists. split; [reflexivity |].
  destruct (httpClient (setBaseURL c url)); cbn; auto.
Qed.

Lemma keys_present_l (p s : string) : isEmpty p = false -> isEmpty p && isEmpty s = false.
Proof. intros ->. reflexivity. Qed.

Lemma keys_present_r (p s : string) : isEmpty s = false -> isEmpty p && isEmpty s = false.
Proof. intros ->. apply andb_false_r. Qed.

(** C5.  Environment selection by [New].  Let [c] be the configuration the
    options leave behind.  Without an endpoint override (empty base URL): a
    test-prefixed publishable key gives the sandbox endpoint and [IsSandbox]
    is true, a live-prefixed one gives production, whatever the secret key
    is; the secret key decides, by the same rule, only when the publishable
    key has neither prefix.  A non-empty override is kept as it is, whatever
    the keys are.  With both keys empty construction fails with
    [ErrNoKeysProvided]; with keys of no recognised prefix and no override it
    fails with [ErrInvalidEnvironment]; in both failures no client is
    returned. *)
Theorem New_environment_selection (opts : list Option) (c : Client) :
  applyOptions opts initialClient = inr c ->
  (baseURL c = "" -> HasPrefix (publishableKey c) "ISPubKey_test" = true ->
   exists c', New opts = inr c' /\ baseURL c' = SandboxBaseURL /\
              IsSandbox c' = true /\ IsProduction c' = false) /\
  (baseURL c = "" -> HasPrefix (publishableKey c) "ISPubKey_live" = true ->
   exists c', New opts = inr c' /\ baseURL c' = ProductionBaseURL /\
              IsProduction c' = true /\ IsSandbox c' = false) /\
  (baseURL c = "" ->
   HasPrefix (publishableKey c) "ISPubKey_test" = false ->
   HasPrefix (publishableKey c) "ISPubKey_live" = false ->
   HasPrefix (secretKey c) "ISSecretKey_test" = true ->
   exists c', New opts = inr c' /\ baseURL c' = SandboxBaseURL /\
              IsSandbox c' = true) /\
  (baseURL c = "" ->
   HasPrefix (publishableKey c) "ISPubKey_test" = false ->
   HasPrefix (publishableKey c) "ISPubKey_live" = false ->
   HasPrefix (secretKey c) "ISSecretKey_live" = true ->
   exists c', New opts = inr c' /\ baseURL c' = ProductionBaseURL /\
              IsProduction c' = true) /\
  (baseURL c <> "" -> publishableKey c <> "" \/ secretKey c <> "" ->
   exists c', New opts = inr c' /\ baseURL c' = baseURL c) /\
  (publishableKey c = "" -> secretKey c = "" ->
   New opts = inl (ESentinel ErrNoKeysProvided)) /\
  (baseURL c = "" -> publishableKey c <> "" \/ secretKey c <> "" ->
   HasPrefix (publishableKey c) "ISPubKey_test" = false ->
   HasPrefix (publishableKey c) "ISPubKey_live" = false ->
   HasPrefix (secretKey c) "ISSecretKey_test" = false ->
   HasPrefix (secretKey c) "ISSecretKey_live" = false ->
   New opts = inl (ESentinel ErrInvalidEnvironment)).
Proof.
  intros Hopts.
  assert (Hkeys : publishableKey c <> "" \/ secretKey c <> "" ->
                  isEmpty (publishableKey c) && isEmpty (secretKey c) = false).
  { intros [Hk | Hk]; [apply keys_present_l | apply keys_present_r];
      apply isEmpty_false; exact Hk. }
  repeat split.
  - intros Hurl Hp.
    destruct (New_detects opts c SandboxBaseURL Hopts Hurl) as (c' & HN & Hb & _).
    + unfold detectEnvironment. rewrite Hp. reflexivity.
    + discriminate.
    + apply keys_present_l. eapply HasPrefix_nonempty; [| exact Hp]. discriminate.
    + exists c'. unfold IsSandbox, IsProduction. rewrite Hb. auto.
  - intros Hurl Hp.
    assert (Ht : HasPrefix (publishableKey c) "ISPubKey_test" = false)
      by (eapply HasPrefix_exclusive; [| | exact Hp]; [reflexivity | discriminate]).
    destruct (New_detects opts c ProductionBaseURL Hopts Hurl) as (c' & HN & Hb & _).
    + unfold detectEnvironment. rewrite Ht, Hp. reflexivity.
    + discriminate.
    + apply keys_present_l. eapply HasPrefix_nonempty; [| exact Hp]. discriminate.
    + exists c'. unfold IsSandbox, IsProduction. rewrite Hb. auto.
  - intros Hurl Ht Hl Hs.
    destruct (New_detects opts c SandboxBaseURL Hopts Hurl) as (c' & HN & Hb & _).
    + unfold detectEnvironment. rewrite Ht, Hl, Hs. reflexivity.
    + discriminate.
    + apply keys_present_r. eapply HasPrefix_nonempty; [| exact Hs]. discriminate.
    + exists c'. unfold IsSandbox. rewrite Hb. auto.
  - intros Hurl Ht Hl Hs.
    assert (Hst : HasPrefix (secretKey c) "ISSecretKey_test" = false)
      by (eapply HasPrefix_exclusive; [| | exact Hs]; [reflexivity | discriminate]).
    destruct (New_detects opts c ProductionBaseURL Hopts Hurl) as (c' & HN & Hb & _).
    + unfold detectEnvironment. rewrite Ht, Hl, Hst, Hs. reflexivity.
    + discriminate.
    + apply keys_present_r. eapply HasPrefix_nonempty; [| exact Hs]. discriminate.
    + exists c'. unfold IsProduction. rewrite Hb. auto.
  - intros Hurl Hk.
    rewrite (New_after_options _ _ Hopts), (Hkeys Hk).
    apply isEmpty_false in Hurl. rewrite Hurl. cbn zeta. rewrite Hurl.
    eexists. split; [reflexivity |]. destruct (httpClient c); reflexivity.
  - intros Hp Hs.
    rewrite (New_after_options _ _ Hopts), Hp, Hs. reflexivity.
  - intros Hurl Hk Hpt Hpl Hst Hsl.
    rewrite (New_after_options _ _ Hopts), (Hkeys Hk).
    unfold detectEnvironment. rewrite Hpt, Hpl, Hst, Hsl, Hurl.
    cbn. rewrite Hurl. reflexivity.
Qed.

(** A test publishable key next to a live secret key: the publishable key is
    the one that decides. *)
Lemma New_environment_selection_witness :
  exists c',
    New [WithPublishableKey "ISPubKey_test_abc123"; WithSecretKey "ISSecretKey_live_k9"]
      = inr c' /\
    baseURL c' = SandboxBaseURL /\ IsSandbox c' = true /\ IsProduction c' = false.
Proof.
  apply (proj1 (New_environment_selection
                  [WithPublishableKey "ISPubKey_test_abc123";
                   WithSecretKey "ISSecretKey_live_k9"]
                  _ eq_refl)); reflexivity.
Defined.

(** ** Machine integers *)

(** Range side conditions: open the [int64] bounds and leave the rest to [lia]. *)
Ltac int64_arith :=
  unfold in_int64, int64_min, int64_max in *; cbn [maxRetries retryWait] in *; lia.

Lemma wrap64_id (z : Z) : in_int64 z -> wrap64 z = z.
Proof.
  unfold in_int64, int64_min, int64_max, wrap64. intros Hz.
  rewrite Z.mod_small by lia. lia.
Qed.

Lemma wrap64_range (z : Z) : in_int64 (wrap64 z).
Proof.
  unfold in_int64, int64_min, int64_max, wrap64.
  pose proof (Z.mod_pos_bound (z + 2 ^ 63) (2 ^ 64) ltac:(lia)). lia.
Qed.

Lemma shl64_one (s : Z) : 0 <= s <= 62 -> shl64 1 s = 2 ^ s.
Proof.
  intros Hs. unfold shl64. rewrite Z.shiftl_1_l.
  apply wrap64_id. unfold in_int64, int64_min, int64_max.
  assert (0 < 2 ^ s) by (apply Z.pow_pos_nonneg; lia).
  assert (2 ^ s <= 2 ^ 62) by (apply Z.pow_le_mono_r; lia).
  lia.
Qed.

(** The wait computed by the loop, as a formula over the integers. *)
Lemma waitTime_unfold (c : Client) (n : Z) :
  1 <= n <= int64_max ->
  waitTime c n = wrap64 (retryWait c * wrap64 (2 ^ (n - 1))).
Proof.
  intros Hn. unfold waitTime, mul64, shl64.
  rewrite (wrap64_id (n - 1)) by int64_arith.
  rewrite Z.shiftl_1_l. reflexivity.
Qed.

Lemma waitTime_exact (c : Client) (n : Z) :
  1 <= n <= 63 -> in_int64 (retryWait c * 2 ^ (n - 1)) ->
  waitTime c n = retryWait c * 2 ^ (n - 1).
Proof.
  intros Hn Hfit. unfold waitTime, mul64.
  rewrite (wrap64_id (n - 1)) by (unfold in_int64, int64_min, int64_max; lia).
  rewrite shl64_one by lia. apply wrap64_id. exact Hfit.
Qed.

(** ** The transport core *)

Section TransportProperties.

Context {B R : Type} `{Marshal B} `{Unmarshal R} `{Unmarshal APIErrorFields}.
Variable newRequestError : string -> string -> option string.

(** The value of the Authorization header in the header block. *)
Lemma requestHeader_Authorization (c : Client) (cfg : requestConfig B R) :
  Header_Get (requestHeader c cfg) headerAuthorization =
    if requiresAuth cfg && negb (isEmpty (secretKey c))
    then Some (String.append "Bearer " (secretKey c))
    else None.
Proof.
  unfold requestHeader, Header_Get, Header_Set,
    headerAuthorization, headerContentType, headerUserAgent,
    headerPublicAPIKey, headerIntaSendPublicKey.
  destruct (requiresAuth cfg && negb (isEmpty (secretKey c))).
  - apply lookup_insert_eq.
  - destruct (negb (isEmpty (publishableKey c)));
      repeat (rewrite lookup_insert_ne by discriminate); apply lookup_empty.
Qed.

(** Whatever happens in a pass, the only request it can hand to the HTTP
    client is the one [buildRequest] makes. *)
Lemma attemptOnce_requests (c : Client) (cfg : requestConfig B R)
  (bodyBytes : option JSON) (attempt : Z) (rd : Round) :
  Forall (fun r => r = buildRequest c cfg bodyBytes)
         (requestsOf (fst (attemptOnce newRequestError c cfg bodyBytes attempt rd))).
Proof.
  unfold attemptOnce, waitedBefore.
  destruct (0 <? attempt); cbn;
    repeat match goal with
           | |- context [match ?x with _ => _ end] => destruct x; cbn
           end;
    repeat constructor.
Qed.

Lemma requestsOf_app (xs ys : list event) :
  requestsOf (xs ++ ys) = (requestsOf xs ++ requestsOf ys)%list.
Proof.
  induction xs as [| [d | r] xs IH]; cbn; [reflexivity | exact IH | now rewrite IH].
Qed.

Lemma waitsOf_app (xs ys : list event) :
  waitsOf (xs ++ ys) = (waitsOf xs ++ waitsOf ys)%list.
Proof.
  induction xs as [| [d | r] xs IH]; cbn; [reflexivity | now rewrite IH | exact IH].
Qed.

Lemma retryLoop_requests (c : Client) (cfg : requestConfig B R)
  (bodyBytes : option JSON) (script : list Round) :
  forall attempt lastErr,
    Forall (fun r => r = buildRequest c cfg bodyBytes)
           (requestsOf (fst (retryLoop newRequestError c cfg bodyBytes script attempt lastErr))).
Proof.
  induction script as [| rd rest IH]; intros attempt lastErr; cbn.
  - destruct (attempt <=? maxRetries c); constructor.
  - destruct (attempt <=? maxRetries c); [| constructor].
    pose proof (attemptOnce_requests c cfg bodyBytes attempt rd) as Hone.
    destruct (attemptOnce newRequestError c cfg bodyBytes attempt rd) as [evs [lastErr' | err res]].
    + specialize (IH (wrap64 (attempt + 1)) lastErr').
      destruct (retryLoop newRequestError c cfg bodyBytes rest (wrap64 (attempt + 1)) lastErr')
        as [evs' fin].
      cbn in *. rewrite requestsOf_app. apply Forall_app. split; assumption.
    + exact Hone.
Qed.

(** Every request of a call is [buildRequest] of the client, the descriptor
    and the encoded payload. *)
Lemma doRequest_requests (c : Client) (cfg : requestConfig B R) (script : list Round) :
  Forall (fun r => exists bodyBytes, r = buildRequest c cfg bodyBytes)
         (requestsOf (fst (doRequest newRequestError c cfg script))).
Proof.
  unfold doRequest.
  destruct (body cfg) as [b |]; [destruct (marshal b) as [e | j] |]; cbn.
  - constructor.
  - eapply Forall_impl; [apply retryLoop_requests |]. intros r ->. eauto.
  - eapply Forall_impl; [apply retryLoop_requests |]. intros r ->. eauto.
Qed.

Lemma doRequest_requests_encoded (c : Client) (cfg : requestConfig B R)
  (script : list Round) :
  Forall (fun r => exists bodyBytes,
            encodedBody cfg = inr bodyBytes /\ r = buildRequest c cfg bodyBytes)
         (requestsOf (fst (doRequest newRequestError c cfg script))).
Proof.
  unfold doRequest, encodedBody.
  destruct (body cfg) as [b |]; [destruct (marshal b) as [e | j] |]; cbn.
  - constructor.
  - eapply Forall_impl; [apply retryLoop_requests |]. intros r ->. eauto.
  - eapply Forall_impl; [apply retryLoop_requests |]. intros r ->. eauto.
Qed.

(** C3.  On every request that [doRequest] hands to the HTTP client, the
    Authorization header is exactly [Bearer <secret key>] when the descriptor
    requires authentication and the secret key is non-empty, and is absent
    otherwise; hence it is present if and only if both hold.  Requests made
    through [postPublic] (public-key-only), and through any descriptor that
    does not require authentication, carry no Authorization header whatever
    the secret key is. *)
Theorem doRequest_authorization_header (c : Client) (script : list Round) :
  (forall cfg : requestConfig B R,
     Forall (fun r =>
               Header_Get (reqHeader r) headerAuthorization =
                 (if requiresAuth cfg && negb (isEmpty (secretKey c))
                  then Some (String.append "Bearer " (secretKey c))
                  else None) /\
               (is_Some (Header_Get (reqHeader r) headerAuthorization) <->
                  requiresAuth cfg = true /\ secretKey c <> ""))
            (requestsOf (fst (doRequest newRequestError c cfg script)))) /\
  (forall cfg : requestConfig B R,
     requiresAuth cfg = false ->
     Forall (fun r => Header_Get (reqHeader r) headerAuthorization = None)
            (requestsOf (fst (doRequest newRequestError c cfg script)))) /\
  (forall (path : string) (body : option B) (result : option R),
     Forall (fun r => Header_Get (reqHeader r) headerAuthorization = None)
            (requestsOf (fst (postPublic newRequestError c path body result script)))).
Proof.
  assert (Hgen : forall cfg : requestConfig B R,
     Forall (fun r =>
               Header_Get (reqHeader r) headerAuthorization =
                 (if requiresAuth cfg && negb (isEmpty (secretKey c))
                  then Some (String.append "Bearer " (secretKey c))
                  else None))
            (requestsOf (fst (doRequest newRequestError c cfg script)))).
  { intros cfg. eapply Forall_impl; [apply doRequest_requests |].
    intros r [bb ->]. cbn. apply requestHeader_Authorization. }
  split; [| split].
  - intros cfg. eapply Forall_impl; [apply Hgen |].
    intros r Hr. cbn beta in Hr. split; [exact Hr |]. rewrite Hr.
    destruct (requiresAuth cfg); cbn.
    + destruct (isEmpty (secretKey c)) eqn:He; cbn.
      * apply isEmpty_true in He. split; [intros [x Hx]; discriminate | tauto].
      * apply isEmpty_false in He. split; [tauto | eauto].
    + split; [intros [x Hx]; discriminate | intros [Hf _]; discriminate].
  - intros cfg Hno. eapply Forall_impl; [apply Hgen |].
    intros r Hr. cbn beta in Hr. rewrite Hr, Hno. reflexivity.
  - intros pth bdy res. unfold postPublic.
    eapply Forall_impl; [apply Hgen |]. intros r Hr. exact Hr.
Qed.

(** *** One pass of the loop *)

Lemma doRequest_encoded (c : Client) (cfg : requestConfig B R)
  (bodyBytes : option JSON) (script : list Round) :
  encodedBody cfg = inr bodyBytes ->
  doRequest newRequestError c cfg script =
    retryLoop newRequestError c cfg bodyBytes script 0 None.
Proof.
  unfold encodedBody, doRequest.
  destruct (body cfg) as [b |]; [destruct (marshal b) |]; intros Heq;
    inversion Heq; reflexivity.
Qed.

(** A pass whose wait is not cut short and whose request is accepted, on a
    non-2xx answer. *)
Lemma attemptOnce_error_status (c : Client) (cfg : requestConfig B R)
  (bodyBytes : option JSON) (attempt : Z) (rd : Round) (status : Z) (respBody : string) :
  requestAccepted newRequestError c cfg ->
  attempt <= 0 \/ selected rd = TimerFired ->
  exchange rd = Response status respBody ->
  isErrorStatus status = true ->
  attemptOnce newRequestError c cfg bodyBytes attempt rd =
    (passEvents c cfg bodyBytes attempt,
     if isTerminalStatus status
     then Return (Some (EAPI (apiErrorOf status respBody))) (result cfg)
     else Continue (Some (EAPI (apiErrorOf status respBody)))).
Proof.
  unfold requestAccepted, attemptOnce, passEvents.
  intros Hacc Hsel Hex Hst.
  assert (Hs : (if 0 <? attempt then selected rd else TimerFired) = TimerFired).
  { destruct (0 <? attempt) eqn:Hpos; [| reflexivity].
    destruct Hsel as [Hle | Hsel]; [apply Z.ltb_lt in Hpos; lia | exact Hsel]. }
  rewrite Hs, Hacc, Hex, Hst.
  destruct (isTerminalStatus status); reflexivity.
Qed.

(** The same pass on a 2xx answer. *)
Lemma attemptOnce_success_status (c : Client) (cfg : requestConfig B R)
  (bodyBytes : option JSON) (attempt : Z) (rd : Round) (status : Z) (respBody : string) :
  requestAccepted newRequestError c cfg ->
  attempt <= 0 \/ selected rd = TimerFired ->
  exchange rd = Response status respBody ->
  isErrorStatus status = false ->
  attemptOnce newRequestError c cfg bodyBytes attempt rd =
    (passEvents c cfg bodyBytes attempt,
     Return (fst (decodeResult cfg respBody)) (snd (decodeResult cfg respBody))).
Proof.
  unfold requestAccepted, attemptOnce, passEvents.
  intros Hacc Hsel Hex Hst.
  assert (Hs : (if 0 <? attempt then selected rd else TimerFired) = TimerFired).
  { destruct (0 <? attempt) eqn:Hpos; [| reflexivity].
    destruct Hsel as [Hle | Hsel]; [apply Z.ltb_lt in Hpos; lia | exact Hsel]. }
  rewrite Hs, Hacc, Hex, Hst.
  destruct (decodeResult cfg respBody); reflexivity.
Qed.

Lemma attemptOnce_at_most_one (c : Client) (cfg : requestConfig B R)
  (bodyBytes : option JSON) (attempt : Z) (rd : Round) :
  (List.length (requestsOf (fst (attemptOnce newRequestError c cfg bodyBytes attempt rd))) <= 1)%nat.
Proof.
  unfold attemptOnce, waitedBefore.
  destruct (0 <? attempt); cbn;
    repeat match goal with
           | |- context [match ?x with _ => _ end] => destruct x; cbn
           end;
    lia.
Qed.

Lemma requestsOf_waitedBefore (c : Client) (attempt : Z) :
  requestsOf (waitedBefore c attempt) = [].
Proof. unfold waitedBefore. destruct (0 <? attempt); reflexivity. Qed.

Lemma requestsOf_passEvents (c : Client) (cfg : requestConfig B R)
  (bodyBytes : option JSON) (attempt : Z) :
  requestsOf (passEvents c cfg bodyBytes attempt) = [buildRequest c cfg bodyBytes].
Proof.
  unfold passEvents. rewrite requestsOf_app, requestsOf_waitedBefore. reflexivity.
Qed.

(** *** The loop *)

Lemma retryLoop_exhausted (c : Client) (cfg : requestConfig B R)
  (bodyBytes : option JSON) (script : list Round) (attempt : Z) (lastErr : option error) :
  maxRetries c < attempt ->
  retryLoop newRequestError c cfg bodyBytes script attempt lastErr =
    ([], Done lastErr (result cfg)).
Proof.
  intros Hgt. apply Z.leb_gt in Hgt.
  destruct script; cbn; rewrite Hgt; reflexivity.
Qed.

Lemma retryLoop_step (c : Client) (cfg : requestConfig B R)
  (bodyBytes : option JSON) (rd : Round) (rest : list Round)
  (attempt : Z) (lastErr : option error) :
  attempt <= maxRetries c ->
  retryLoop newRequestError c cfg bodyBytes (rd :: rest) attempt lastErr =
    match attemptOnce newRequestError c cfg bodyBytes attempt rd with
    | (evs, Return err res) => (evs, Done err res)
    | (evs, Continue lastErr') =>
        let '(evs', fin) :=
          retryLoop newRequestError c cfg bodyBytes rest (wrap64 (attempt + 1)) lastErr' in
        ((evs ++ evs')%list, fin)
    end.
Proof. intros Hle. apply Z.leb_le in Hle. cbn. rewrite Hle. reflexivity. Qed.

(** At most [maxRetries - attempt + 1] requests from counter value [attempt] on. *)
Lemma retryLoop_bound (c : Client) (cfg : requestConfig B R) (bodyBytes : option JSON) :
  maxRetries c < int64_max ->
  forall (script : list Round) (attempt : Z) (lastErr : option error),
    0 <= attempt ->
    Z.of_nat (List.length (requestsOf
      (fst (retryLoop newRequestError c cfg bodyBytes script attempt lastErr))))
    <= Z.max 0 (maxRetries c - attempt + 1).
Proof.
  intros Hmax. induction script as [| rd rest IH]; intros attempt lastErr Hpos.
  - cbn. destruct (attempt <=? maxRetries c); cbn; lia.
  - destruct (Z.le_gt_cases attempt (maxRetries c)) as [Hle | Hgt].
    + rewrite retryLoop_step by exact Hle.
      pose proof (attemptOnce_at_most_one c cfg bodyBytes attempt rd) as Hone.
      destruct (attemptOnce newRequestError c cfg bodyBytes attempt rd)
        as [evs [lastErr' | err res]]; cbn in Hone |- *.
      * rewrite (wrap64_id (attempt + 1))
          by int64_arith.
        specialize (IH (attempt + 1) lastErr' ltac:(lia)).
        destruct (retryLoop newRequestError c cfg bodyBytes rest (attempt + 1) lastErr')
          as [evs' fin].
        cbn in IH |- *. rewrite requestsOf_app, length_app. lia.
      * lia.
    + rewrite retryLoop_exhausted by lia. cbn. lia.
Qed.

(** A call whose payload encodes and whose request is accepted sends at least
    one request as soon as the budget is not negative and the world answers. *)
Lemma doRequest_sends (c : Client) (cfg : requestConfig B R)
  (bodyBytes : option JSON) (rd : Round) (rest : list Round) :
  encodedBody cfg = inr bodyBytes ->
  requestAccepted newRequestError c cfg ->
  0 <= maxRetries c ->
  exists more,
    requestsOf (fst (doRequest newRequestError c cfg (rd :: rest)))
      = buildRequest c cfg bodyBytes :: more.
Proof.
  intros Henc Hacc Hbudget.
  rewrite (doRequest_encoded c cfg bodyBytes) by exact Henc.
  rewrite retryLoop_step by lia.
  unfold attemptOnce, waitedBefore. change (0 <? 0) with false. cbn iota.
  unfold requestAccepted in Hacc. rewrite Hacc. cbn zeta.
  destruct (exchange rd) as [e | st e | st b].
  - destruct (retryLoop _ _ _ _ _ _ _) as [evs fin]. cbn. eauto.
  - destruct (retryLoop _ _ _ _ _ _ _) as [evs fin]. cbn. eauto.
  - destruct (isErrorStatus st); [destruct (isTerminalStatus st) |].
    + cbn. eauto.
    + destruct (retryLoop _ _ _ _ _ _ _) as [evs fin]. cbn. eauto.
    + destruct (decodeResult cfg b). cbn. eauto.
Qed.

Lemma status_500_retryable : isErrorStatus 500 = true /\ isTerminalStatus 500 = false.
Proof. split; reflexivity. Qed.

(** A server that answers 500 in every remaining pass: the loop uses the
    whole budget and ends with the error of the last answer. *)
Lemma retryLoop_all_500 (c : Client) (cfg : requestConfig B R) (bodyBytes : option JSON) :
  maxRetries c < int64_max ->
  requestAccepted newRequestError c cfg ->
  forall (front : list Round) (attempt : Z) (lastErr : option error)
         (lastRd : Round) (lastBody : string) (extra : list Round),
    0 <= attempt ->
    attempt + Z.of_nat (List.length front) = maxRetries c ->
    Forall answers500 front ->
    answers lastRd 500 lastBody ->
    exists evs,
      retryLoop newRequestError c cfg bodyBytes (front ++ lastRd :: extra) attempt lastErr
        = (evs, Done (Some (EAPI (apiErrorOf 500 lastBody))) (result cfg)) /\
      requestsOf evs = repeat (buildRequest c cfg bodyBytes) (S (List.length front)).
Proof.
  intros Hmax Hacc.
  destruct status_500_retryable as [Herr Hterm].
  induction front as [| rd front IH];
    intros attempt lastErr lastRd lastBody extra Hpos Hlen Hall [Hsel Hex].
  - cbn [List.length app] in *.
    rewrite retryLoop_step by lia.
    rewrite (attemptOnce_error_status c cfg bodyBytes attempt lastRd 500 lastBody)
      by auto.
    rewrite Hterm.
    rewrite (wrap64_id (attempt + 1))
      by int64_arith.
    rewrite retryLoop_exhausted by lia.
    eexists. split; [reflexivity |].
    rewrite app_nil_r, requestsOf_passEvents. reflexivity.
  - inversion Hall as [| ? ? [respBody [Hsel0 Hex0]] Hrest]; subst.
    cbn [List.length app] in *.
    rewrite retryLoop_step by lia.
    rewrite (attemptOnce_error_status c cfg bodyBytes attempt rd 500 respBody)
      by auto.
    rewrite Hterm.
    rewrite (wrap64_id (attempt + 1))
      by int64_arith.
    destruct (IH (attempt + 1) (Some (EAPI (apiErrorOf 500 respBody)))
                lastRd lastBody extra) as (evs & Hrun & Hreqs);
      [lia | lia | exact Hrest | split; assumption |].
    rewrite Hrun. eexists. split; [reflexivity |].
    rewrite requestsOf_app, requestsOf_passEvents, Hreqs. reflexivity.
Qed.

(** C1.  With a retry budget [maxRetries = N] (a count, [0 <= N], below the
    largest [int]): no call ever hands more than [N + 1] requests to the HTTP
    client; and when the server answers 500 to every attempt (each backoff
    wait running to its end), exactly [N + 1] requests are sent and the call
    returns the [APIError] built from the answer to the last of them. *)
Theorem doRequest_server_always_500 (c : Client) (cfg : requestConfig B R) (N : Z) :
  maxRetries c = N ->
  0 <= N < int64_max ->
  (forall script : list Round,
     Z.of_nat (List.length (requestsOf (fst (doRequest newRequestError c cfg script))))
     <= N + 1) /\
  (forall (bodyBytes : option JSON) (front : list Round) (lastRd : Round)
          (lastBody : string) (extra : list Round),
     encodedBody cfg = inr bodyBytes ->
     requestAccepted newRequestError c cfg ->
     Z.of_nat (List.length front) = N ->
     Forall answers500 front ->
     answers lastRd 500 lastBody ->
     exists evs,
       doRequest newRequestError c cfg (front ++ lastRd :: extra)
         = (evs, Done (Some (EAPI (apiErrorOf 500 lastBody))) (result cfg)) /\
       requestsOf evs = repeat (buildRequest c cfg bodyBytes) (Z.to_nat (N + 1))).
Proof.
  intros HN Hrange. split.
  - intros script. unfold doRequest.
    destruct (body cfg) as [b |]; [destruct (marshal b) as [e | j] |].
    + cbn. lia.
    + pose proof (retryLoop_bound c cfg (Some j) ltac:(lia) script 0 None ltac:(lia)). lia.
    + pose proof (retryLoop_bound c cfg None ltac:(lia) script 0 None ltac:(lia)). lia.
  - intros bodyBytes front lastRd lastBody extra Henc Hacc Hlen Hall Hlast.
    rewrite (doRequest_encoded c cfg bodyBytes) by exact Henc.
    destruct (retryLoop_all_500 c cfg bodyBytes ltac:(lia) Hacc front 0 None
                lastRd lastBody extra) as (evs & Hrun & Hreqs);
      [lia | lia | exact Hall | exact Hlast |].
    exists evs. split; [exact Hrun |].
    rewrite Hreqs. f_equal. lia.
Qed.

(** *** Passes that continue *)

Lemma requestsOf_retryEvents (c : Client) (cfg : requestConfig B R)
  (bodyBytes : option JSON) (n : nat) :
  forall attempt,
    requestsOf (retryEvents c cfg bodyBytes attempt n) =
      repeat (buildRequest c cfg bodyBytes) n.
Proof.
  induction n as [| n IH]; intros attempt; cbn [retryEvents repeat]; [reflexivity |].
  rewrite requestsOf_app, requestsOf_passEvents, IH. reflexivity.
Qed.

(** A retryable round makes its pass continue, with some error recorded. *)
Lemma attemptOnce_retryable (c : Client) (cfg : requestConfig B R)
  (bodyBytes : option JSON) (attempt : Z) (rd : Round) :
  requestAccepted newRequestError c cfg ->
  retryableRound rd ->
  exists e,
    attemptOnce newRequestError c cfg bodyBytes attempt rd =
      (passEvents c cfg bodyBytes attempt, Continue (Some e)).
Proof.
  unfold requestAccepted, retryableRound, attemptOnce, passEvents.
  intros Hacc [Hsel Hex]. rewrite Hsel, Hacc.
  replace (if 0 <? attempt then TimerFired else TimerFired) with TimerFired
    by (destruct (0 <? attempt); reflexivity).
  destruct (exchange rd) as [e | st e | st b]; [eauto | eauto |].
  destruct Hex as [-> ->]. eauto.
Qed.

(** After [front], a run of retryable rounds that fits in the budget, the
    loop stands at the next counter value with some recorded error, having
    produced exactly the events of that many passes. *)
Lemma retryLoop_after_retryable (c : Client) (cfg : requestConfig B R)
  (bodyBytes : option JSON) :
  maxRetries c <= int64_max ->
  requestAccepted newRequestError c cfg ->
  forall (front rest : list Round) (attempt : Z) (lastErr : option error),
    0 <= attempt ->
    attempt + Z.of_nat (List.length front) <= maxRetries c ->
    Forall retryableRound front ->
    exists lastErr',
      (front = [] -> lastErr' = lastErr) /\
      (front <> [] -> lastErr' <> None) /\
      retryLoop newRequestError c cfg bodyBytes (front ++ rest) attempt lastErr =
        let '(evs, fin) :=
          retryLoop newRequestError c cfg bodyBytes rest
            (attempt + Z.of_nat (List.length front)) lastErr' in
        ((retryEvents c cfg bodyBytes attempt (List.length front) ++ evs)%list, fin).
Proof.
  intros Hmax Hacc.
  induction front as [| rd front IH]; intros rest attempt lastErr Hpos Hfit Hall.
  - exists lastErr. cbn [List.length app retryEvents]. rewrite Z.add_0_r.
    repeat split; [congruence |].
    destruct (retryLoop newRequestError c cfg bodyBytes rest attempt lastErr); reflexivity.
  - inversion Hall as [| ? ? Hrd Hrest]; subst.
    cbn [List.length app] in *.
    rewrite retryLoop_step by lia.
    destruct (attemptOnce_retryable c cfg bodyBytes attempt rd Hacc Hrd) as [e He].
    rewrite He.
    rewrite (wrap64_id (attempt + 1))
      by int64_arith.
    destruct (IH rest (attempt + 1) (Some e)) as (lastErr' & Hnil & Hcons & Hrun);
      [lia | lia | exact Hrest |].
    exists lastErr'. split; [discriminate |]. split.
    + intros _. destruct front; [rewrite Hnil by reflexivity; discriminate | auto with *].
    + rewrite Hrun.
      replace (attempt + 1 + Z.of_nat (List.length front))
        with (attempt + Z.of_nat (S (List.length front))) by lia.
      destruct (retryLoop newRequestError c cfg bodyBytes rest
                  (attempt + Z.of_nat (S (List.length front))) lastErr') as [evs fin].
      cbn [retryEvents]. rewrite <- app_assoc. reflexivity.
Qed.

Lemma retryEvents_snoc (c : Client) (cfg : requestConfig B R)
  (bodyBytes : option JSON) (n : nat) :
  forall attempt,
    retryEvents c cfg bodyBytes attempt (S n) =
      (retryEvents c cfg bodyBytes attempt n
         ++ passEvents c cfg bodyBytes (attempt + Z.of_nat n))%list.
Proof.
  induction n as [| n IH]; intros attempt.
  - cbn [retryEvents]. rewrite app_nil_r, Z.add_0_r. reflexivity.
  - change (retryEvents c cfg bodyBytes attempt (S (S n)))
      with (passEvents c cfg bodyBytes attempt
              ++ retryEvents c cfg bodyBytes (attempt + 1) (S n))%list.
    rewrite IH. cbn [retryEvents]. rewrite <- app_assoc.
    replace (attempt + 1 + Z.of_nat n) with (attempt + Z.of_nat (S n)) by lia.
    reflexivity.
Qed.

(** A call whose first rounds are retryable and fit in the budget, and whose
    next pass returns: the call returns what that pass returns. *)
Lemma doRequest_returns_after (c : Client) (cfg : requestConfig B R)
  (bodyBytes : option JSON) (front : list Round) (rd : Round) (rest : list Round)
  (evs : list event) (err : option error) (res : option R) :
  encodedBody cfg = inr bodyBytes ->
  requestAccepted newRequestError c cfg ->
  maxRetries c <= int64_max ->
  Z.of_nat (List.length front) <= maxRetries c ->
  Forall retryableRound front ->
  attemptOnce newRequestError c cfg bodyBytes (Z.of_nat (List.length front)) rd
    = (evs, Return err res) ->
  doRequest newRequestError c cfg (front ++ rd :: rest) =
    ((retryEvents c cfg bodyBytes 0 (List.length front) ++ evs)%list, Done err res).
Proof.
  intros Henc Hacc Hmax Hfit Hall Hpass.
  rewrite (doRequest_encoded c cfg bodyBytes) by exact Henc.
  destruct (retryLoop_after_retryable c cfg bodyBytes Hmax Hacc front (rd :: rest) 0 None)
    as (lastErr' & _ & _ & Hrun); [lia | lia | exact Hall |].
  rewrite Hrun, Z.add_0_l, retryLoop_step by lia.
  rewrite Hpass. reflexivity.
Qed.

(** The pass after a non-empty run of rounds waits first; after an empty one
    it does not and the [select] is never reached. *)
Lemma pass_not_cut_short (front : list Round) (rd : Round) :
  front = [] \/ selected rd = TimerFired ->
  Z.of_nat (List.length front) <= 0 \/ selected rd = TimerFired.
Proof. intros [-> | Hsel]; [left; cbn; lia | right; exact Hsel]. Qed.

Lemma isErrorStatus_spec (status : Z) :
  isErrorStatus status = true <-> status < 200 \/ 300 <= status.
Proof.
  unfold isErrorStatus. rewrite orb_true_iff, Z.ltb_lt, Z.leb_le. reflexivity.
Qed.

Lemma isTerminalStatus_spec (status : Z) :
  isTerminalStatus status = true <-> 400 <= status < 500 /\ status <> 429.
Proof.
  unfold isTerminalStatus.
  rewrite !andb_true_iff, negb_true_iff, Z.leb_le, Z.ltb_lt, Z.eqb_neq. tauto.
Qed.

Lemma isTerminalStatus_false (status : Z) :
  isTerminalStatus status = false <-> ~ (400 <= status < 500 /\ status <> 429).
Proof. rewrite <- not_true_iff_false, isTerminalStatus_spec. reflexivity. Qed.

(** C2.  Classification of a non-2xx status [s]: it is terminal exactly when
    [400 <= s < 500] and [s <> 429]; every other non-2xx status is retryable,
    in particular 429, every [s >= 500] and every [s < 200] (and the 3xx
    statuses that reach the loop).  A terminal answer, reached after any number of
    retryable rounds within the budget, ends the call at once with the
    [APIError] of that answer and no further request, so on the first attempt
    exactly one request is sent.  A retryable answer is recorded as the last
    error and the loop goes on to the next attempt.  A retryable answer (429
    among them) followed by a 2xx answer whose body is accepted gives success
    after exactly two requests. *)
Theorem doRequest_status_classification (c : Client) (cfg : requestConfig B R)
  (bodyBytes : option JSON) :
  encodedBody cfg = inr bodyBytes ->
  requestAccepted newRequestError c cfg ->
  maxRetries c <= int64_max ->
  (forall s, isErrorStatus s = true ->
     (isTerminalStatus s = true <-> 400 <= s < 500 /\ s <> 429) /\
     (isTerminalStatus s = false <-> ~ (400 <= s < 500 /\ s <> 429)) /\
     (s = 429 \/ 500 <= s \/ s < 200 -> isTerminalStatus s = false)) /\
  (forall (front : list Round) (rd : Round) (rest : list Round) (s : Z) (b : string),
     Z.of_nat (List.length front) <= maxRetries c ->
     Forall retryableRound front ->
     front = [] \/ selected rd = TimerFired ->
     exchange rd = Response s b ->
     400 <= s < 500 -> s <> 429 ->
     doRequest newRequestError c cfg (front ++ rd :: rest) =
       (retryEvents c cfg bodyBytes 0 (S (List.length front)),
        Done (Some (EAPI (apiErrorOf s b))) (result cfg))) /\
  (forall (rd : Round) (rest : list Round) (s : Z) (b : string),
     0 <= maxRetries c ->
     exchange rd = Response s b ->
     400 <= s < 500 -> s <> 429 ->
     doRequest newRequestError c cfg (rd :: rest) =
       ([EvSend (buildRequest c cfg bodyBytes)],
        Done (Some (EAPI (apiErrorOf s b))) (result cfg))) /\
  (forall (rd : Round) (rest : list Round) (attempt : Z) (lastErr : option error)
          (s : Z) (b : string),
     attempt <= maxRetries c ->
     attempt <= 0 \/ selected rd = TimerFired ->
     exchange rd = Response s b ->
     isErrorStatus s = true ->
     ~ (400 <= s < 500 /\ s <> 429) ->
     retryLoop newRequestError c cfg bodyBytes (rd :: rest) attempt lastErr =
       let '(evs, fin) :=
         retryLoop newRequestError c cfg bodyBytes rest (wrap64 (attempt + 1))
           (Some (EAPI (apiErrorOf s b))) in
       ((passEvents c cfg bodyBytes attempt ++ evs)%list, fin)) /\
  (forall (rd1 rd2 : Round) (rest : list Round) (s1 : Z) (b1 : string)
          (s2 : Z) (b2 : string),
     1 <= maxRetries c ->
     exchange rd1 = Response s1 b1 ->
     isErrorStatus s1 = true ->
     ~ (400 <= s1 < 500 /\ s1 <> 429) ->
     answers rd2 s2 b2 ->
     200 <= s2 < 300 ->
     fst (decodeResult cfg b2) = None ->
     exists evs,
       doRequest newRequestError c cfg (rd1 :: rd2 :: rest) =
         (evs, Done None (snd (decodeResult cfg b2))) /\
       requestsOf evs = [buildRequest c cfg bodyBytes; buildRequest c cfg bodyBytes]).
Proof.
  intros Henc Hacc Hmax.
  assert (Hterm : forall (front : list Round) (rd : Round) (rest : list Round)
                         (s : Z) (b : string),
     Z.of_nat (List.length front) <= maxRetries c ->
     Forall retryableRound front ->
     front = [] \/ selected rd = TimerFired ->
     exchange rd = Response s b ->
     400 <= s < 500 -> s <> 429 ->
     doRequest newRequestError c cfg (front ++ rd :: rest) =
       (retryEvents c cfg bodyBytes 0 (S (List.length front)),
        Done (Some (EAPI (apiErrorOf s b))) (result cfg))).
  { intros front rd rest s b Hfit Hall Hsel Hex Hs Hne.
    rewrite retryEvents_snoc, Z.add_0_l.
    apply doRequest_returns_after; auto.
    rewrite (attemptOnce_error_status c cfg bodyBytes _ rd s b); auto.
    - replace (isTerminalStatus s) with true; [reflexivity |].
      symmetry. apply isTerminalStatus_spec. lia.
    - apply pass_not_cut_short. exact Hsel.
    - apply isErrorStatus_spec. lia. }
  split; [| split; [exact Hterm | split; [| split]]].
  - intros s Herr. split; [apply isTerminalStatus_spec |].
    split; [apply isTerminalStatus_false |].
    intros Hs. apply isTerminalStatus_false. lia.
  - intros rd rest s b Hbudget Hex Hs Hne.
    apply (Hterm [] rd rest s b); auto; cbn; lia.
  - intros rd rest attempt lastErr s b Hle Hsel Hex Herr Hretry.
    rewrite retryLoop_step by exact Hle.
    rewrite (attemptOnce_error_status c cfg bodyBytes attempt rd s b) by auto.
    replace (isTerminalStatus s) with false; [reflexivity |].
    symmetry. apply isTerminalStatus_false; assumption.
  - intros rd1 rd2 rest s1 b1 s2 b2 Hbudget Hex1 Herr1 Hretry [Hsel2 Hex2] Hs2 Hdec.
    rewrite (doRequest_encoded c cfg bodyBytes) by exact Henc.
    rewrite retryLoop_step by lia.
    rewrite (attemptOnce_error_status c cfg bodyBytes 0 rd1 s1 b1) by (auto; lia).
    replace (isTerminalStatus s1) with false
      by (symmetry; apply isTerminalStatus_false; assumption).
    change (wrap64 (0 + 1)) with 1.
    rewrite retryLoop_step by lia.
    rewrite (attemptOnce_success_status c cfg bodyBytes 1 rd2 s2 b2); auto.
    + rewrite Hdec. eexists. split; [reflexivity |].
      rewrite requestsOf_app, !requestsOf_passEvents. reflexivity.
    + destruct (isErrorStatus s2) eqn:He; [| reflexivity].
      apply isErrorStatus_spec in He. lia.
Qed.

(** *** Decoding of 2xx answers *)

Lemma length_zero_empty (s : string) : String.length s = 0%nat <-> s = "".
Proof. destruct s; cbn; split; intros Hs; congruence. Qed.

Lemma nonempty_body (b : string) : b <> "" -> (0 <? Z.of_nat (String.length b)) = true.
Proof.
  intros Hb. apply Z.ltb_lt.
  destruct (String.length b) eqn:Hlen; [apply length_zero_empty in Hlen; contradiction | lia].
Qed.

Lemma isErrorStatus_2xx (status : Z) : 200 <= status < 300 -> isErrorStatus status = false.
Proof.
  intros Hs. destruct (isErrorStatus status) eqn:He; [| reflexivity].
  apply isErrorStatus_spec in He. lia.
Qed.

(** C7.  A 2xx answer, reached after any number of retryable rounds within
    the budget.  If a result was asked for, the body is not empty and it does
    not decode, the call returns the decode error at once: no further request
    whatever budget is left, and the error is not an [APIError].  If the body
    is empty or no result was asked for, the call succeeds and the value
    behind the result pointer is untouched.  (If the body decodes, the call
    succeeds with the decoded value.) *)
Theorem doRequest_success_decoding (c : Client) (cfg : requestConfig B R)
  (bodyBytes : option JSON) (front : list Round) (rd : Round) (rest : list Round)
  (s : Z) (b : string) :
  encodedBody cfg = inr bodyBytes ->
  requestAccepted newRequestError c cfg ->
  maxRetries c <= int64_max ->
  Z.of_nat (List.length front) <= maxRetries c ->
  Forall retryableRound front ->
  front = [] \/ selected rd = TimerFired ->
  exchange rd = Response s b ->
  200 <= s < 300 ->
  (forall (r r' : R) (e : jsonError),
     result cfg = Some r -> b <> "" -> unmarshal b r = (r', Some e) ->
     doRequest newRequestError c cfg (front ++ rd :: rest) =
       (retryEvents c cfg bodyBytes 0 (S (List.length front)),
        Done (Some (EUnmarshalResponse e)) (Some r')) /\
     AsAPIError (Some (EUnmarshalResponse e)) = None /\
     IsNetworkError (Some (EUnmarshalResponse e)) = false) /\
  (result cfg = None \/ b = "" ->
     doRequest newRequestError c cfg (front ++ rd :: rest) =
       (retryEvents c cfg bodyBytes 0 (S (List.length front)),
        Done None (result cfg))) /\
  (forall (r r' : R),
     result cfg = Some r -> b <> "" -> unmarshal b r = (r', None) ->
     doRequest newRequestError c cfg (front ++ rd :: rest) =
       (retryEvents c cfg bodyBytes 0 (S (List.length front)),
        Done None (Some r'))).
Proof.
  intros Henc Hacc Hmax Hfit Hall Hsel Hex Hs.
  assert (Hrun :
    doRequest newRequestError c cfg (front ++ rd :: rest) =
      (retryEvents c cfg bodyBytes 0 (S (List.length front)),
       Done (fst (decodeResult cfg b)) (snd (decodeResult cfg b)))).
  { rewrite retryEvents_snoc, Z.add_0_l.
    apply doRequest_returns_after; auto.
    apply (attemptOnce_success_status c cfg bodyBytes _ rd s b); auto.
    - apply pass_not_cut_short. exact Hsel.
    - apply isErrorStatus_2xx. exact Hs. }
  rewrite Hrun. unfold decodeResult. split; [| split].
  - intros r r' e Hres Hb Hdec.
    rewrite Hres, (nonempty_body b Hb), Hdec. auto.
  - intros [Hres | Hb].
    + rewrite Hres. reflexivity.
    + subst b. destruct (result cfg); reflexivity.
  - intros r r' Hres Hb Hdec.
    rewrite Hres, (nonempty_body b Hb), Hdec. reflexivity.
Qed.

(** *** Backoff waits *)

Lemma waitsOf_passEvents (c : Client) (cfg : requestConfig B R)
  (bodyBytes : option JSON) (attempt : Z) :
  waitsOf (passEvents c cfg bodyBytes attempt) =
    if 0 <? attempt then [waitTime c attempt] else [].
Proof.
  unfold passEvents, waitedBefore. destruct (0 <? attempt); reflexivity.
Qed.

Lemma waitsOf_retryEvents (c : Client) (cfg : requestConfig B R)
  (bodyBytes : option JSON) (n : nat) :
  forall attempt,
    1 <= attempt ->
    waitsOf (retryEvents c cfg bodyBytes attempt n) =
      map (fun i => waitTime c (attempt + Z.of_nat i)) (seq 0 n).
Proof.
  induction n as [| n IH]; intros attempt Hpos; [reflexivity |].
  cbn [retryEvents]. rewrite waitsOf_app, waitsOf_passEvents.
  replace (0 <? attempt) with true by (symmetry; apply Z.ltb_lt; lia).
  rewrite IH by lia. cbn [seq map app]. rewrite Z.add_0_r. f_equal.
  rewrite <- seq_shift, map_map. apply map_ext. intros i. f_equal. lia.
Qed.

(** The waits of a call that makes [k] retries: the first attempt does not
    wait, retry [i] waits [waitTime c i]. *)
Lemma waitsOf_retryEvents_0 (c : Client) (cfg : requestConfig B R)
  (bodyBytes : option JSON) (k : nat) :
  waitsOf (retryEvents c cfg bodyBytes 0 (S k)) =
    map (fun i => waitTime c (Z.of_nat i)) (seq 1 k).
Proof.
  cbn [retryEvents]. rewrite waitsOf_app, waitsOf_passEvents.
  change (0 <? 0) with false. cbn [app].
  rewrite waitsOf_retryEvents by lia.
  rewrite <- seq_shift, map_map. apply map_ext. intros i. f_equal. lia.
Qed.

(** C6, as the code has it.  The wait before attempt [n >= 1] is
    [waitTime c n], a function of the base wait and [n] alone (no jitter):
    the [int64] product of the base wait and the [int64] value of
    [1 << (n-1)].  It equals [base * 2^(n-1)] whenever [n <= 63] and that
    product fits in an [int64].  A call that makes [k] retries waits
    [waitTime c 1], ..., [waitTime c k], in this order.  If the context is
    done while the pass at [n] waits, the call returns the context's error at
    once: the wait is its last event and no further request is sent. *)
Theorem backoff_wait_and_cancellation (c : Client) (cfg : requestConfig B R)
  (bodyBytes : option JSON) :
  (forall n, 1 <= n <= 63 -> in_int64 (retryWait c * 2 ^ (n - 1)) ->
     waitTime c n = retryWait c * 2 ^ (n - 1)) /\
  (forall n, 1 <= n <= int64_max ->
     waitTime c n = wrap64 (retryWait c * wrap64 (2 ^ (n - 1)))) /\
  (forall (n : Z) (rd : Round),
     1 <= n ->
     exists evs,
       fst (attemptOnce newRequestError c cfg bodyBytes n rd) = EvWait (waitTime c n) :: evs /\
       waitsOf evs = []) /\
  (forall k : nat,
     waitsOf (retryEvents c cfg bodyBytes 0 (S k)) =
       map (fun i => waitTime c (Z.of_nat i)) (seq 1 k)) /\
  (forall (n : Z) (rd : Round) (rest : list Round) (lastErr : option error) (e : ctxError),
     1 <= n <= maxRetries c ->
     selected rd = CtxDone e ->
     retryLoop newRequestError c cfg bodyBytes (rd :: rest) n lastErr =
       ([EvWait (waitTime c n)], Done (Some (EContext e)) (result cfg))) /\
  (forall (front : list Round) (rd : Round) (rest : list Round) (e : ctxError),
     encodedBody cfg = inr bodyBytes ->
     requestAccepted newRequestError c cfg ->
     maxRetries c <= int64_max ->
     front <> [] ->
     Z.of_nat (List.length front) <= maxRetries c ->
     Forall retryableRound front ->
     selected rd = CtxDone e ->
     exists evs,
       doRequest newRequestError c cfg (front ++ rd :: rest) =
         ((evs ++ [EvWait (waitTime c (Z.of_nat (List.length front)))])%list,
          Done (Some (EContext e)) (result cfg)) /\
       List.length (requestsOf evs) = List.length front).
Proof.
  assert (Hcut : forall (n : Z) (rd : Round) (e : ctxError),
            1 <= n -> selected rd = CtxDone e ->
            attemptOnce newRequestError c cfg bodyBytes n rd =
              ([EvWait (waitTime c n)], Return (Some (EContext e)) (result cfg))).
  { intros n rd e Hn Hsel. unfold attemptOnce, waitedBefore.
    replace (0 <? n) with true by (symmetry; apply Z.ltb_lt; lia).
    rewrite Hsel. reflexivity. }
  repeat split.
  - intros n Hn Hfit. apply waitTime_exact; assumption.
  - intros n Hn. apply waitTime_unfold. exact Hn.
  - intros n rd Hn. unfold attemptOnce, waitedBefore.
    replace (0 <? n) with true by (symmetry; apply Z.ltb_lt; lia).
    destruct (selected rd); [eexists; split; reflexivity |].
    destruct (newRequestError _ _); [eexists; split; reflexivity |].
    destruct (exchange rd) as [e | st e | st b]; cbn;
      repeat match goal with
             | |- context [if ?x then _ else _] => destruct x
             | |- context [let '(_, _) := ?x in _] => destruct x
             end;
      eexists; split; reflexivity.
  - intros k. apply waitsOf_retryEvents_0.
  - intros n rd rest lastErr e Hn Hsel.
    rewrite retryLoop_step by lia. rewrite (Hcut n rd e) by (auto; lia). reflexivity.
  - intros front rd rest e Henc Hacc Hmax Hne Hfit Hall Hsel.
    exists (retryEvents c cfg bodyBytes 0 (List.length front)). split.
    + apply doRequest_returns_after; auto.
      apply Hcut; [| exact Hsel].
      destruct front; [contradiction | cbn; lia].
    + rewrite requestsOf_retryEvents. apply repeat_length.
Qed.

(** *** Termination *)

(** A world that offers at least [maxRetries + 1] rounds never leaves the
    loop waiting: the call returns. *)
Lemma retryLoop_returns (c : Client) (cfg : requestConfig B R) (bodyBytes : option JSON) :
  maxRetries c < int64_max ->
  forall (script : list Round) (attempt : Z) (lastErr : option error),
    0 <= attempt ->
    maxRetries c - attempt + 1 <= Z.of_nat (List.length script) ->
    exists err res,
      snd (retryLoop newRequestError c cfg bodyBytes script attempt lastErr) = Done err res.
Proof.
  intros Hmax. induction script as [| rd rest IH]; intros attempt lastErr Hpos Hlen.
  - cbn [List.length] in Hlen. rewrite retryLoop_exhausted by lia. cbn. eauto.
  - destruct (Z.le_gt_cases attempt (maxRetries c)) as [Hle | Hgt].
    + rewrite retryLoop_step by exact Hle.
      destruct (attemptOnce newRequestError c cfg bodyBytes attempt rd)
        as [evs [lastErr' | err res]]; [| cbn; eauto].
      rewrite (wrap64_id (attempt + 1)) by int64_arith.
      destruct (IH (attempt + 1) lastErr') as (err & res & Hfin);
        [lia | cbn [List.length] in Hlen; lia |].
      destruct (retryLoop newRequestError c cfg bodyBytes rest (attempt + 1) lastErr')
        as [evs' fin].
      cbn in Hfin |- *. eauto.
    + rewrite retryLoop_exhausted by lia. cbn. eauto.
Qed.

Lemma doRequest_returns (c : Client) (cfg : requestConfig B R) (script : list Round) :
  maxRetries c < int64_max ->
  maxRetries c + 1 <= Z.of_nat (List.length script) ->
  exists err res, snd (doRequest newRequestError c cfg script) = Done err res.
Proof.
  intros Hmax Hlen. unfold doRequest.
  destruct (body cfg) as [b |]; [destruct (marshal b) as [e | j] |].
  - cbn. eauto.
  - apply retryLoop_returns; [exact Hmax | lia | lia].
  - apply retryLoop_returns; [exact Hmax | lia | lia].
Qed.

(** With a negative budget the loop body never runs: nothing is sent and the
    call reports no error. *)
Lemma doRequest_negative_budget (c : Client) (cfg : requestConfig B R)
  (bodyBytes : option JSON) (script : list Round) :
  encodedBody cfg = inr bodyBytes ->
  maxRetries c < 0 ->
  doRequest newRequestError c cfg script = ([], Done None (result cfg)).
Proof.
  intros Henc Hneg.
  rewrite (doRequest_encoded c cfg bodyBytes) by exact Henc.
  apply retryLoop_exhausted. lia.
Qed.

(** *** Errors built from answers *)

Lemma apiErrorOf_status (status : Z) (respBody : string) :
  HTTPStatusCode (apiErrorOf status respBody) = status.
Proof.
  unfold apiErrorOf, unmarshalAPIError.
  destruct (unmarshal respBody _) as [f [e |]]; reflexivity.
Qed.

Lemma apiErrorOf_unparseable (status : Z) (respBody : string)
  (f : APIErrorFields) (e : jsonError) :
  unmarshal respBody (mkAPIErrorFields "" "" "" [] "") = (f, Some e) ->
  Message (apiErrorOf status respBody) = respBody.
Proof.
  intros Hdec. unfold apiErrorOf, unmarshalAPIError, decodedFields. cbn.
  rewrite Hdec. reflexivity.
Qed.

(** An [APIError] that leaves a pass, returned or recorded, was built from
    the non-2xx answer of that pass. *)
Lemma attemptOnce_api_error (c : Client) (cfg : requestConfig B R)
  (bodyBytes : option JSON) (attempt : Z) (rd : Round) (evs : list event) (e : APIError) :
  (exists res, attemptOnce newRequestError c cfg bodyBytes attempt rd
               = (evs, Return (Some (EAPI e)) res)) \/
  attemptOnce newRequestError c cfg bodyBytes attempt rd
    = (evs, Continue (Some (EAPI e))) ->
  exists s b, exchange rd = Response s b /\ isErrorStatus s = true /\
              e = apiErrorOf s b.
Proof.
  unfold attemptOnce, decodeResult.
  destruct (if 0 <? attempt then selected rd else TimerFired);
    [intros [[res Hp] | Hp]; inversion Hp |].
  destruct (newRequestError _ _); [intros [[res Hp] | Hp]; inversion Hp |].
  destruct (exchange rd) as [te | st te | st b];
    [intros [[res Hp] | Hp]; inversion Hp .. |].
  destruct (isErrorStatus st) eqn:Herr.
  - destruct (isTerminalStatus st);
      intros [[res Hp] | Hp]; inversion Hp; subst; eauto.
  - destruct (result cfg) as [r |];
      [destruct (0 <? Z.of_nat (String.length b));
         [destruct (unmarshal b r) as [r' [je |]] |] |];
      intros [[res Hp] | Hp]; inversion Hp.
Qed.

Lemma retryLoop_api_error_origin (c : Client) (cfg : requestConfig B R)
  (bodyBytes : option JSON) (script : list Round) :
  forall (attempt : Z) (lastErr : option error) (evs : list event)
         (e : APIError) (res : option R),
    retryLoop newRequestError c cfg bodyBytes script attempt lastErr
      = (evs, Done (Some (EAPI e)) res) ->
    lastErr = Some (EAPI e) \/
    exists rd s b, In rd script /\ exchange rd = Response s b /\
                   isErrorStatus s = true /\ e = apiErrorOf s b.
Proof.
  induction script as [| rd rest IH]; intros attempt lastErr evs e res Hrun.
  - cbn in Hrun. destruct (attempt <=? maxRetries c); inversion Hrun. auto.
  - cbn [retryLoop] in Hrun.
    destruct (attempt <=? maxRetries c); [| inversion Hrun; auto].
    destruct (attemptOnce newRequestError c cfg bodyBytes attempt rd)
      as [evs0 [lastErr' | err res0]] eqn:Hpass.
    + destruct (retryLoop newRequestError c cfg bodyBytes rest
                  (wrap64 (attempt + 1)) lastErr') as [evs' fin] eqn:Hrest.
      inversion Hrun; subst.
      destruct (IH _ _ _ _ _ Hrest) as [Hlast | (rd' & s & b & Hin & Hex & Herr & He)].
      * subst lastErr'.
        destruct (attemptOnce_api_error c cfg bodyBytes attempt rd evs0 e
                    (or_intror Hpass)) as (s & b & Hex & Herr & He).
        right. exists rd, s, b. cbn. auto.
      * right. exists rd', s, b. cbn. auto.
    + inversion Hrun; subst.
      destruct (attemptOnce_api_error c cfg bodyBytes attempt rd evs e
                  (or_introl (ex_intro _ res Hpass))) as (s & b & Hex & Herr & He).
      right. exists rd, s, b. cbn. auto.
Qed.

(** When the budget runs out on a retryable non-2xx answer, the call returns
    the error of that answer. *)
Lemma doRequest_budget_exhausted (c : Client) (cfg : requestConfig B R)
  (bodyBytes : option JSON) (front : list Round) (rd : Round) (rest : list Round)
  (s : Z) (b : string) :
  encodedBody cfg = inr bodyBytes ->
  requestAccepted newRequestError c cfg ->
  maxRetries c < int64_max ->
  Z.of_nat (List.length front) = maxRetries c ->
  Forall retryableRound front ->
  front = [] \/ selected rd = TimerFired ->
  exchange rd = Response s b ->
  isErrorStatus s = true ->
  isTerminalStatus s = false ->
  doRequest newRequestError c cfg (front ++ rd :: rest) =
    (retryEvents c cfg bodyBytes 0 (S (List.length front)),
     Done (Some (EAPI (apiErrorOf s b))) (result cfg)).
Proof.
  intros Henc Hacc Hmax Hlen Hall Hsel Hex Herr Hterm.
  rewrite (doRequest_encoded c cfg bodyBytes) by exact Henc.
  destruct (retryLoop_after_retryable c cfg bodyBytes ltac:(lia) Hacc front (rd :: rest) 0 None)
    as (lastErr' & _ & _ & Hrun); [lia | lia | exact Hall |].
  rewrite Hrun, Z.add_0_l, retryLoop_step by lia.
  rewrite (attemptOnce_error_status c cfg bodyBytes _ rd s b); auto.
  - rewrite Hterm.
    rewrite (wrap64_id (_ + 1))
      by int64_arith.
    rewrite retryLoop_exhausted by lia.
    rewrite retryEvents_snoc, Z.add_0_l, app_nil_r. reflexivity.
  - apply pass_not_cut_short. exact Hsel.
Qed.

(** C8.  The [APIError] built from a non-2xx answer always carries the status
    of that answer; when the body does not decode as an [APIError], its
    message is the body, byte for byte, hence not empty unless the body is.
    Every [APIError] a call returns is the one built from a non-2xx answer of
    that call: the answer that ended it at once (a client error other than
    429, after any retryable rounds), or the last answer when the budget ran
    out. *)
Theorem apiError_from_unparseable_body (c : Client) (cfg : requestConfig B R) :
  (forall (s : Z) (b : string), HTTPStatusCode (apiErrorOf s b) = s) /\
  (forall (s : Z) (b : string) (f : APIErrorFields) (je : jsonError),
     unmarshal b (mkAPIErrorFields "" "" "" [] "") = (f, Some je) ->
     Message (apiErrorOf s b) = b /\
     HTTPStatusCode (apiErrorOf s b) = s /\
     (b <> "" -> Message (apiErrorOf s b) <> "")) /\
  (forall (script : list Round) (evs : list event) (e : APIError) (res : option R),
     doRequest newRequestError c cfg script = (evs, Done (Some (EAPI e)) res) ->
     exists rd s b, In rd script /\ exchange rd = Response s b /\
                    isErrorStatus s = true /\ e = apiErrorOf s b) /\
  (forall (bodyBytes : option JSON) (front : list Round) (rd : Round)
          (rest : list Round) (s : Z) (b : string) (f : APIErrorFields) (je : jsonError),
     encodedBody cfg = inr bodyBytes ->
     requestAccepted newRequestError c cfg ->
     maxRetries c < int64_max ->
     Forall retryableRound front ->
     front = [] \/ selected rd = TimerFired ->
     exchange rd = Response s b ->
     isErrorStatus s = true ->
     unmarshal b (mkAPIErrorFields "" "" "" [] "") = (f, Some je) ->
     (isTerminalStatus s = true /\ Z.of_nat (List.length front) <= maxRetries c) \/
     (isTerminalStatus s = false /\ Z.of_nat (List.length front) = maxRetries c) ->
     exists evs e,
       doRequest newRequestError c cfg (front ++ rd :: rest)
         = (evs, Done (Some (EAPI e)) (result cfg)) /\
       Message e = b /\ HTTPStatusCode e = s).
Proof.
  split; [exact apiErrorOf_status |]. split; [| split].
  - intros s b f je Hdec.
    rewrite (apiErrorOf_unparseable s b f je Hdec), apiErrorOf_status. auto.
  - intros script evs e res Hrun. unfold doRequest in Hrun.
    destruct (body cfg) as [pl |]; [destruct (marshal pl) as [me | j] |].
    + inversion Hrun.
    + destruct (retryLoop_api_error_origin _ _ _ _ _ _ _ _ _ Hrun) as [Hl | Hex];
        [discriminate | exact Hex].
    + destruct (retryLoop_api_error_origin _ _ _ _ _ _ _ _ _ Hrun) as [Hl | Hex];
        [discriminate | exact Hex].
  - intros bodyBytes front rd rest s b f je Henc Hacc Hmax Hall Hsel Hex Herr Hdec Hcase.
    exists (retryEvents c cfg bodyBytes 0 (S (List.length front))), (apiErrorOf s b).
    split; [| split; [exact (apiErrorOf_unparseable s b f je Hdec) | apply apiErrorOf_status]].
    destruct Hcase as [[Hterm Hfit] | [Hterm Hfit]].
    + rewrite retryEvents_snoc, Z.add_0_l.
      apply doRequest_returns_after; auto; [lia |].
      rewrite (attemptOnce_error_status c cfg bodyBytes _ rd s b); auto.
      * rewrite Hterm. reflexivity.
      * apply pass_not_cut_short. exact Hsel.
    + apply doRequest_budget_exhausted; auto.
Qed.

End TransportProperties.

(** *** The transport core on concrete calls *)

(** The same client sends the bearer header on [Wallet().List] and none on a
    public POST. *)
Lemma doRequest_authorization_header_witness :
  Forall (fun r => Header_Get (reqHeader r) headerAuthorization
                   = Some "Bearer ISSecretKey_test_secret")
         (requestsOf (fst (runList (testClient 0 0) [okRound]))) /\
  Forall (fun r => Header_Get (reqHeader r) headerAuthorization = None)
         (requestsOf (fst (@postPublic unit unit marshalUnit (emptyObjectDecoder unit)
                             (emptyObjectDecoder APIErrorFields) acceptAnyRequest
                             (testClient 0 0) "/checkout/" (Some tt) (Some tt) [okRound]))).
Proof.
  destruct (@doRequest_authorization_header unit unit marshalUnit (emptyObjectDecoder unit)
              (emptyObjectDecoder APIErrorFields) acceptAnyRequest
              (testClient 0 0) [okRound]) as (Hauth & _ & Hpublic).
  split.
  - eapply Forall_impl; [apply (Hauth walletListConfig) |].
    intros r [Hr _]. exact Hr.
  - apply Hpublic.
Defined.

(** Three rounds of a failing server against a budget of two retries. *)
Lemma doRequest_server_always_500_witness :
  exists evs,
    runList (testClient 2 1000000) [failingRound; failingRound; failingRound]
      = (evs, Done (Some (EAPI (sampleAPIError 500 "upstream exploded"))) (Some tt)) /\
    requestsOf evs =
      repeat (buildRequest (testClient 2 1000000) walletListConfig None) (Z.to_nat (2 + 1)).
Proof.
  destruct (@doRequest_server_always_500 unit unit marshalUnit (emptyObjectDecoder unit)
              (emptyObjectDecoder APIErrorFields) acceptAnyRequest
              (testClient 2 1000000) walletListConfig 2) as [_ Hrun].
  - reflexivity.
  - unfold int64_max. lia.
  - apply (Hrun None [failingRound; failingRound] failingRound "upstream exploded" []).
    + reflexivity.
    + reflexivity.
    + reflexivity.
    + repeat constructor; exists "upstream exploded"; split; reflexivity.
    + split; reflexivity.
Defined.

(** A 429 followed by a 200 against a budget of two retries. *)
Lemma doRequest_status_classification_witness :
  exists evs,
    runList (testClient 2 1000000)
      [mkRound TimerFired (Response 429 "slow down"); mkRound TimerFired (Response 200 "{}")]
      = (evs, Done None (Some tt)) /\
    requestsOf evs =
      [buildRequest (testClient 2 1000000) walletListConfig None;
       buildRequest (testClient 2 1000000) walletListConfig None].
Proof.
  destruct (@doRequest_status_classification unit unit marshalUnit (emptyObjectDecoder unit)
              (emptyObjectDecoder APIErrorFields) acceptAnyRequest
              (testClient 2 1000000) walletListConfig None)
    as (_ & _ & _ & _ & Hrun).
  - reflexivity.
  - reflexivity.
  - unfold int64_max. cbn. lia.
  - apply (Hrun (mkRound TimerFired (Response 429 "slow down"))
                (mkRound TimerFired (Response 200 "{}")) [] 429 "slow down" 200 "{}").
    + cbn. lia.
    + reflexivity.
    + reflexivity.
    + lia.
    + split; reflexivity.
    + lia.
    + reflexivity.
Defined.

(** A 200 whose body is an HTML page, with three retries still in hand. *)
Lemma doRequest_success_decoding_witness :
  runList (testClient 3 1000000) [mkRound TimerFired (Response 200 "<html>ok</html>")]
    = (retryEvents (testClient 3 1000000) walletListConfig None 0 1,
       Done (Some (EUnmarshalResponse
                     (SyntaxError "invalid character looking for beginning of value")))
            (Some tt)).
Proof.
  destruct (@doRequest_success_decoding unit unit marshalUnit (emptyObjectDecoder unit)
              (emptyObjectDecoder APIErrorFields) acceptAnyRequest
              (testClient 3 1000000) walletListConfig None []
              (mkRound TimerFired (Response 200 "<html>ok</html>")) [] 200 "<html>ok</html>")
    as (Hfail & _ & _).
  - reflexivity.
  - reflexivity.
  - unfold int64_max. cbn. lia.
  - cbn. lia.
  - constructor.
  - left. reflexivity.
  - reflexivity.
  - lia.
  - apply (Hfail tt tt (SyntaxError "invalid character looking for beginning of value")).
    + reflexivity.
    + discriminate.
    + reflexivity.
Defined.

(** The plain-text 400 of the test suite. *)
Lemma apiError_from_unparseable_body_witness :
  exists evs e,
    runList (testClient 3 1000000) [mkRound TimerFired (Response 400 "plain text error")]
      = (evs, Done (Some (EAPI e)) (Some tt)) /\
    Message e = "plain text error" /\ HTTPStatusCode e = 400.
Proof.
  destruct (@apiError_from_unparseable_body unit unit marshalUnit (emptyObjectDecoder unit)
              (emptyObjectDecoder APIErrorFields) acceptAnyRequest
              (testClient 3 1000000) walletListConfig)
    as (_ & _ & _ & Hrun).
  apply (Hrun None [] (mkRound TimerFired (Response 400 "plain text error")) []
              400 "plain text error" (mkAPIErrorFields "" "" "" [] "")
              (SyntaxError "invalid character looking for beginning of value")).
  - reflexivity.
  - reflexivity.
  - unfold int64_max. cbn. lia.
  - constructor.
  - left. reflexivity.
  - reflexivity.
  - reflexivity.
  - reflexivity.
  - left. split; [reflexivity | cbn; lia].
Defined.

(** The third retry of a client with a base wait of one millisecond waits four
    milliseconds; a context cancelled during the first backoff wait ends the
    call after the one request already made. *)
Lemma backoff_wait_and_cancellation_witness :
  waitTime (testClient 3 1000000) 3 = 1000000 * 2 ^ (3 - 1) /\
  exists evs,
    runList (testClient 3 1000000)
      [failingRound; mkRound (CtxDone Canceled) (DoFails (TransportCtx Canceled))]
      = ((evs ++ [EvWait (waitTime (testClient 3 1000000) 1)])%list,
         Done (Some (EContext Canceled)) (Some tt)) /\
    List.length (requestsOf evs) = 1%nat.
Proof.
  destruct (@backoff_wait_and_cancellation unit unit marshalUnit (emptyObjectDecoder unit)
              (emptyObjectDecoder APIErrorFields) acceptAnyRequest
              (testClient 3 1000000) walletListConfig None)
    as (Hexact & _ & _ & _ & _ & Hcancel).
  split.
  - apply (Hexact 3); [lia |].
    unfold in_int64, int64_min, int64_max. cbn. lia.
  - apply (Hcancel [failingRound]
             (mkRound (CtxDone Canceled) (DoFails (TransportCtx Canceled))) [] Canceled).
    + reflexivity.
    + reflexivity.
    + unfold int64_max. cbn. lia.
    + discriminate.
    + cbn. lia.
    + repeat constructor.
    + reflexivity.
Defined.

(** A base wait of minus three nanoseconds: the waits of the first retries
    are negative and fire at once, the one before retry 63 comes out as
    [2^62] nanoseconds, where [base * 2^(63-1)] is negative. *)
Lemma backoff_wait_negative_base :
  waitTime (testClient 63 (-3)) 1 = -3 /\
  waitTime (testClient 63 (-3)) 62 = -3 * 2 ^ 61 /\
  waitTime (testClient 63 (-3)) 63 = 2 ^ 62.
Proof. repeat split; vm_compute; reflexivity. Qed.

(** C6 as stated fails.  A client with the default base wait of one second
    and a budget of forty retries, against a server that always answers 500:
    the wait before retry 35 is computed as a negative duration, while
    [base * 2^(35-1)] is 17179869184 seconds. *)
Lemma backoff_wait_overflows :
  nth 34 (waitsOf (fst (runList (testClient 40 Second) (repeat failingRound 36)))) 0
    = -1266874889709551616 /\
  waitTime (testClient 40 Second) 35 = -1266874889709551616 /\
  retryWait (testClient 40 Second) * 2 ^ (35 - 1) = 17179869184000000000 /\
  waitTime (testClient 40 Second) 35 <> retryWait (testClient 40 Second) * 2 ^ (35 - 1).
Proof.
  split; [vm_compute; reflexivity |].
  split; [vm_compute; reflexivity |].
  split; [vm_compute; reflexivity |].
  vm_compute. discriminate.
Qed.

(** ** Resource operations *)

Lemma jsonStringField_of (j : JSON) (k v : string) :
  jsonField j k = Some (JString v) -> jsonStringField j k = v.
Proof. unfold jsonStringField. intros ->. reflexivity. Qed.

Lemma fieldFloat_some (name : string) (value : float) (ms : list (string * JSON)) :
  fieldFloat name value = Some ms -> ms = [(name, JNumber value)].
Proof.
  unfold fieldFloat. destruct (is_nan value || is_infinity value); congruence.
Qed.

Lemma fieldFloat_finite (name : string) (value : float) :
  is_nan value || is_infinity value = false ->
  fieldFloat name value = Some [(name, JNumber value)].
Proof. unfold fieldFloat. intros ->. reflexivity. Qed.

(** What the encoder writes for the payload of [MPesaSTKPush]. *)
Lemma marshalStkPushRequestBody_members (b : stkPushRequestBody) (j : JSON) :
  marshal b = inr j ->
  jsonField j "method" = Some (JString (sbMethod b)) /\
  jsonField j "currency" = Some (JString (sbCurrency b)) /\
  jsonField j "public_key" =
    (if isEmpty (sbPublicKey b) then None else Some (JString (sbPublicKey b))).
Proof.
  unfold marshal, marshalStkPushRequestBody, marshalStruct,
    fieldStringOmitEmpty, fieldString.
  destruct (fieldFloat "amount" (sbAmount b)) as [ms |] eqn:Hf; cbn;
    [| discriminate].
  apply fieldFloat_some in Hf. subst ms.
  destruct (isEmpty (sbPublicKey b)), (isEmpty (sbAPIRef b)), (isEmpty (sbName b)),
    (isEmpty (sbEmail b)), (isEmpty (sbWalletID b));
    intros Hj; inversion Hj; subst; cbn; auto.
Qed.

Lemma marshalStkPushRequestBody_finite (b : stkPushRequestBody) :
  is_nan (sbAmount b) || is_infinity (sbAmount b) = false ->
  exists j, marshal b = inr j.
Proof.
  intros Hfin.
  unfold marshal, marshalStkPushRequestBody, marshalStruct.
  rewrite (fieldFloat_finite _ _ Hfin). cbn. eauto.
Qed.

(** What the encoder writes for a [CreateWalletRequest]; it never fails. *)
Lemma marshalCreateWalletRequest_members (r : CreateWalletRequest) :
  exists j,
    marshal r = inr j /\
    jsonField j "currency" = Some (JString (cwCurrency r)) /\
    jsonField j "label" = Some (JString (cwLabel r)) /\
    jsonField j "wallet_type" =
      (if isEmpty (cwWalletType r) then None else Some (JString (cwWalletType r))).
Proof.
  unfold marshal, marshalCreateWalletRequest, marshalStruct,
    fieldStringOmitEmpty, fieldBoolOmitEmpty, fieldString. cbn.
  destruct (isEmpty (cwWalletType r)), (cwCanDisburse r);
    eexists; (split; [reflexivity |]); cbn; auto.
Qed.

Section OperationsProperties.

Context {Wallet FundMPesaResponse STKPushResponse : Type}.
Context `{Unmarshal Wallet} `{Unmarshal FundMPesaResponse} `{Unmarshal STKPushResponse}.
Context `{Unmarshal APIErrorFields}.
Variable zeroWallet : Wallet.
Variable zeroFundMPesaResponse : FundMPesaResponse.
Variable zeroSTKPushResponse : STKPushResponse.
Variable newRequestError : string -> string -> option string.

(** The requests of a [post]: method, URL, payload and the bearer header. *)
Lemma post_requests {P T : Type} `{Marshal P} `{Unmarshal T}
  (c : Client) (pth : string) (payload : P) (res : option T) (script : list Round) :
  Forall (fun r =>
            reqMethod r = MethodPost /\
            reqURL r = String.append (baseURL c) pth /\
            (exists j, marshal payload = inr j /\ reqBody r = Some j) /\
            Header_Get (reqHeader r) headerAuthorization =
              (if negb (isEmpty (secretKey c))
               then Some (String.append "Bearer " (secretKey c))
               else None))
         (requestsOf (fst (post newRequestError c pth (Some payload) res script))).
Proof.
  unfold post.
  eapply Forall_impl; [apply doRequest_requests_encoded |].
  intros r Hr. cbn beta in Hr. destruct Hr as (bb & Henc & Hr). subst r.
  unfold encodedBody in Henc. cbn in Henc.
  destruct (marshal payload) as [e | j] eqn:Hm; [discriminate |].
  inversion Henc; subst.
  unfold buildRequest. cbn [reqMethod reqURL reqBody reqHeader method path].
  repeat split; eauto.
  rewrite requestHeader_Authorization. reflexivity.
Qed.

(** C10.  Every request [MPesaSTKPush] sends is a POST to
    [/payment/mpesa-stk-push/] whose body has [method] equal to ["M-PESA"],
    [currency] equal to ["KES"], and [public_key] equal to the client's
    publishable key, whatever the caller's request holds.  ([public_key] is
    tagged [omitempty]: for a client with no publishable key the member is
    left out, which a decoder reads back as the empty key.)  A request is
    indeed sent as soon as the amount is finite, the request is accepted, the
    budget is not negative and the world answers. *)
Theorem MPesaSTKPush_wire_body (c : Client) (req : STKPushRequest) (script : list Round) :
  (forall r : Request,
     In r (requestsOf (fst (CollectionService_MPesaSTKPush
                              zeroSTKPushResponse newRequestError c (Some req) script))) ->
     reqMethod r = MethodPost /\
     reqURL r = String.append (baseURL c) "/payment/mpesa-stk-push/" /\
     exists j,
       reqBody r = Some j /\
       jsonField j "method" = Some (JString "M-PESA") /\
       jsonField j "currency" = Some (JString "KES") /\
       jsonField j "public_key" =
         (if isEmpty (publishableKey c) then None
          else Some (JString (publishableKey c))) /\
       jsonStringField j "public_key" = publishableKey c) /\
  (is_nan (spAmount req) || is_infinity (spAmount req) = false ->
   newRequestError MethodPost (String.append (baseURL c) "/payment/mpesa-stk-push/") = None ->
   0 <= maxRetries c ->
   script <> [] ->
   requestsOf (fst (CollectionService_MPesaSTKPush
                      zeroSTKPushResponse newRequestError c (Some req) script)) <> []).
Proof.
  unfold CollectionService_MPesaSTKPush.
  set (payload := {| sbPublicKey := publishableKey c;
                     sbPhoneNumber := spPhoneNumber req;
                     sbAmount := spAmount req;
                     sbAPIRef := spAPIRef req;
                     sbName := spName req;
                     sbEmail := spEmail req;
                     sbWalletID := spWalletID req;
                     sbMethod := "M-PESA";
                     sbCurrency := "KES" |}).
  split.
  - intros r Hin.
    pose proof (post_requests c "/payment/mpesa-stk-push/" payload
                  (Some zeroSTKPushResponse) script) as Hall.
    destruct (post newRequestError c "/payment/mpesa-stk-push/" (Some payload)
                (Some zeroSTKPushResponse) script) as [evs fin].
    cbn in Hin, Hall. rewrite List.Forall_forall in Hall.
    destruct (Hall r Hin) as (Hm & Hu & (j & Hj & Hb) & _).
    destruct (marshalStkPushRequestBody_members payload j Hj) as (Hmeth & Hcur & Hkey).
    unfold payload in Hmeth, Hcur, Hkey.
    cbn [sbMethod sbCurrency sbPublicKey] in Hmeth, Hcur, Hkey.
    repeat split; [exact Hm | exact Hu |].
    exists j. repeat split; auto.
    unfold jsonStringField. rewrite Hkey.
    destruct (isEmpty (publishableKey c)) eqn:He; [| reflexivity].
    apply isEmpty_true in He. auto.
  - intros Hfin Hacc Hbudget Hscript.
    destruct script as [| rd rest]; [contradiction |].
    destruct (marshalStkPushRequestBody_finite payload Hfin) as [j Hj].
    destruct (doRequest_sends newRequestError c
                (mkRequestConfig MethodPost "/payment/mpesa-stk-push/" (Some payload)
                   (Some zeroSTKPushResponse) true false)
                (Some j) rd rest) as [more Hmore].
    + unfold encodedBody. cbn. rewrite Hj. reflexivity.
    + exact Hacc.
    + exact Hbudget.
    + unfold post.
      destruct (doRequest _ _ _ _) as [evs fin]. cbn in Hmore |- *.
      rewrite Hmore. discriminate.
Qed.

(** C4, as the code has it.  [FundMPesa] goes through [post]: every request
    it sends is a POST to [/payment/mpesa-stk-push/] with bearer-secret
    authentication, that is, it carries [Authorization: Bearer <secret key>]
    exactly when the client has a secret key. *)
Theorem FundMPesa_bearer_auth (c : Client) (req : FundMPesaRequest)
  (script : list Round) (r : Request) :
  In r (requestsOf (fst (WalletService_FundMPesa
                           zeroFundMPesaResponse newRequestError c (Some req) script))) ->
  reqMethod r = MethodPost /\
  reqURL r = String.append (baseURL c) "/payment/mpesa-stk-push/" /\
  Header_Get (reqHeader r) headerAuthorization =
    (if negb (isEmpty (secretKey c))
     then Some (String.append "Bearer " (secretKey c))
     else None) /\
  (is_Some (Header_Get (reqHeader r) headerAuthorization) <-> secretKey c <> "").
Proof.
  unfold WalletService_FundMPesa.
  set (payload := {| fbPublicKey := publishableKey c;
                     fbWalletID := fmWalletID req;
                     fbPhoneNumber := fmPhoneNumber req;
                     fbAmount := fmAmount req;
                     fbEmail := fmEmail req;
                     fbAPIRef := fmAPIRef req;
                     fbMethod := "M-PESA";
                     fbCurrency := "KES" |}).
  intros Hin.
  pose proof (post_requests c "/payment/mpesa-stk-push/" payload
                (Some zeroFundMPesaResponse) script) as Hall.
  destruct (post newRequestError c "/payment/mpesa-stk-push/" (Some payload)
              (Some zeroFundMPesaResponse) script) as [evs fin].
  cbn [fst] in Hin, Hall. rewrite List.Forall_forall in Hall.
  destruct (Hall r Hin) as (Hm & Hu & _ & Hauth).
  repeat split; [exact Hm | exact Hu | exact Hauth | |]; rewrite Hauth.
  - destruct (isEmpty (secretKey c)) eqn:He; cbn.
    + intros [x Hx]. discriminate.
    + intros _. apply isEmpty_false. exact He.
  - intros Hne. apply isEmpty_false in Hne. rewrite Hne. cbn. eauto.
Qed.

(** C9, as the code has it.  [Create] on a request whose wallet type is empty
    writes the default into the request it was handed: after the call the
    caller's request holds ["WORKING"] as its wallet type, its other fields
    and every other address of the caller's memory are as before, and every
    request sent carries [wallet_type] equal to ["WORKING"].  A request with
    a wallet type is sent as it is and memory is unchanged. *)
Theorem Create_defaults_wallet_type (c : Client) (h : gmap positive CreateWalletRequest)
  (req : positive) (r : CreateWalletRequest) (script : list Round) :
  h !! req = Some r ->
  (cwWalletType r = "" ->
   exists evs out,
     WalletService_Create zeroWallet newRequestError c h req script =
       (<[req := mkCreateWalletRequest (cwCurrency r) (cwLabel r) WalletTypeWorking
                   (cwCanDisburse r)]> h, evs, out) /\
     (forall q : Request,
        In q (requestsOf evs) ->
        exists j, reqBody q = Some j /\
                  jsonField j "wallet_type" = Some (JString "WORKING") /\
                  jsonField j "currency" = Some (JString (cwCurrency r)) /\
                  jsonField j "label" = Some (JString (cwLabel r)))) /\
  (cwWalletType r <> "" ->
   exists evs out,
     WalletService_Create zeroWallet newRequestError c h req script = (h, evs, out) /\
     (forall q : Request,
        In q (requestsOf evs) ->
        exists j, reqBody q = Some j /\
                  jsonField j "wallet_type" = Some (JString (cwWalletType r)))).
Proof.
  intros Hreq. unfold WalletService_Create. rewrite Hreq. split.
  - intros Hempty.
    assert (He : isEmpty (cwWalletType r) = true) by (apply isEmpty_true; exact Hempty).
    rewrite He, lookup_insert_eq.
    set (r' := mkCreateWalletRequest (cwCurrency r) (cwLabel r) WalletTypeWorking
                 (cwCanDisburse r)).
    pose proof (post_requests c "/wallets/" r' (Some zeroWallet) script) as Hall.
    destruct (post newRequestError c "/wallets/" (Some r') (Some zeroWallet) script)
      as [evs fin].
    exists evs, (finish fin). split; [reflexivity |].
    intros q Hin. cbn [fst] in Hall. rewrite List.Forall_forall in Hall.
    destruct (Hall q Hin) as (_ & _ & (j & Hj & Hb) & _).
    destruct (marshalCreateWalletRequest_members r') as (j' & Hj' & Hcur & Hlab & Hty).
    rewrite Hj in Hj'. inversion Hj'; subst j'.
    exists j. repeat split; assumption.
  - intros Hset.
    assert (He : isEmpty (cwWalletType r) = false) by (apply isEmpty_false; exact Hset).
    rewrite He, Hreq.
    pose proof (post_requests c "/wallets/" r (Some zeroWallet) script) as Hall.
    destruct (post newRequestError c "/wallets/" (Some r) (Some zeroWallet) script)
      as [evs fin].
    exists evs, (finish fin). split; [reflexivity |].
    intros q Hin. cbn [fst] in Hall. rewrite List.Forall_forall in Hall.
    destruct (Hall q Hin) as (_ & _ & (j & Hj & Hb) & _).
    destruct (marshalCreateWalletRequest_members r) as (j' & Hj' & _ & _ & Hty).
    rewrite Hj in Hj'. inversion Hj'; subst j'.
    rewrite He in Hty. exists j. split; assumption.
Qed.

End OperationsProperties.

(** *** The operations on concrete calls *)

(** The STK push of the test suite. *)
Lemma MPesaSTKPush_wire_body_witness :
  exists r j,
    requestsOf (fst (runMPesaSTKPush (testClient 0 0) (Some sampleSTKPushRequest) [okRound]))
      = [r] /\
    reqBody r = Some j /\
    jsonField j "method" = Some (JString "M-PESA") /\
    jsonField j "currency" = Some (JString "KES") /\
    jsonStringField j "public_key" = "ISPubKey_test_abc123".
Proof.
  eexists.
  destruct (@MPesaSTKPush_wire_body unit (emptyObjectDecoder unit)
              (emptyObjectDecoder APIErrorFields) tt acceptAnyRequest
              (testClient 0 0) sampleSTKPushRequest [okRound]) as [Hwire _].
  destruct (Hwire (buildRequest (testClient 0 0)
                     (mkRequestConfig MethodPost "/payment/mpesa-stk-push/"
                        (Some (mkStkPushRequestBody "ISPubKey_test_abc123" "254712345678"
                                 100%float "order-123" "" "" "" "M-PESA" "KES"))
                        (Some tt) true false)
                     (Some (JObject [("public_key", JString "ISPubKey_test_abc123");
                                     ("phone_number", JString "254712345678");
                                     ("amount", JNumber 100%float);
                                     ("api_ref", JString "order-123");
                                     ("method", JString "M-PESA");
                                     ("currency", JString "KES")]))))
    as (_ & _ & j & Hb & Hm & Hc & _ & Hk).
  - left. reflexivity.
  - exists j. split; [reflexivity |]. auto.
Defined.

(** The wallet funding of the test suite, by the client of the test suite. *)
Lemma FundMPesa_bearer_auth_witness :
  exists r,
    requestsOf (fst (runFundMPesa (testClient 0 0) (Some sampleFundMPesaRequest) [okRound]))
      = [r] /\
    reqURL r = "http://127.0.0.1:8080/payment/mpesa-stk-push/" /\
    Header_Get (reqHeader r) headerAuthorization = Some "Bearer ISSecretKey_test_secret".
Proof.
  eexists. split; [reflexivity |].
  destruct (@FundMPesa_bearer_auth unit (emptyObjectDecoder unit)
              (emptyObjectDecoder APIErrorFields) tt acceptAnyRequest
              (testClient 0 0) sampleFundMPesaRequest [okRound] _ (or_introl eq_refl))
    as (_ & Hu & Hauth & _).
  split; [exact Hu | exact Hauth].
Defined.

(** C4 as stated fails: with a secret key configured, the request of
    [FundMPesa] carries the bearer header. *)
Lemma FundMPesa_sends_bearer_header :
  exists r,
    In r (requestsOf (fst (runFundMPesa (testClient 0 0)
                             (Some sampleFundMPesaRequest) [okRound]))) /\
    Header_Get (reqHeader r) headerAuthorization = Some "Bearer ISSecretKey_test_secret" /\
    Header_Get (reqHeader r) headerAuthorization <> None.
Proof.
  eexists. split; [left; reflexivity |].
  split; [vm_compute; reflexivity | vm_compute; discriminate].
Qed.

(** Creating the wallet of the test suite from address 1 of the caller's
    memory. *)
Lemma Create_defaults_wallet_type_witness :
  exists evs out,
    runCreate (testClient 0 0) {[ 1%positive := sampleCreateWalletRequest ]} 1 [okRound] =
      (<[1%positive := mkCreateWalletRequest "KES" "Test Wallet" "WORKING" false]>
         {[ 1%positive := sampleCreateWalletRequest ]}, evs, out) /\
    (forall q : Request,
       In q (requestsOf evs) ->
       exists j, reqBody q = Some j /\
                 jsonField j "wallet_type" = Some (JString "WORKING") /\
                 jsonField j "currency" = Some (JString "KES") /\
                 jsonField j "label" = Some (JString "Test Wallet")).
Proof.
  assert (Hreq : ({[ 1%positive := sampleCreateWalletRequest ]}
                    : gmap positive CreateWalletRequest) !! 1%positive
                 = Some sampleCreateWalletRequest) by (vm_compute; reflexivity).
  apply (proj1 (@Create_defaults_wallet_type unit (emptyObjectDecoder unit)
                  (emptyObjectDecoder APIErrorFields) tt acceptAnyRequest
                  (testClient 0 0) {[ 1%positive := sampleCreateWalletRequest ]} 1
                  sampleCreateWalletRequest [okRound] Hreq)).
  reflexivity.
Defined.

(** C9 as stated fails: after [Create] the caller's request is no longer the
    one that was passed in; its wallet type has become ["WORKING"]. *)
Lemma Create_mutates_caller_request :
  ({[ 1%positive := sampleCreateWalletRequest ]} : gmap positive CreateWalletRequest)
    !! 1%positive = Some (mkCreateWalletRequest "KES" "Test Wallet" "" false) /\
  (runCreate (testClient 0 0) {[ 1%positive := sampleCreateWalletRequest ]} 1 [okRound]).1.1
    !! 1%positive = Some (mkCreateWalletRequest "KES" "Test Wallet" "WORKING" false) /\
  (runCreate (testClient 0 0) {[ 1%positive := sampleCreateWalletRequest ]} 1 [okRound]).1.1
    !! 1%positive
    <> ({[ 1%positive := sampleCreateWalletRequest ]} : gmap positive CreateWalletRequest)
         !! 1%positive.
Proof.
  split; [vm_compute; reflexivity |].
  split; [vm_compute; reflexivity |].
  vm_compute. discriminate.
Qed.

(** * Further properties of the code *)

(** ** The transport core *)

Section TransportExtras.

Context {B R : Type} `{Marshal B} `{Unmarshal R} `{Unmarshal APIErrorFields}.
Variable newRequestError : string -> string -> option string.

(** X1.  The header block of every request [doRequest] sends: Content-Type is
    [application/json] and User-Agent is the client's, on GET and POST alike;
    both public-key headers carry the publishable key when the client has one
    and are absent when it has none, whatever the descriptor's auth mode; and
    no header other than these four and Authorization is ever set. *)
Theorem doRequest_header_block (c : Client) (cfg : requestConfig B R)
  (script : list Round) :
  Forall (fun r =>
            Header_Get (reqHeader r) headerContentType = Some contentTypeJSON /\
            Header_Get (reqHeader r) headerUserAgent = Some (userAgent c) /\
            Header_Get (reqHeader r) headerPublicAPIKey =
              (if isEmpty (publishableKey c) then None else Some (publishableKey c)) /\
            Header_Get (reqHeader r) headerIntaSendPublicKey =
              (if isEmpty (publishableKey c) then None else Some (publishableKey c)) /\
            (forall name : string,
               name <> headerContentType -> name <> headerUserAgent ->
               name <> headerPublicAPIKey -> name <> headerIntaSendPublicKey ->
               name <> headerAuthorization ->
               Header_Get (reqHeader r) name = None))
         (requestsOf (fst (doRequest newRequestError c cfg script))).
Proof.
  eapply Forall_impl; [apply doRequest_requests |].
  intros r Hr. cbn beta in Hr. destruct Hr as [bb ->].
  unfold buildRequest. cbn [reqHeader].
  unfold requestHeader, Header_Get, Header_Set,
    headerAuthorization, headerContentType, headerUserAgent,
    headerPublicAPIKey, headerIntaSendPublicKey, contentTypeJSON.
  destruct (requiresAuth cfg && negb (isEmpty (secretKey c)));
    destruct (isEmpty (publishableKey c)); cbn [negb];
    (split; [| split; [| split; [| split]]];
     [ repeat (rewrite lookup_insert_ne by discriminate); apply lookup_insert_eq
     | repeat (rewrite lookup_insert_ne by discriminate); apply lookup_insert_eq
     | repeat (rewrite lookup_insert_ne by discriminate);
       first [apply lookup_insert_eq | apply lookup_empty]
     | repeat (rewrite lookup_insert_ne by discriminate);
       first [apply lookup_insert_eq | apply lookup_empty]
     | intros name H1' H2' H3' H4' H5';
       repeat (rewrite lookup_insert_ne by congruence); apply lookup_empty ]).
Qed.

(** X2.  The payload is encoded once and the same request is built for every
    attempt: any two requests of one call are equal (method, URL, headers and
    body), the URL being the base URL followed by the path. *)
Theorem doRequest_same_request_every_attempt (c : Client) (cfg : requestConfig B R)
  (script : list Round) (r1 r2 : Request) :
  In r1 (requestsOf (fst (doRequest newRequestError c cfg script))) ->
  In r2 (requestsOf (fst (doRequest newRequestError c cfg script))) ->
  r1 = r2 /\
  reqMethod r1 = method cfg /\
  reqURL r1 = String.append (baseURL c) (path cfg) /\
  encodedBody cfg = inr (reqBody r1).
Proof.
  intros H1' H2'.
  pose proof (doRequest_requests_encoded newRequestError c cfg script) as Hall.
  rewrite List.Forall_forall in Hall.
  destruct (Hall r1 H1') as (bb1 & Henc1 & ->).
  destruct (Hall r2 H2') as (bb2 & Henc2 & ->).
  rewrite Henc1 in Henc2. inversion Henc2; subst bb2.
  repeat split; auto.
Qed.

(** X4.  A request that cannot be built (a method or URL that
    [http.NewRequestWithContext] refuses) ends the call in the first pass:
    the error is returned at once, nothing is handed to the HTTP client and
    no retry is made, whatever the budget and whatever the world would do. *)
Theorem doRequest_request_not_built (c : Client) (cfg : requestConfig B R)
  (bodyBytes : option JSON) (what : string) (rd : Round) (rest : list Round) :
  encodedBody cfg = inr bodyBytes ->
  newRequestError (method cfg) (String.append (baseURL c) (path cfg)) = Some what ->
  0 <= maxRetries c ->
  doRequest newRequestError c cfg (rd :: rest) =
    ([], Done (Some (ECreateRequest what)) (result cfg)).
Proof.
  intros Henc Hnew Hbudget.
  rewrite (doRequest_encoded newRequestError c cfg bodyBytes) by exact Henc.
  rewrite retryLoop_step by lia.
  unfold attemptOnce, waitedBefore. change (0 <? 0) with false. cbn iota.
  rewrite Hnew. reflexivity.
Qed.

(** When the budget runs out on a pass that continues, the call returns the
    error that pass recorded. *)
Lemma doRequest_exhausted_on (c : Client) (cfg : requestConfig B R)
  (bodyBytes : option JSON) (front : list Round) (rd : Round) (rest : list Round)
  (evs : list event) (lastErr : option error) :
  encodedBody cfg = inr bodyBytes ->
  requestAccepted newRequestError c cfg ->
  maxRetries c < int64_max ->
  Z.of_nat (List.length front) = maxRetries c ->
  Forall retryableRound front ->
  attemptOnce newRequestError c cfg bodyBytes (Z.of_nat (List.length front)) rd
    = (evs, Continue lastErr) ->
  doRequest newRequestError c cfg (front ++ rd :: rest) =
    ((retryEvents c cfg bodyBytes 0 (List.length front) ++ evs)%list,
     Done lastErr (result cfg)).
Proof.
  intros Henc Hacc Hmax Hlen Hall Hpass.
  rewrite (doRequest_encoded newRequestError c cfg bodyBytes) by exact Henc.
  destruct (retryLoop_after_retryable newRequestError c cfg bodyBytes
              ltac:(lia) Hacc front (rd :: rest) 0 None)
    as (lastErr' & _ & _ & Hrun); [lia | lia | exact Hall |].
  rewrite Hrun, Z.add_0_l, retryLoop_step by lia.
  rewrite Hpass.
  rewrite (wrap64_id (_ + 1)) by int64_arith.
  rewrite retryLoop_exhausted by lia.
  rewrite app_nil_r. reflexivity.
Qed.

(** X5.  Failures of the transport are retried like retryable answers.  When
    the budget (a count [N = maxRetries]) runs out on one, after [N] rounds
    that were all retried, [N + 1] requests have been sent and the call
    returns a [NetworkError] that wraps the cause of the last failure, with
    the message ["request failed"] when [Do] failed and ["failed to read
    response"] when reading the body failed; it is not an [APIError]. *)
Theorem doRequest_transport_failures (c : Client) (cfg : requestConfig B R)
  (bodyBytes : option JSON) (front : list Round) (rd : Round) (rest : list Round)
  (cause : transportError) :
  encodedBody cfg = inr bodyBytes ->
  requestAccepted newRequestError c cfg ->
  maxRetries c < int64_max ->
  Z.of_nat (List.length front) = maxRetries c ->
  Forall retryableRound front ->
  front = [] \/ selected rd = TimerFired ->
  (exchange rd = DoFails cause ->
   exists e,
     doRequest newRequestError c cfg (front ++ rd :: rest) =
       (retryEvents c cfg bodyBytes 0 (S (List.length front)),
        Done (Some (ENetwork e)) (result cfg)) /\
     Unwrap e = cause /\ NetMessage e = "request failed" /\
     IsNetworkError (Some (ENetwork e)) = true /\
     AsAPIError (Some (ENetwork e)) = None) /\
  (forall status : Z,
   exchange rd = ReadFails status cause ->
   exists e,
     doRequest newRequestError c cfg (front ++ rd :: rest) =
       (retryEvents c cfg bodyBytes 0 (S (List.length front)),
        Done (Some (ENetwork e)) (result cfg)) /\
     Unwrap e = cause /\ NetMessage e = "failed to read response") /\
  List.length (requestsOf (retryEvents c cfg bodyBytes 0 (S (List.length front))))
    = Z.to_nat (maxRetries c + 1).
Proof.
  intros Henc Hacc Hmax Hlen Hall Hsel.
  assert (Hpass : forall e,
            (exchange rd = DoFails cause /\ e = mkNetworkError cause "request failed") \/
            (exists st, exchange rd = ReadFails st cause /\
                        e = mkNetworkError cause "failed to read response") ->
            attemptOnce newRequestError c cfg bodyBytes (Z.of_nat (List.length front)) rd
              = (passEvents c cfg bodyBytes (Z.of_nat (List.length front)),
                 Continue (Some (ENetwork e)))).
  { intros e He. unfold attemptOnce, passEvents.
    assert (Hs : (if 0 <? Z.of_nat (List.length front) then selected rd else TimerFired)
                 = TimerFired).
    { destruct (0 <? Z.of_nat (List.length front)) eqn:Hpos; [| reflexivity].
      destruct Hsel as [-> | Hsel]; [discriminate Hpos | exact Hsel]. }
    rewrite Hs. unfold requestAccepted in Hacc. rewrite Hacc.
    destruct He as [[-> ->] | (st & -> & ->)]; reflexivity. }
  split; [| split].
  - intros Hex. eexists. split.
    + rewrite retryEvents_snoc, Z.add_0_l.
      apply doRequest_exhausted_on; auto.
    + repeat split.
  - intros st Hex. eexists. split.
    + rewrite retryEvents_snoc, Z.add_0_l.
      apply doRequest_exhausted_on; auto. apply Hpass. right. eauto.
    + split; reflexivity.
  - rewrite requestsOf_retryEvents, repeat_length. lia.
Qed.


(** *** A context that is already done *)



(** *** Which errors come out only when the budget is used up *)

Lemma attemptOnce_return_kind (c : Client) (cfg : requestConfig B R)
  (bodyBytes : option JSON) (attempt : Z) (rd : Round)
  (evs : list event) (err : option error) (res : option R) :
  attemptOnce newRequestError c cfg bodyBytes attempt rd = (evs, Return err res) ->
  returnedByPass err.
Proof.
  unfold attemptOnce, decodeResult.
  destruct (if 0 <? attempt then selected rd else TimerFired);
    [intros Hp; inversion Hp; exact I |].
  destruct (newRequestError _ _); [intros Hp; inversion Hp; exact I |].
  destruct (exchange rd) as [te | st te | st b]; [intros Hp; inversion Hp .. |].
  destruct (isErrorStatus st).
  - destruct (isTerminalStatus st) eqn:Hterm; intros Hp; inversion Hp; subst.
    cbn. rewrite apiErrorOf_status. exact Hterm.
  - destruct (result cfg) as [r |];
      [destruct (0 <? Z.of_nat (String.length b));
         [destruct (unmarshal b r) as [r' [je |]] |] |];
      intros Hp; inversion Hp; exact I.
Qed.

Lemma attemptOnce_continue_sends (c : Client) (cfg : requestConfig B R)
  (bodyBytes : option JSON) (attempt : Z) (rd : Round)
  (evs : list event) (lastErr : option error) :
  attemptOnce newRequestError c cfg bodyBytes attempt rd = (evs, Continue lastErr) ->
  requestsOf evs = [buildRequest c cfg bodyBytes].
Proof.
  unfold attemptOnce, decodeResult.
  destruct (if 0 <? attempt then selected rd else TimerFired);
    [intros Hp; inversion Hp |].
  destruct (newRequestError _ _); [intros Hp; inversion Hp |].
  fold (passEvents c cfg bodyBytes attempt).
  destruct (exchange rd) as [te | st te | st b].
  - intros Hp; inversion Hp. apply requestsOf_passEvents.
  - intros Hp; inversion Hp. apply requestsOf_passEvents.
  - destruct (isErrorStatus st).
    + destruct (isTerminalStatus st); intros Hp; inversion Hp.
      apply requestsOf_passEvents.
    + destruct (result cfg) as [r |];
        [destruct (0 <? Z.of_nat (String.length b));
           [destruct (unmarshal b r) as [r' [je |]] |] |];
        intros Hp; inversion Hp.
Qed.

(** A call of the loop ends in one of three ways: a pass returned; the
    budget was already used up when it started; or it used up the budget
    itself, one request per remaining attempt. *)
Lemma retryLoop_exit_or_return (c : Client) (cfg : requestConfig B R)
  (bodyBytes : option JSON) :
  maxRetries c < int64_max ->
  forall (script : list Round) (attempt : Z) (lastErr : option error)
         (evs : list event) (err : option error) (res : option R),
    0 <= attempt ->
    retryLoop newRequestError c cfg bodyBytes script attempt lastErr
      = (evs, Done err res) ->
    returnedByPass err \/
    (maxRetries c < attempt /\ err = lastErr /\ evs = []) \/
    (attempt <= maxRetries c /\
     Z.of_nat (List.length (requestsOf evs)) = maxRetries c - attempt + 1).
Proof.
  intros Hmax. induction script as [| rd rest IH];
    intros attempt lastErr evs err res Hpos Hrun.
  - cbn in Hrun. destruct (attempt <=? maxRetries c) eqn:Hle; inversion Hrun; subst.
    apply Z.leb_gt in Hle. auto.
  - destruct (Z.le_gt_cases attempt (maxRetries c)) as [Hle | Hgt].
    + rewrite retryLoop_step in Hrun by exact Hle.
      destruct (attemptOnce newRequestError c cfg bodyBytes attempt rd)
        as [evs0 [lastErr' | err0 res0]] eqn:Hpass.
      * rewrite (wrap64_id (attempt + 1)) in Hrun by int64_arith.
        destruct (retryLoop newRequestError c cfg bodyBytes rest (attempt + 1) lastErr')
          as [evs' fin] eqn:Hrest.
        inversion Hrun; subst.
        pose proof (attemptOnce_continue_sends c cfg bodyBytes attempt rd _ _ Hpass)
          as Hone.
        assert (Hnext : 0 <= attempt + 1) by lia.
        destruct (IH _ _ _ _ _ Hnext Hrest) as [Hret | [(Hgt & _ & ->) | (Hle' & Hcount)]].
        -- left. exact Hret.
        -- right. right. split; [exact Hle |].
           rewrite app_nil_r, Hone. cbn. lia.
        -- right. right. split; [exact Hle |].
           rewrite requestsOf_app, length_app, Hone. cbn [List.length]. lia.
      * inversion Hrun; subst. left.
        eapply attemptOnce_return_kind. exact Hpass.
    + rewrite retryLoop_exhausted in Hrun by lia. inversion Hrun; subst. auto.
Qed.

(** X7.  A [NetworkError], and an [APIError] whose status is retryable (a
    rate-limit error among them), are never returned early: when a call with
    a budget [maxRetries >= 0] returns one, it has sent exactly
    [maxRetries + 1] requests. *)
Theorem doRequest_retryable_error_means_exhausted (c : Client) (cfg : requestConfig B R)
  (script : list Round) (evs : list event) (err : error) (res : option R) :
  0 <= maxRetries c < int64_max ->
  doRequest newRequestError c cfg script = (evs, Done (Some err) res) ->
  (exists ne, err = ENetwork ne) \/
  (exists e, err = EAPI e /\
             (isTerminalStatus (HTTPStatusCode e) = false \/ IsRateLimited e = true)) ->
  Z.of_nat (List.length (requestsOf evs)) = maxRetries c + 1.
Proof.
  intros Hbudget Hrun Hkind.
  assert (Hnot : ~ returnedByPass (Some err)).
  { destruct Hkind as [[ne ->] | (e & -> & [Hterm | Hrate])]; cbn.
    - tauto.
    - rewrite Hterm. discriminate.
    - unfold IsRateLimited in Hrate. apply Z.eqb_eq in Hrate. rewrite Hrate.
      discriminate. }
  assert (Hloop : forall bb,
            retryLoop newRequestError c cfg bb script 0 None = (evs, Done (Some err) res) ->
            Z.of_nat (List.length (requestsOf evs)) = maxRetries c + 1).
  { intros bb Hl.
    assert (Hmax : maxRetries c < int64_max) by lia.
    assert (Hzero : 0 <= 0) by lia.
    destruct (retryLoop_exit_or_return c cfg bb Hmax _ _ _ _ _ _ Hzero Hl)
      as [Hret | [(Hgt & _) | (_ & Hcount)]]; [contradiction | lia | lia]. }
  unfold doRequest in Hrun.
  destruct (body cfg) as [b |]; [destruct (marshal b) as [me | j] |].
  - inversion Hrun; subst.
    destruct Hkind as [[ne Hne] | (e & He & _)]; discriminate.
  - eapply Hloop. exact Hrun.
  - eapply Hloop. exact Hrun.
Qed.

(** *** Rounds that are never read *)

Lemma retryLoop_done_extend (c : Client) (cfg : requestConfig B R)
  (bodyBytes : option JSON) (script extra : list Round) :
  forall (attempt : Z) (lastErr : option error)
         (evs : list event) (err : option error) (res : option R),
    retryLoop newRequestError c cfg bodyBytes script attempt lastErr
      = (evs, Done err res) ->
    retryLoop newRequestError c cfg bodyBytes (script ++ extra) attempt lastErr
      = (evs, Done err res).
Proof.
  induction script as [| rd rest IH]; intros attempt lastErr evs err res Hrun.
  - cbn in Hrun. destruct (attempt <=? maxRetries c) eqn:Hle; inversion Hrun; subst.
    apply Z.leb_gt in Hle. rewrite app_nil_l. apply retryLoop_exhausted. exact Hle.
  - cbn [app retryLoop] in Hrun |- *.
    destruct (attempt <=? maxRetries c); [| exact Hrun].
    destruct (attemptOnce newRequestError c cfg bodyBytes attempt rd)
      as [evs0 [lastErr' | err0 res0]]; [| exact Hrun].
    destruct (retryLoop newRequestError c cfg bodyBytes rest (wrap64 (attempt + 1)) lastErr')
      as [evs' fin] eqn:Hrest.
    inversion Hrun; subst.
    rewrite (IH _ _ _ _ _ Hrest). reflexivity.
Qed.

(** X8.  A call needs at most [maxRetries + 1] rounds of the world: given
    that many it returns, and what it returns and does is the same however
    many more rounds the world would have offered. *)
Theorem doRequest_uses_at_most_budget_rounds (c : Client) (cfg : requestConfig B R)
  (script : list Round) :
  maxRetries c < int64_max ->
  maxRetries c + 1 <= Z.of_nat (List.length script) ->
  exists evs err res,
    doRequest newRequestError c cfg script = (evs, Done err res) /\
    forall extra : list Round,
      doRequest newRequestError c cfg (script ++ extra) = (evs, Done err res).
Proof.
  intros Hmax Hlen.
  destruct (doRequest_returns newRequestError c cfg script Hmax Hlen) as (err & res & Hfin).
  destruct (doRequest newRequestError c cfg script) as [evs fin] eqn:Hrun.
  cbn in Hfin. subst fin.
  exists evs, err, res. split; [reflexivity |].
  intros extra. unfold doRequest in Hrun |- *.
  destruct (body cfg) as [b |]; [destruct (marshal b) as [me | j] |].
  - exact Hrun.
  - apply retryLoop_done_extend. exact Hrun.
  - apply retryLoop_done_extend. exact Hrun.
Qed.

End TransportExtras.

(** *** The further properties of the transport core on concrete calls *)

Lemma doRequest_header_block_witness :
  Forall (fun r =>
            Header_Get (reqHeader r) headerPublicAPIKey = Some "ISPubKey_test_abc123" /\
            Header_Get (reqHeader r) "Accept" = None)
         (requestsOf (fst (runList (testClient 0 0) [okRound]))).
Proof.
  eapply Forall_impl;
    [apply (@doRequest_header_block unit unit marshalUnit (emptyObjectDecoder unit)
              (emptyObjectDecoder APIErrorFields) acceptAnyRequest
              (testClient 0 0) walletListConfig [okRound]) |].
  intros r (_ & _ & Hkey & _ & Hnone).
  split; [exact Hkey | apply Hnone; discriminate].
Defined.

Lemma doRequest_same_request_every_attempt_witness :
  buildRequest (testClient 2 1000) walletListConfig None
    = buildRequest (testClient 2 1000) walletListConfig None /\
  reqMethod (buildRequest (testClient 2 1000) walletListConfig None) = "GET" /\
  reqURL (buildRequest (testClient 2 1000) walletListConfig None)
    = "http://127.0.0.1:8080/wallets/" /\
  @encodedBody unit unit marshalUnit walletListConfig
    = inr (reqBody (buildRequest (testClient 2 1000) walletListConfig None)).
Proof.
  apply (@doRequest_same_request_every_attempt unit unit marshalUnit
           (emptyObjectDecoder unit) (emptyObjectDecoder APIErrorFields) acceptAnyRequest
           (testClient 2 1000) walletListConfig [failingRound; okRound]).
  - left. reflexivity.
  - right. left. reflexivity.
Defined.

Lemma doRequest_request_not_built_witness :
  @doRequest unit unit marshalUnit (emptyObjectDecoder unit)
    (emptyObjectDecoder APIErrorFields) rejectAnyRequest
    (testClient 3 1000) walletListConfig [okRound]
  = ([], Done (Some (ECreateRequest "parse: invalid URL")) (Some tt)).
Proof.
  apply (@doRequest_request_not_built unit unit marshalUnit (emptyObjectDecoder unit)
           (emptyObjectDecoder APIErrorFields) rejectAnyRequest
           (testClient 3 1000) walletListConfig None "parse: invalid URL" okRound []).
  - reflexivity.
  - reflexivity.
  - cbn. lia.
Defined.

Lemma doRequest_transport_failures_witness :
  exists e,
    runList (testClient 1 1000) [refusedRound; refusedRound] =
      (retryEvents (testClient 1 1000) walletListConfig None 0 2,
       Done (Some (ENetwork e)) (Some tt)) /\
    Unwrap e = TransportFailure "connection refused" /\
    NetMessage e = "request failed" /\
    IsNetworkError (Some (ENetwork e)) = true /\
    AsAPIError (Some (ENetwork e)) = None.
Proof.
  destruct (@doRequest_transport_failures unit unit marshalUnit (emptyObjectDecoder unit)
              (emptyObjectDecoder APIErrorFields) acceptAnyRequest
              (testClient 1 1000) walletListConfig None [refusedRound] refusedRound []
              (TransportFailure "connection refused")) as (Hdo & _ & _).
  - reflexivity.
  - reflexivity.
  - unfold int64_max. cbn. lia.
  - reflexivity.
  - repeat constructor.
  - right. reflexivity.
  - apply Hdo. reflexivity.
Defined.


Lemma doRequest_retryable_error_means_exhausted_witness :
  Z.of_nat (List.length (requestsOf
              (fst (runList (testClient 1 1000) [rateLimitedRound; rateLimitedRound]))))
  = 1 + 1.
Proof.
  apply (@doRequest_retryable_error_means_exhausted unit unit marshalUnit
           (emptyObjectDecoder unit) (emptyObjectDecoder APIErrorFields) acceptAnyRequest
           (testClient 1 1000) walletListConfig [rateLimitedRound; rateLimitedRound]
           _ (EAPI (sampleAPIError 429 "slow down")) (Some tt)).
  - unfold int64_max. cbn. lia.
  - reflexivity.
  - right. eexists. split; [reflexivity |]. right. reflexivity.
Defined.

Lemma doRequest_uses_at_most_budget_rounds_witness :
  exists evs err res,
    runList (testClient 1 1000) [failingRound; okRound] = (evs, Done err res) /\
    forall extra : list Round,
      runList (testClient 1 1000) ([failingRound; okRound] ++ extra) = (evs, Done err res).
Proof.
  apply (@doRequest_uses_at_most_budget_rounds unit unit marshalUnit
           (emptyObjectDecoder unit) (emptyObjectDecoder APIErrorFields) acceptAnyRequest
           (testClient 1 1000) walletListConfig [failingRound; okRound]).
  - unfold int64_max. cbn. lia.
  - cbn. lia.
Defined.

(** ** Construction *)

Lemma detectEnvironment_frame (c : Client) :
  httpClient (detectEnvironment c) = httpClient c /\
  timeout (detectEnvironment c) = timeout c /\
  maxRetries (detectEnvironment c) = maxRetries c /\
  retryWait (detectEnvironment c) = retryWait c /\
  userAgent (detectEnvironment c) = userAgent c /\
  debug (detectEnvironment c) = debug c.
Proof.
  unfold detectEnvironment.
  repeat match goal with |- context [if ?b then _ else _] => destruct b end;
    repeat split; reflexivity.
Qed.

(** What [detectEnvironment] can leave in the base URL of a client that had
    none. *)
Lemma detectEnvironment_baseURL (c : Client) :
  baseURL c = "" ->
  baseURL (detectEnvironment c) = "" \/
  baseURL (detectEnvironment c) = SandboxBaseURL \/
  baseURL (detectEnvironment c) = ProductionBaseURL.
Proof.
  intros Hurl. unfold detectEnvironment.
  repeat match goal with |- context [if ?b then _ else _] => destruct b end;
    cbn; auto.
Qed.

(** X9.  What every client that [New] returns satisfies, whatever the
    options were (the caller's own options included): its base URL is not
    empty, it holds at least one key, and it has an HTTP client. *)
Theorem New_client_invariant (opts : list Option) (c : Client) :
  New opts = inr c ->
  baseURL c <> "" /\
  (publishableKey c <> "" \/ secretKey c <> "") /\
  httpClient c <> None.
Proof.
  unfold New. destruct (applyOptions opts initialClient) as [e | c0]; [discriminate |].
  destruct (isEmpty (publishableKey c0) && isEmpty (secretKey c0)) eqn:Hkeys;
    [discriminate |].
  set (c1 := if isEmpty (baseURL c0) then detectEnvironment c0 else c0).
  destruct (isEmpty (baseURL c1)) eqn:Hurl; [discriminate |].
  assert (Hk1 : publishableKey c1 = publishableKey c0 /\ secretKey c1 = secretKey c0).
  { subst c1. destruct (isEmpty (baseURL c0)); [apply detectEnvironment_keys | auto]. }
  destruct Hk1 as [Hp Hs].
  apply isEmpty_false in Hurl.
  assert (Hkey : publishableKey c1 <> "" \/ secretKey c1 <> "").
  { rewrite Hp, Hs. apply andb_false_iff in Hkeys.
    destruct Hkeys as [Hk | Hk]; apply isEmpty_false in Hk; auto. }
  destruct (httpClient c1) eqn:Hh; intros Hc; inversion Hc; subst c; cbn.
  - rewrite Hh. repeat split; auto; discriminate.
  - repeat split; auto; discriminate.
Qed.

(** What [New] leaves as the options set it. *)
Lemma New_configuration_frame (opts : list Option) (c0 c : Client) :
  applyOptions opts initialClient = inr c0 ->
  New opts = inr c ->
  publishableKey c = publishableKey c0 /\
  secretKey c = secretKey c0 /\
  maxRetries c = maxRetries c0 /\
  retryWait c = retryWait c0 /\
  timeout c = timeout c0 /\
  userAgent c = userAgent c0 /\
  debug c = debug c0 /\
  (baseURL c0 <> "" -> baseURL c = baseURL c0) /\
  (forall h, httpClient c0 = Some h -> httpClient c = Some h) /\
  (httpClient c0 = None -> httpClient c = Some (OwnHTTPClient (timeout c0))).
Proof.
  intros Hopts. rewrite (New_after_options _ _ Hopts).
  destruct (isEmpty (publishableKey c0) && isEmpty (secretKey c0)); [discriminate |].
  cbn zeta.
  set (c1 := if isEmpty (baseURL c0) then detectEnvironment c0 else c0).
  assert (Hframe : publishableKey c1 = publishableKey c0 /\
                   secretKey c1 = secretKey c0 /\
                   httpClient c1 = httpClient c0 /\
                   timeout c1 = timeout c0 /\
                   maxRetries c1 = maxRetries c0 /\
                   retryWait c1 = retryWait c0 /\
                   userAgent c1 = userAgent c0 /\
                   debug c1 = debug c0 /\
                   (baseURL c0 <> "" -> baseURL c1 = baseURL c0)).
  { subst c1. destruct (isEmpty (baseURL c0)) eqn:He.
    - destruct (detectEnvironment_keys c0) as [Hp Hs].
      destruct (detectEnvironment_frame c0) as (Hh & Ht & Hm & Hw & Hu & Hd).
      apply isEmpty_true in He. repeat split; auto. intros Hne. contradiction.
    - repeat split; auto. }
  destruct Hframe as (Hp & Hs & Hh & Ht & Hm & Hw & Hu & Hd & Hb).
  destruct (isEmpty (baseURL c1)); [discriminate |].
  destruct (httpClient c1) as [h1 |] eqn:Hh1; intros Hc; inversion Hc; subst c; cbn;
    rewrite ?Hh1.
  - repeat split; auto; rewrite <- Hh; [intros h Hc0; congruence | discriminate].
  - repeat split; auto; rewrite <- Hh.
    + intros h Hc0. discriminate.
    + intros _. rewrite Ht. reflexivity.
Qed.

(** X10.  [New] changes nothing of what the options set, apart from filling
    in what is missing: keys, retry policy, timeout, user agent and debug
    flag come out as the options left them; a non-empty base URL is kept; an
    HTTP client handed in by the caller is kept as it is (so a timeout option
    does not reach it), and when none was handed in the client made has the
    configured timeout. *)
Theorem New_keeps_configuration (opts : list Option) (c0 c : Client) :
  applyOptions opts initialClient = inr c0 ->
  New opts = inr c ->
  publishableKey c = publishableKey c0 /\
  secretKey c = secretKey c0 /\
  maxRetries c = maxRetries c0 /\
  retryWait c = retryWait c0 /\
  timeout c = timeout c0 /\
  userAgent c = userAgent c0 /\
  debug c = debug c0 /\
  (baseURL c0 <> "" -> baseURL c = baseURL c0) /\
  (forall h, httpClient c0 = Some h -> httpClient c = Some h) /\
  (httpClient c0 = None -> httpClient c = Some (OwnHTTPClient (timeout c0))).
Proof. apply New_configuration_frame. Qed.

Lemma applyOptions_app (opts more : list Option) (c : Client) :
  applyOptions (opts ++ more) c =
    match applyOptions opts c with
    | inl e => inl e
    | inr c' => applyOptions more c'
    end.
Proof.
  revert c. induction opts as [| opt opts IH]; intros c; cbn; [reflexivity |].
  destruct (opt c) as [e | c']; [reflexivity | apply IH].
Qed.

(** Options that set keys or the endpoint never fail and leave the rest of
    the client alone. *)
Lemma applyOptions_keys_endpoint (opts : list Option) :
  Forall setsKeyOrEndpoint opts ->
  forall c : Client,
  exists c', applyOptions opts c = inr c' /\
             httpClient c' = httpClient c /\ timeout c' = timeout c /\
             maxRetries c' = maxRetries c /\ retryWait c' = retryWait c /\
             userAgent c' = userAgent c /\ debug c' = debug c.
Proof.
  induction 1 as [| opt opts Hopt Hrest IH]; intros c.
  - exists c. repeat split.
  - assert (Hstep : exists c1, opt c = inr c1 /\
                      httpClient c1 = httpClient c /\ timeout c1 = timeout c /\
                      maxRetries c1 = maxRetries c /\ retryWait c1 = retryWait c /\
                      userAgent c1 = userAgent c /\ debug c1 = debug c).
    { destruct Hopt as [[k ->] | [[k ->] | [[u ->] | [-> | ->]]]];
        eexists; (split; [reflexivity |]); repeat split. }
    destruct Hstep as (c1 & Hc1 & Hh & Ht & Hm & Hw & Hu & Hd).
    destruct (IH c1) as (c' & Hc' & Hh' & Ht' & Hm' & Hw' & Hu' & Hd').
    exists c'. cbn. rewrite Hc1. split; [exact Hc' |].
    repeat split; congruence.
Qed.

(** X11.  The defaults.  A client built from options that only set keys or
    the endpoint has a budget of three retries, a base wait of one second, a
    timeout of thirty seconds carried by the HTTP client that [New] makes,
    the user agent [intasend-go/1.0.0], and debugging off. *)
Theorem New_defaults (opts : list Option) (c : Client) :
  Forall setsKeyOrEndpoint opts ->
  New opts = inr c ->
  maxRetries c = 3 /\
  retryWait c = 1000000000 /\
  timeout c = 30000000000 /\
  httpClient c = Some (OwnHTTPClient 30000000000) /\
  userAgent c = "intasend-go/1.0.0" /\
  debug c = false.
Proof.
  intros Hall HN.
  destruct (applyOptions_keys_endpoint opts Hall initialClient)
    as (c0 & Hc0 & Hh & Ht & Hm & Hw & Hu & Hd).
  destruct (New_configuration_frame opts c0 c Hc0 HN)
    as (_ & _ & Hm' & Hw' & Ht' & Hu' & Hd' & _ & _ & Hown).
  rewrite Hm', Hw', Ht', Hu', Hd', Hm, Hw, Ht, Hu, Hd, (Hown Hh), Ht.
  repeat split.
Qed.

(** X12.  No client is both sandbox and production; a client whose endpoint
    was detected from its keys is one of the two, and a client built on
    another endpoint is neither. *)
Theorem New_sandbox_or_production (opts : list Option) (c0 c : Client) :
  applyOptions opts initialClient = inr c0 ->
  New opts = inr c ->
  IsSandbox c && IsProduction c = false /\
  (baseURL c0 = "" -> IsSandbox c || IsProduction c = true) /\
  (baseURL c0 <> "" -> baseURL c0 <> SandboxBaseURL -> baseURL c0 <> ProductionBaseURL ->
   IsSandbox c = false /\ IsProduction c = false).
Proof.
  intros Hopts HN. split; [| split].
  - unfold IsSandbox, IsProduction.
    destruct (String.eqb (baseURL c) SandboxBaseURL) eqn:Hs; [| reflexivity].
    apply String.eqb_eq in Hs. rewrite Hs. reflexivity.
  - intros Hurl.
    rewrite (New_after_options _ _ Hopts) in HN.
    destruct (isEmpty (publishableKey c0) && isEmpty (secretKey c0)); [discriminate |].
    cbn zeta in HN.
    assert (He : isEmpty (baseURL c0) = true) by (apply isEmpty_true; exact Hurl).
    rewrite He in HN.
    destruct (isEmpty (baseURL (detectEnvironment c0))) eqn:Hd; [discriminate |].
    apply isEmpty_false in Hd.
    assert (Hb : baseURL c = baseURL (detectEnvironment c0)).
    { destruct (httpClient (detectEnvironment c0)); inversion HN; reflexivity. }
    unfold IsSandbox, IsProduction. rewrite Hb.
    destruct (detectEnvironment_baseURL c0 Hurl) as [H0 | [H0 | H0]];
      [contradiction | rewrite H0; reflexivity | rewrite H0; reflexivity].
  - intros Hne Hns Hnp.
    destruct (New_configuration_frame opts c0 c Hopts HN)
      as (_ & _ & _ & _ & _ & _ & _ & Hb & _).
    unfold IsSandbox, IsProduction. rewrite (Hb Hne).
    split; apply String.eqb_neq; assumption.
Qed.

(** X13.  Options apply in order and the last one to set a field wins.  An
    endpoint option placed last decides the environment whatever came before
    it and whatever the prefixes of the keys say: [WithSandbox] gives a
    sandbox client, [WithProduction] a production client, [WithBaseURL] with
    a non-empty URL that URL.  A key option placed last decides the key. *)
Theorem New_last_option_wins (opts : list Option) (c0 : Client) :
  applyOptions opts initialClient = inr c0 ->
  (publishableKey c0 <> "" \/ secretKey c0 <> "" ->
   (exists c, New (opts ++ [WithSandbox]) = inr c /\
              baseURL c = SandboxBaseURL /\ IsSandbox c = true) /\
   (exists c, New (opts ++ [WithProduction]) = inr c /\
              baseURL c = ProductionBaseURL /\ IsProduction c = true) /\
   (forall url, url <> "" ->
      exists c, New (opts ++ [WithBaseURL url]) = inr c /\ baseURL c = url)) /\
  (forall key c, New (opts ++ [WithPublishableKey key]) = inr c ->
                 publishableKey c = key /\ secretKey c = secretKey c0) /\
  (forall key c, New (opts ++ [WithSecretKey key]) = inr c ->
                 secretKey c = key /\ publishableKey c = publishableKey c0).
Proof.
  intros Hopts.
  assert (Hlast : forall opt c1, opt c0 = inr c1 ->
                    applyOptions (opts ++ [opt]) initialClient = inr c1).
  { intros opt c1 Hopt. rewrite applyOptions_app, Hopts. cbn. rewrite Hopt. reflexivity. }
  assert (Hurl : forall url, url <> "" ->
            publishableKey c0 <> "" \/ secretKey c0 <> "" ->
            exists c, New (opts ++ [WithBaseURL url]) = inr c /\ baseURL c = url).
  { intros url Hne Hkeys.
    pose proof (New_after_options _ _ (Hlast (WithBaseURL url) _ eq_refl)) as HN.
    cbn [setBaseURL publishableKey secretKey baseURL httpClient timeout] in HN.
    assert (Hk : isEmpty (publishableKey c0) && isEmpty (secretKey c0) = false).
    { destruct Hkeys as [Hk | Hk];
        [apply keys_present_l | apply keys_present_r]; apply isEmpty_false; exact Hk. }
    apply isEmpty_false in Hne. rewrite Hk, Hne in HN. cbn zeta in HN.
    change (isEmpty (baseURL (setBaseURL c0 url))) with (isEmpty url) in HN.
    rewrite Hne in HN.
    eexists. split; [exact HN |].
    change (httpClient (setBaseURL c0 url)) with (httpClient c0).
    destruct (httpClient c0); reflexivity. }
  split; [| split].
  - intros Hkeys. split; [| split].
    + destruct (Hurl SandboxBaseURL ltac:(discriminate) Hkeys) as (c & HN & Hb).
      exists c. split; [exact HN |]. split; [exact Hb |].
      unfold IsSandbox. rewrite Hb. reflexivity.
    + destruct (Hurl ProductionBaseURL ltac:(discriminate) Hkeys) as (c & HN & Hb).
      exists c. split; [exact HN |]. split; [exact Hb |].
      unfold IsProduction. rewrite Hb. reflexivity.
    + intros url Hne. apply Hurl; assumption.
  - intros key c HN.
    destruct (New_configuration_frame _ _ c (Hlast (WithPublishableKey key) _ eq_refl) HN)
      as (Hp & Hs & _).
    split; [exact Hp | exact Hs].
  - intros key c HN.
    destruct (New_configuration_frame _ _ c (Hlast (WithSecretKey key) _ eq_refl) HN)
      as (Hp & Hs & _).
    split; [exact Hs | exact Hp].
Qed.

(** *** Construction on concrete options *)

Lemma New_client_invariant_witness :
  exists c,
    New [WithSecretKey "ISSecretKey_live_k9"] = inr c /\
    baseURL c <> "" /\
    (publishableKey c <> "" \/ secretKey c <> "") /\
    httpClient c <> None.
Proof.
  eexists. split; [reflexivity |].
  apply (New_client_invariant [WithSecretKey "ISSecretKey_live_k9"]). reflexivity.
Defined.

Lemma New_keeps_configuration_witness :
  exists c,
    New [WithSecretKey "ISSecretKey_live_k9"; WithRetry 5 2000;
         WithHTTPClient (Some (CallerHTTPClient 7)); WithTimeout 99] = inr c /\
    maxRetries c = 5 /\ retryWait c = 2000 /\
    httpClient c = Some (CallerHTTPClient 7).
Proof.
  eexists. split; [reflexivity |].
  destruct (New_keeps_configuration
              [WithSecretKey "ISSecretKey_live_k9"; WithRetry 5 2000;
               WithHTTPClient (Some (CallerHTTPClient 7)); WithTimeout 99]
              _ _ eq_refl eq_refl)
    as (_ & _ & Hm & Hw & _ & _ & _ & _ & Hh & _).
  split; [exact Hm |]. split; [exact Hw |]. apply Hh. reflexivity.
Defined.

Lemma New_defaults_witness :
  exists c,
    New [WithPublishableKey "ISPubKey_test_abc123"; WithSandbox] = inr c /\
    maxRetries c = 3 /\ retryWait c = 1000000000 /\ timeout c = 30000000000 /\
    httpClient c = Some (OwnHTTPClient 30000000000) /\
    userAgent c = "intasend-go/1.0.0" /\ debug c = false.
Proof.
  eexists. split; [reflexivity |].
  apply (New_defaults [WithPublishableKey "ISPubKey_test_abc123"; WithSandbox]).
  - constructor; [| constructor; [| constructor]].
    + left. exists "ISPubKey_test_abc123". reflexivity.
    + right. right. right. left. reflexivity.
  - reflexivity.
Defined.

Lemma New_sandbox_or_production_witness :
  exists c,
    New [WithPublishableKey "ISPubKey_live_abc123"] = inr c /\
    IsSandbox c && IsProduction c = false /\
    IsSandbox c || IsProduction c = true.
Proof.
  eexists. split; [reflexivity |].
  destruct (New_sandbox_or_production [WithPublishableKey "ISPubKey_live_abc123"]
              _ _ eq_refl eq_refl) as (Hex & Hone & _).
  split; [exact Hex | apply Hone; reflexivity].
Defined.

(** Live keys, then [WithSandbox]: a sandbox client. *)
Lemma New_last_option_wins_witness :
  exists c,
    New ([WithPublishableKey "ISPubKey_live_abc123"; WithSecretKey "ISSecretKey_live_k9"]
           ++ [WithSandbox]) = inr c /\
    baseURL c = SandboxBaseURL /\ IsSandbox c = true.
Proof.
  destruct (New_last_option_wins
              [WithPublishableKey "ISPubKey_live_abc123"; WithSecretKey "ISSecretKey_live_k9"]
              _ eq_refl) as (Hend & _ & _).
  apply Hend. left. discriminate.
Defined.

(** ** The other resource operations *)

(** *** Looking members up in an encoded struct *)

Lemma members_lookup_app (k : string) (xs ys : list (string * JSON)) :
  members_lookup k (xs ++ ys) =
    match members_lookup k xs with
    | Some v => Some v
    | None => members_lookup k ys
    end.
Proof.
  induction xs as [| [k' v] xs IH]; cbn; [reflexivity |].
  destruct (String.eqb k k'); [reflexivity | exact IH].
Qed.

Lemma lookup_skip_one (k n : string) (v : JSON) (rest : list (string * JSON)) :
  String.eqb k n = false ->
  members_lookup k ([(n, v)] ++ rest) = members_lookup k rest.
Proof. intros Hne. cbn. rewrite Hne. reflexivity. Qed.

Lemma lookup_skip_string (k n v : string) (rest : list (string * JSON)) :
  String.eqb k n = false ->
  members_lookup k (fieldString n v ++ rest) = members_lookup k rest.
Proof. apply lookup_skip_one. Qed.

Lemma lookup_skip_bool (k n : string) (v : bool) (rest : list (string * JSON)) :
  String.eqb k n = false ->
  members_lookup k (fieldBool n v ++ rest) = members_lookup k rest.
Proof. apply lookup_skip_one. Qed.

Lemma lookup_skip_omit (k n v : string) (rest : list (string * JSON)) :
  String.eqb k n = false ->
  members_lookup k (fieldStringOmitEmpty n v ++ rest) = members_lookup k rest.
Proof.
  intros Hne. unfold fieldStringOmitEmpty.
  destruct (isEmpty v); [reflexivity | apply lookup_skip_one; exact Hne].
Qed.

Lemma lookup_hit_one (k : string) (v : JSON) (rest : list (string * JSON)) :
  members_lookup k ([(k, v)] ++ rest) = Some v.
Proof. cbn. rewrite String.eqb_refl. reflexivity. Qed.

Lemma lookup_hit_string (k v : string) (rest : list (string * JSON)) :
  members_lookup k (fieldString k v ++ rest) = Some (JString v).
Proof. apply lookup_hit_one. Qed.

Lemma lookup_hit_bool (k : string) (v : bool) (rest : list (string * JSON)) :
  members_lookup k (fieldBool k v ++ rest) = Some (JBool v).
Proof. apply lookup_hit_one. Qed.

Lemma lookup_hit_omit (k v : string) (rest : list (string * JSON)) :
  members_lookup k (fieldStringOmitEmpty k v ++ rest) =
    if isEmpty v then members_lookup k rest else Some (JString v).
Proof.
  unfold fieldStringOmitEmpty.
  destruct (isEmpty v); [reflexivity | apply lookup_hit_one].
Qed.

(** Reading an [omitempty] string member back gives the field, empty or not. *)
Lemma omitted_reads_back (v : string) :
  match (if isEmpty v then None else Some (JString v)) with
  | Some (JString s) => s
  | _ => ""
  end = v.
Proof.
  destruct (isEmpty v) eqn:He; [| reflexivity].
  apply isEmpty_true in He. auto.
Qed.

Lemma lookup_skip_cons (k n : string) (v : JSON) (rest : list (string * JSON)) :
  String.eqb k n = false ->
  members_lookup k ((n, v) :: rest) = members_lookup k rest.
Proof. intros Hne. cbn. rewrite Hne. reflexivity. Qed.

Lemma lookup_hit_cons (k : string) (v : JSON) (rest : list (string * JSON)) :
  members_lookup k ((k, v) :: rest) = Some v.
Proof. cbn. rewrite String.eqb_refl. reflexivity. Qed.

(** Walk a member list to the member asked for. *)
Ltac skip_members :=
  repeat first
    [ rewrite lookup_skip_omit by reflexivity
    | rewrite lookup_skip_string by reflexivity
    | rewrite lookup_skip_bool by reflexivity
    | rewrite lookup_skip_one by reflexivity
    | rewrite lookup_skip_cons by reflexivity ].

Ltac find_member :=
  unfold jsonStringField, jsonField;
  skip_members;
  try first
    [ rewrite lookup_hit_string
    | rewrite lookup_hit_bool
    | rewrite lookup_hit_one
    | rewrite lookup_hit_cons
    | rewrite lookup_hit_omit; skip_members ];
  cbn [members_lookup].

(** Open the encoder of a struct with one [float64] field: either the field
    is refused or the document is the list of its members. *)
Ltac open_marshal inst f Hf :=
  unfold marshal, inst, marshalStruct;
  destruct f as [?ms |] eqn:Hf; cbn [fold_right];
  [ first [apply fieldFloat_some in Hf | idtac]; try subst | ].

Lemma fieldFloat_refused (name : string) (value : float) :
  is_nan value || is_infinity value = true -> fieldFloat name value = None.
Proof. unfold fieldFloat. intros ->. reflexivity. Qed.

(** *** What the encoders write *)



(** [fundCheckoutBody]: what it carries of the customer, and what it has no
    member for. *)
Lemma marshalFundCheckoutBody_members (b : fundCheckoutBody) (j : JSON) :
  marshal b = inr j ->
  jsonStringField j "public_key" = fkPublicKey b /\
  jsonStringField j "wallet_id" = fkWalletID b /\
  jsonField j "amount" = Some (JNumber (fkAmount b)) /\
  jsonStringField j "currency" = fkCurrency b /\
  jsonStringField j "email" = fkEmail b /\
  jsonStringField j "first_name" = fkFirstName b /\
  jsonStringField j "last_name" = fkLastName b /\
  jsonStringField j "phone_number" = fkPhoneNumber b /\
  jsonStringField j "country" = fkCountry b /\
  jsonStringField j "host" = fkHost b /\
  jsonField j "city" = None /\
  jsonField j "address" = None /\
  jsonField j "state" = None /\
  jsonField j "zipcode" = None.
Proof.
  unfold marshal, marshalFundCheckoutBody, marshalStruct.
  destruct (fieldFloat "amount" (fkAmount b)) as [ms |] eqn:Hf; cbn [fold_right];
    [| discriminate].
  apply fieldFloat_some in Hf. subst ms.
  intros Hj. inversion Hj; subst j. clear Hj.
  repeat split; find_member; try apply omitted_reads_back; reflexivity.
Qed.

(** [createCheckoutBody]: the whole customer reads back. *)
Lemma marshalCreateCheckoutBody_members (b : createCheckoutBody) (j : JSON) :
  marshal b = inr j ->
  jsonStringField j "public_key" = ckPublicKey b /\
  jsonStringField j "email" = ckEmail b /\
  jsonStringField j "first_name" = ckFirstName b /\
  jsonStringField j "last_name" = ckLastName b /\
  jsonStringField j "phone_number" = ckPhoneNumber b /\
  jsonStringField j "country" = ckCountry b /\
  jsonStringField j "address" = ckAddress b /\
  jsonStringField j "city" = ckCity b /\
  jsonStringField j "state" = ckState b /\
  jsonStringField j "zipcode" = ckZipcode b.
Proof.
  unfold marshal, marshalCreateCheckoutBody, marshalStruct.
  destruct (fieldFloat "amount" (ckAmount b)) as [ms |] eqn:Hf; cbn [fold_right];
    [| discriminate].
  apply fieldFloat_some in Hf. subst ms.
  intros Hj. inversion Hj; subst j. clear Hj.
  repeat split; find_member; try apply omitted_reads_back; reflexivity.
Qed.

(** [intraTransferBody]: three members and no other. *)
Lemma marshalIntraTransferBody_members (b : intraTransferBody) (j : JSON) :
  marshal b = inr j ->
  j = JObject [("wallet_id", JString (ibWalletID b));
               ("amount", JNumber (ibAmount b));
               ("narrative", JString (ibNarrative b))].
Proof.
  unfold marshal, marshalIntraTransferBody, marshalStruct.
  destruct (fieldFloat "amount" (ibAmount b)) as [ms |] eqn:Hf; cbn [fold_right];
    [| discriminate].
  apply fieldFloat_some in Hf. subst ms.
  intros Hj. inversion Hj. reflexivity.
Qed.

(** [statusRequest] never fails to encode. *)
Lemma marshalStatusRequest_members (r : statusRequest) :
  exists j,
    marshal r = inr j /\
    jsonField j "invoice_id" = Some (JString (srInvoiceID r)) /\
    jsonField j "public_key" =
      (if isEmpty (srPublicKey r) then None else Some (JString (srPublicKey r))) /\
    jsonField j "checkout_id" =
      (if isEmpty (srCheckoutID r) then None else Some (JString (srCheckoutID r))) /\
    jsonField j "signature" =
      (if isEmpty (srSignature r) then None else Some (JString (srSignature r))).
Proof.
  unfold marshal, marshalStatusRequest, marshalStruct. cbn [fold_right].
  eexists. split; [reflexivity |].
  repeat split; find_member; reflexivity.
Qed.

(** [InitiateRequest] never fails to encode; its members. *)
Lemma marshalInitiateRequest_members (r : InitiateRequest) :
  exists j,
    marshal r = inr j /\
    jsonField j "provider" = Some (JString (irProvider r)) /\
    jsonField j "currency" = Some (JString (irCurrency r)) /\
    jsonField j "transactions" = Some (transactionsJSON (irTransactions r)) /\
    jsonField j "callback_url" =
      (if isEmpty (irCallbackURL r) then None else Some (JString (irCallbackURL r))) /\
    jsonField j "wallet_id" =
      (if isEmpty (irWalletID r) then None else Some (JString (irWalletID r))) /\
    jsonField j "requires_approval" =
      (if isEmpty (irRequiresApproval r) then None
       else Some (JString (irRequiresApproval r))).
Proof.
  unfold marshal, marshalInitiateRequest, marshalStruct. cbn [fold_right].
  eexists. split; [reflexivity |].
  repeat split; find_member; reflexivity.
Qed.

(** A [Transaction] on the wire. *)
Lemma transactionJSON_members (t : Transaction) :
  jsonStringField (transactionJSON t) "name" = txName t /\
  jsonField (transactionJSON t) "account" = Some (JString (txAccount t)) /\
  jsonField (transactionJSON t) "amount" = Some (JString (txAmount t)) /\
  jsonStringField (transactionJSON t) "narrative" = txNarrative t /\
  jsonStringField (transactionJSON t) "account_type" = txAccountType t /\
  jsonStringField (transactionJSON t) "account_reference" = txAccountReference t /\
  jsonField (transactionJSON t) "bank_code" =
    (if isEmpty (txBankCode t) then None else Some (JString (txBankCode t))) /\
  jsonField (transactionJSON t) "account_type" =
    (if isEmpty (txAccountType t) then None else Some (JString (txAccountType t))) /\
  jsonField (transactionJSON t) "account_reference" =
    (if isEmpty (txAccountReference t) then None
     else Some (JString (txAccountReference t))).
Proof.
  unfold transactionJSON.
  replace (fieldStringOmitEmpty "bank_code" (txBankCode t))
    with (fieldStringOmitEmpty "bank_code" (txBankCode t) ++ [])%list
    by apply app_nil_r.
  repeat split; find_member; try apply omitted_reads_back; reflexivity.
Qed.

(** [CreatePaymentLinkRequest]: the activity flag is always a member; the
    amount is one unless it is zero. *)
Lemma marshalCreatePaymentLinkRequest_members (r : CreatePaymentLinkRequest) (j : JSON) :
  marshal r = inr j ->
  jsonField j "is_active" = Some (JBool (plIsActive r)) /\
  jsonField j "title" = Some (JString (plTitle r)) /\
  jsonField j "currency" = Some (JString (plCurrency r)) /\
  jsonField j "amount" =
    (if (plAmount r =? 0)%float then None else Some (JNumber (plAmount r))).
Proof.
  unfold marshal, marshalCreatePaymentLinkRequest, marshalStruct, fieldFloatOmitEmpty.
  destruct (plAmount r =? 0)%float.
  - cbn [fold_right]. intros Hj. inversion Hj; subst j. clear Hj.
    repeat split; find_member; reflexivity.
  - destruct (fieldFloat "amount" (plAmount r)) as [ms |] eqn:Hf; cbn [fold_right];
      [| discriminate].
    apply fieldFloat_some in Hf. subst ms.
    intros Hj. inversion Hj; subst j. clear Hj.
    repeat split; find_member; reflexivity.
Qed.

(** *** The three ways into the transport core *)

Section MoreOperationsProperties.

Context {Resp : Type} `{Unmarshal Resp} `{Unmarshal APIErrorFields}.
Variable zeroResp : Resp.
Variable newRequestError : string -> string -> option string.

Lemma postInto_requests {P : Type} `{Marshal P}
  (c : Client) (pth : string) (payload : P) (script : list Round) :
  Forall (fun r =>
            reqMethod r = MethodPost /\
            reqURL r = String.append (baseURL c) pth /\
            (exists j, marshal payload = inr j /\ reqBody r = Some j) /\
            Header_Get (reqHeader r) headerAuthorization =
              (if negb (isEmpty (secretKey c))
               then Some (String.append "Bearer " (secretKey c))
               else None))
         (requestsOf (fst (postInto zeroResp newRequestError c pth payload script))).
Proof.
  unfold postInto.
  pose proof (post_requests newRequestError c pth payload (Some zeroResp) script) as Hall.
  destruct (post newRequestError c pth (Some payload) (Some zeroResp) script) as [evs fin].
  exact Hall.
Qed.

Lemma postPublicInto_requests {P : Type} `{Marshal P}
  (c : Client) (pth : string) (payload : P) (script : list Round) :
  Forall (fun r =>
            reqMethod r = MethodPost /\
            reqURL r = String.append (baseURL c) pth /\
            (exists j, marshal payload = inr j /\ reqBody r = Some j) /\
            Header_Get (reqHeader r) headerAuthorization = None)
         (requestsOf (fst (postPublicInto zeroResp newRequestError c pth payload script))).
Proof.
  unfold postPublicInto, postPublic.
  pose proof (doRequest_requests_encoded newRequestError c
                (mkRequestConfig MethodPost pth (Some payload) (Some zeroResp) false true)
                script) as Hall.
  destruct (doRequest newRequestError c _ script) as [evs fin].
  cbn [fst] in Hall |- *.
  eapply Forall_impl; [exact Hall |].
  intros r Hr. cbn beta in Hr. destruct Hr as (bb & Henc & Hr). subst r.
  unfold encodedBody in Henc. cbn in Henc.
  destruct (marshal payload) as [e | j] eqn:Hm; [discriminate |].
  inversion Henc; subst.
  unfold buildRequest. cbn [reqMethod reqURL reqBody reqHeader method path].
  repeat split; eauto.
  rewrite requestHeader_Authorization. reflexivity.
Qed.

Lemma getInto_requests (c : Client) (pth : string) (script : list Round) :
  Forall (fun r =>
            reqMethod r = MethodGet /\
            reqURL r = String.append (baseURL c) pth /\
            reqBody r = None /\
            Header_Get (reqHeader r) headerAuthorization =
              (if negb (isEmpty (secretKey c))
               then Some (String.append "Bearer " (secretKey c))
               else None))
         (requestsOf (fst (getInto zeroResp newRequestError c pth script))).
Proof.
  unfold getInto, get.
  pose proof (doRequest_requests_encoded newRequestError c
                (@mkRequestConfig Empty_set Resp MethodGet pth None (Some zeroResp)
                   true false) script) as Hall.
  destruct (doRequest newRequestError c _ script) as [evs fin].
  cbn [fst] in Hall |- *.
  eapply Forall_impl; [exact Hall |].
  intros r Hr. cbn beta in Hr. destruct Hr as (bb & Henc & Hr). subst r.
  unfold encodedBody in Henc. cbn in Henc. inversion Henc; subst.
  unfold buildRequest. cbn [reqMethod reqURL reqBody reqHeader method path].
  repeat split; eauto.
  rewrite requestHeader_Authorization. reflexivity.
Qed.

(** A payload the encoder refuses never leaves the process. *)
Lemma postInto_refused {P : Type} `{Marshal P}
  (c : Client) (pth : string) (payload : P) (script : list Round) (e : jsonError) :
  marshal payload = inl e ->
  postInto zeroResp newRequestError c pth payload script =
    ([], Returns None (Some (EMarshalBody e))).
Proof.
  intros Hm. unfold postInto, post, doRequest. cbn. rewrite Hm. reflexivity.
Qed.

Lemma postPublicInto_refused {P : Type} `{Marshal P}
  (c : Client) (pth : string) (payload : P) (script : list Round) (e : jsonError) :
  marshal payload = inl e ->
  postPublicInto zeroResp newRequestError c pth payload script =
    ([], Returns None (Some (EMarshalBody e))).
Proof.
  intros Hm. unfold postPublicInto, postPublic, doRequest. cbn. rewrite Hm. reflexivity.
Qed.

(** The value behind the result pointer is never lost: a call that was given
    one ends with one. *)
Lemma retryLoop_keeps_result {B : Type} (c : Client) (cfg : requestConfig B Resp)
  (bodyBytes : option JSON) (script : list Round) :
  result cfg <> None ->
  forall (attempt : Z) (lastErr : option error) (evs : list event)
         (err : option error) (res : option Resp),
    retryLoop newRequestError c cfg bodyBytes script attempt lastErr
      = (evs, Done err res) ->
    res <> None.
Proof.
  intros Hres. induction script as [| rd rest IH];
    intros attempt lastErr evs err res Hrun.
  - cbn in Hrun. destruct (attempt <=? maxRetries c); inversion Hrun; subst. exact Hres.
  - cbn [retryLoop] in Hrun.
    destruct (attempt <=? maxRetries c); [| inversion Hrun; subst; exact Hres].
    destruct (attemptOnce newRequestError c cfg bodyBytes attempt rd)
      as [evs0 [lastErr' | err0 res0]] eqn:Hpass.
    + destruct (retryLoop newRequestError c cfg bodyBytes rest
                  (wrap64 (attempt + 1)) lastErr') as [evs' fin] eqn:Hrest.
      inversion Hrun; subst. eapply IH. exact Hrest.
    + inversion Hrun; subst. clear Hrun.
      unfold attemptOnce, decodeResult in Hpass.
      destruct (if 0 <? attempt then selected rd else TimerFired);
        [inversion Hpass; subst; exact Hres |].
      destruct (newRequestError _ _); [inversion Hpass; subst; exact Hres |].
      destruct (exchange rd) as [te | st te | st b]; [inversion Hpass .. |].
      destruct (isErrorStatus st).
      * destruct (isTerminalStatus st); inversion Hpass; subst. exact Hres.
      * destruct (result cfg) as [r |]; [| contradiction].
        destruct (0 <? Z.of_nat (String.length b));
          [destruct (unmarshal b r) as [r' [je |]] |];
          inversion Hpass; subst; discriminate.
Qed.

Lemma finish_value_or_error {B : Type} `{Marshal B} (c : Client)
  (cfg : requestConfig B Resp) (script : list Round)
  (value : option Resp) (err : option error) :
  result cfg <> None ->
  finish (snd (doRequest newRequestError c cfg script)) = Returns value err ->
  (value = None /\ err <> None) \/ (value <> None /\ err = None).
Proof.
  intros Hres. destruct (doRequest newRequestError c cfg script) as [evs fin] eqn:Hrun.
  cbn [snd]. destruct fin as [e res |]; [| discriminate].
  assert (Hkeep : res <> None).
  { unfold doRequest in Hrun.
    destruct (body cfg) as [b |]; [destruct (marshal b) as [me | j] |].
    - inversion Hrun; subst. exact Hres.
    - eapply retryLoop_keeps_result; [exact Hres | exact Hrun].
    - eapply retryLoop_keeps_result; [exact Hres | exact Hrun]. }
  destruct e as [e |]; cbn; intros Hf; inversion Hf; subst.
  - left. split; [reflexivity | discriminate].
  - right. split; [exact Hkeep | reflexivity].
Qed.


(** The same three facts, one request at a time. *)
Lemma postInto_request {P : Type} `{Marshal P}
  (c : Client) (pth : string) (payload : P) (script : list Round) (r : Request) :
  In r (requestsOf (fst (postInto zeroResp newRequestError c pth payload script))) ->
  reqMethod r = MethodPost /\
  reqURL r = String.append (baseURL c) pth /\
  (exists j, marshal payload = inr j /\ reqBody r = Some j) /\
  Header_Get (reqHeader r) headerAuthorization =
    (if negb (isEmpty (secretKey c))
     then Some (String.append "Bearer " (secretKey c))
     else None).
Proof.
  intros Hin.
  exact (proj1 (List.Forall_forall _ _) (postInto_requests c pth payload script) r Hin).
Qed.

Lemma postPublicInto_request {P : Type} `{Marshal P}
  (c : Client) (pth : string) (payload : P) (script : list Round) (r : Request) :
  In r (requestsOf (fst (postPublicInto zeroResp newRequestError c pth payload script))) ->
  reqMethod r = MethodPost /\
  reqURL r = String.append (baseURL c) pth /\
  (exists j, marshal payload = inr j /\ reqBody r = Some j) /\
  Header_Get (reqHeader r) headerAuthorization = None.
Proof.
  intros Hin.
  exact (proj1 (List.Forall_forall _ _) (postPublicInto_requests c pth payload script) r Hin).
Qed.

Lemma getInto_request (c : Client) (pth : string) (script : list Round) (r : Request) :
  In r (requestsOf (fst (getInto zeroResp newRequestError c pth script))) ->
  reqMethod r = MethodGet /\
  reqURL r = String.append (baseURL c) pth /\
  reqBody r = None /\
  Header_Get (reqHeader r) headerAuthorization =
    (if negb (isEmpty (secretKey c))
     then Some (String.append "Bearer " (secretKey c))
     else None).
Proof.
  intros Hin.
  exact (proj1 (List.Forall_forall _ _) (getInto_requests c pth script) r Hin).
Qed.

(** An operation that goes through one of the three never panics. *)
Lemma finish_not_panics {T : Type} (fin : completion T) : finish fin <> Panics.
Proof. destruct fin as [[e |] res |]; discriminate. Qed.

Lemma postInto_not_panics {P : Type} `{Marshal P}
  (c : Client) (pth : string) (payload : P) (script : list Round) :
  snd (postInto zeroResp newRequestError c pth payload script) <> Panics.
Proof.
  unfold postInto.
  destruct (post newRequestError c pth (Some payload) (Some zeroResp) script) as [evs fin].
  apply finish_not_panics.
Qed.

Lemma postPublicInto_not_panics {P : Type} `{Marshal P}
  (c : Client) (pth : string) (payload : P) (script : list Round) :
  snd (postPublicInto zeroResp newRequestError c pth payload script) <> Panics.
Proof.
  unfold postPublicInto.
  destruct (postPublic newRequestError c pth (Some payload) (Some zeroResp) script)
    as [evs fin].
  apply finish_not_panics.
Qed.

(** X14.  An operation that returns gives back exactly one of a response and
    an error, never both and never neither; shown for a [get], a [post] and a
    public [post]: [WalletService.Get], [PayoutService.Initiate] and
    [CollectionService.Status]. *)
Theorem operations_return_value_or_error (c : Client) (script : list Round)
  (value : option Resp) (err : option error) :
  (forall walletID,
     snd (WalletService_Get zeroResp newRequestError c walletID script)
       = Returns value err ->
     (value = None /\ err <> None) \/ (value <> None /\ err = None)) /\
  (forall req,
     snd (PayoutService_Initiate zeroResp newRequestError c req script)
       = Returns value err ->
     (value = None /\ err <> None) \/ (value <> None /\ err = None)) /\
  (forall invoiceID opts,
     snd (CollectionService_Status zeroResp newRequestError c invoiceID opts script)
       = Returns value err ->
     (value = None /\ err <> None) \/ (value <> None /\ err = None)).
Proof.
  split; [| split].
  - intros walletID. unfold WalletService_Get, getInto, get.
    pose proof (@finish_value_or_error Empty_set _ c
                  (mkRequestConfig MethodGet (sprintf1 "/wallets/" walletID "/") None
                     (Some zeroResp) true false) script value err) as Hshape.
    destruct (doRequest newRequestError c _ script) as [evs fin].
    cbn [snd] in Hshape |- *. apply Hshape. discriminate.
  - intros req. unfold PayoutService_Initiate, postInto, post.
    pose proof (finish_value_or_error c
                  (mkRequestConfig MethodPost "/send-money/initiate/" (Some req)
                     (Some zeroResp) true false) script value err) as Hshape.
    destruct (doRequest newRequestError c _ script) as [evs fin].
    cbn [snd] in Hshape |- *. apply Hshape. discriminate.
  - intros invoiceID opts. unfold CollectionService_Status, postPublicInto, postPublic.
    match goal with
    | |- context [doRequest newRequestError c ?cfg script] =>
        pose proof (finish_value_or_error c cfg script value err) as Hshape;
        destruct (doRequest newRequestError c cfg script) as [evs fin]
    end.
    cbn [snd] in Hshape |- *. apply Hshape. discriminate.
Qed.


(** *** Which operations authenticate *)

(** X17.  The five operations that go through [postPublic] never put the
    secret key on the wire: every request of [WalletService.FundCheckout],
    [CollectionService.Charge], [CollectionService.Status],
    [CheckoutService.Create] and [CheckoutService.CheckStatus] is a POST
    without an [Authorization] header, whatever keys the client holds; the
    first, second and fourth go to [/checkout/], the other two to
    [/payment/status/]. *)
Theorem public_operations_send_no_authorization (c : Client) (script : list Round)
  (r : Request) :
  (forall req,
     In r (requestsOf (fst (WalletService_FundCheckout zeroResp newRequestError c req script))) ->
     reqMethod r = MethodPost /\
     reqURL r = String.append (baseURL c) "/checkout/" /\
     Header_Get (reqHeader r) headerAuthorization = None) /\
  (forall req,
     In r (requestsOf (fst (CollectionService_Charge zeroResp newRequestError c req script))) ->
     reqMethod r = MethodPost /\
     reqURL r = String.append (baseURL c) "/checkout/" /\
     Header_Get (reqHeader r) headerAuthorization = None) /\
  (forall invoiceID opts,
     In r (requestsOf (fst (CollectionService_Status zeroResp newRequestError c
                              invoiceID opts script))) ->
     reqMethod r = MethodPost /\
     reqURL r = String.append (baseURL c) "/payment/status/" /\
     Header_Get (reqHeader r) headerAuthorization = None) /\
  (forall req,
     In r (requestsOf (fst (CheckoutService_Create zeroResp newRequestError c req script))) ->
     reqMethod r = MethodPost /\
     reqURL r = String.append (baseURL c) "/checkout/" /\
     Header_Get (reqHeader r) headerAuthorization = None) /\
  (forall req,
     In r (requestsOf (fst (CheckoutService_CheckStatus zeroResp newRequestError c
                              req script))) ->
     reqMethod r = MethodPost /\
     reqURL r = String.append (baseURL c) "/payment/status/" /\
     Header_Get (reqHeader r) headerAuthorization = None).
Proof.
  split; [| split; [| split; [| split]]].
  - intros [req |] Hin; [| destruct Hin].
    unfold WalletService_FundCheckout in Hin. cbv zeta in Hin.
    apply postPublicInto_request in Hin. destruct Hin as (Hm & Hu & _ & Ha). auto.
  - intros [req |] Hin; [| destruct Hin].
    unfold CollectionService_Charge in Hin. cbv zeta in Hin.
    apply postPublicInto_request in Hin. destruct Hin as (Hm & Hu & _ & Ha). auto.
  - intros invoiceID opts Hin.
    unfold CollectionService_Status in Hin. cbv zeta in Hin.
    apply postPublicInto_request in Hin. destruct Hin as (Hm & Hu & _ & Ha). auto.
  - intros [req |] Hin; [| destruct Hin].
    unfold CheckoutService_Create in Hin. cbv zeta in Hin.
    apply postPublicInto_request in Hin. destruct Hin as (Hm & Hu & _ & Ha). auto.
  - intros req Hin.
    unfold CheckoutService_CheckStatus in Hin.
    apply postPublicInto_request in Hin. destruct Hin as (Hm & Hu & _ & Ha). auto.
Qed.

(** X22.  The seven read operations ([List], [Get] and [Transactions] of
    wallets, [List] and [Get] of payment links and of chargebacks) send GET
    requests without a body, with the bearer header exactly when the client
    has a secret key; an identifier is put into the path as it was given,
    between the resource prefix and a closing slash. *)
Theorem read_operations_are_bearer_gets (c : Client) (script : list Round) (r : Request) :
  let isGetOf (pth : string) :=
    reqMethod r = MethodGet /\
    reqURL r = String.append (baseURL c) pth /\
    reqBody r = None /\
    Header_Get (reqHeader r) headerAuthorization =
      (if negb (isEmpty (secretKey c))
       then Some (String.append "Bearer " (secretKey c))
       else None) in
  (In r (requestsOf (fst (WalletService_List zeroResp newRequestError c script))) ->
   isGetOf "/wallets/") /\
  (forall walletID,
     In r (requestsOf (fst (WalletService_Get zeroResp newRequestError c walletID script))) ->
     isGetOf (String.append "/wallets/" (String.append walletID "/"))) /\
  (forall walletID,
     In r (requestsOf (fst (WalletService_Transactions zeroResp newRequestError c
                              walletID script))) ->
     isGetOf (String.append "/wallets/" (String.append walletID "/transactions/"))) /\
  (In r (requestsOf (fst (PaymentLinkService_List zeroResp newRequestError c script))) ->
   isGetOf "/paymentlinks/") /\
  (forall linkID,
     In r (requestsOf (fst (PaymentLinkService_Get zeroResp newRequestError c linkID script))) ->
     isGetOf (String.append "/paymentlinks/" (String.append linkID "/"))) /\
  (In r (requestsOf (fst (RefundService_List zeroResp newRequestError c script))) ->
   isGetOf "/chargebacks/") /\
  (forall chargebackID,
     In r (requestsOf (fst (RefundService_Get zeroResp newRequestError c
                              chargebackID script))) ->
     isGetOf (String.append "/chargebacks/" (String.append chargebackID "/"))).
Proof.
  cbv zeta.
  split; [| split; [| split; [| split; [| split; [| split]]]]];
    intros; eapply getInto_request; eassumption.
Qed.

(** *** What the wallet operations put on the wire *)

(** X19.  [IntraTransfer] names the source wallet in the path and the
    destination wallet in the body: every request is a bearer POST to
    [/wallets/<SourceID>/intra_transfer/] whose body has exactly the members
    [wallet_id] (the destination), [amount] and [narrative], in that order;
    the source identifier is not a member of the body, and the narrative is
    written even when it is empty. *)
Theorem IntraTransfer_source_in_path_destination_in_body (c : Client)
  (req : IntraTransferRequest) (script : list Round) (r : Request) :
  In r (requestsOf (fst (WalletService_IntraTransfer zeroResp newRequestError c
                           (Some req) script))) ->
  reqMethod r = MethodPost /\
  reqURL r = String.append (baseURL c)
               (String.append "/wallets/"
                  (String.append (itSourceID req) "/intra_transfer/")) /\
  reqBody r = Some (JObject [("wallet_id", JString (itDestinationID req));
                             ("amount", JNumber (itAmount req));
                             ("narrative", JString (itNarrative req))]) /\
  Header_Get (reqHeader r) headerAuthorization =
    (if negb (isEmpty (secretKey c))
     then Some (String.append "Bearer " (secretKey c))
     else None).
Proof.
  intros Hin. unfold WalletService_IntraTransfer in Hin. cbv zeta in Hin.
  apply postInto_request in Hin. destruct Hin as (Hm & Hu & (j & Hj & Hb) & Ha).
  apply marshalIntraTransferBody_members in Hj. cbn in Hj. subst j.
  repeat split; assumption.
Qed.

(** X18.  [FundCheckout] sends less of the customer than [CheckoutService.Create]
    does.  Both take a customer with nine fields; the body of [FundCheckout]
    carries the e-mail, the two names, the phone number and the country, and
    has no member for city, address, state or zipcode, so these four never
    reach the server; the body of [CheckoutService.Create] carries all nine.
    Both carry the client's publishable key. *)
Theorem FundCheckout_drops_customer_address (c : Client) (script : list Round)
  (r : Request) :
  (forall req,
     In r (requestsOf (fst (WalletService_FundCheckout zeroResp newRequestError c
                              (Some req) script))) ->
     exists j,
       reqBody r = Some j /\
       jsonStringField j "public_key" = publishableKey c /\
       jsonStringField j "wallet_id" = fcWalletID req /\
       jsonStringField j "email" = wcEmail (fcCustomer req) /\
       jsonStringField j "first_name" = wcFirstName (fcCustomer req) /\
       jsonStringField j "last_name" = wcLastName (fcCustomer req) /\
       jsonStringField j "phone_number" = wcPhoneNumber (fcCustomer req) /\
       jsonStringField j "country" = wcCountry (fcCustomer req) /\
       jsonField j "city" = None /\
       jsonField j "address" = None /\
       jsonField j "state" = None /\
       jsonField j "zipcode" = None) /\
  (forall req,
     In r (requestsOf (fst (CheckoutService_Create zeroResp newRequestError c
                              (Some req) script))) ->
     exists j,
       reqBody r = Some j /\
       jsonStringField j "public_key" = publishableKey c /\
       jsonStringField j "email" = ccEmail (coCustomer req) /\
       jsonStringField j "first_name" = ccFirstName (coCustomer req) /\
       jsonStringField j "last_name" = ccLastName (coCustomer req) /\
       jsonStringField j "phone_number" = ccPhoneNumber (coCustomer req) /\
       jsonStringField j "country" = ccCountry (coCustomer req) /\
       jsonStringField j "city" = ccCity (coCustomer req) /\
       jsonStringField j "address" = ccAddress (coCustomer req) /\
       jsonStringField j "state" = ccState (coCustomer req) /\
       jsonStringField j "zipcode" = ccZipcode (coCustomer req)).
Proof.
  split; intros req Hin.
  - unfold WalletService_FundCheckout in Hin. cbv zeta in Hin.
    apply postPublicInto_request in Hin. destruct Hin as (_ & _ & (j & Hj & Hb) & _).
    apply marshalFundCheckoutBody_members in Hj. cbn in Hj.
    destruct Hj as (Hpk & Hw & _ & _ & He & Hf & Hl & Hp & Hc & _ & Hci & Had & Hst & Hz).
    exists j. repeat split; assumption.
  - unfold CheckoutService_Create in Hin. cbv zeta in Hin.
    apply postPublicInto_request in Hin. destruct Hin as (_ & _ & (j & Hj & Hb) & _).
    apply marshalCreateCheckoutBody_members in Hj. cbn in Hj.
    destruct Hj as (Hpk & He & Hf & Hl & Hp & Hc & Had & Hci & Hst & Hz).
    exists j. repeat split; assumption.
Qed.

(** *** What the collection operations put on the wire *)




(** *** Payouts *)

(** What [Initiate] sends for a request it was handed. *)
Lemma Initiate_request (c : Client) (req : InitiateRequest) (script : list Round)
  (r : Request) :
  In r (requestsOf (fst (PayoutService_Initiate zeroResp newRequestError c
                           (Some req) script))) ->
  reqMethod r = MethodPost /\
  reqURL r = String.append (baseURL c) "/send-money/initiate/" /\
  Header_Get (reqHeader r) headerAuthorization =
    (if negb (isEmpty (secretKey c))
     then Some (String.append "Bearer " (secretKey c))
     else None) /\
  exists j,
    reqBody r = Some j /\
    jsonField j "provider" = Some (JString (irProvider req)) /\
    jsonField j "currency" = Some (JString (irCurrency req)) /\
    jsonField j "transactions" = Some (transactionsJSON (irTransactions req)) /\
    jsonField j "callback_url" =
      (if isEmpty (irCallbackURL req) then None else Some (JString (irCallbackURL req))) /\
    jsonField j "wallet_id" =
      (if isEmpty (irWalletID req) then None else Some (JString (irWalletID req))) /\
    jsonField j "requires_approval" =
      (if isEmpty (irRequiresApproval req) then None
       else Some (JString (irRequiresApproval req))).
Proof.
  intros Hin. unfold PayoutService_Initiate in Hin.
  apply postInto_request in Hin. destruct Hin as (Hm & Hu & (j & Hj & Hb) & Ha).
  destruct (marshalInitiateRequest_members req) as (j' & Hj' & Hmem).
  change (marshal (Some req)) with (marshal req) in Hj.
  rewrite Hj in Hj'. inversion Hj'; subst j'. clear Hj'.
  split; [exact Hm |]. split; [exact Hu |]. split; [exact Ha |].
  exists j. split; [exact Hb | exact Hmem].
Qed.

(** X23.  Each of the five provider methods is a bearer POST to
    [/send-money/initiate/] that names its own provider: [MPesa] sends
    [MPESA-B2C], [MPesaB2B] [MPESA-B2B], [Bank] [PESALINK], [IntaSend]
    [INTASEND] and [Airtime] [AIRTIME].  The currency is sent as given, and
    the approval flag is passed through without a default: a request that
    leaves it empty has no [requires_approval] member at all. *)
Theorem payout_methods_name_their_provider (c : Client) (script : list Round)
  (r : Request) :
  let routed (provider currency approval : string) :=
    reqMethod r = MethodPost /\
    reqURL r = String.append (baseURL c) "/send-money/initiate/" /\
    Header_Get (reqHeader r) headerAuthorization =
      (if negb (isEmpty (secretKey c))
       then Some (String.append "Bearer " (secretKey c))
       else None) /\
    exists j,
      reqBody r = Some j /\
      jsonField j "provider" = Some (JString provider) /\
      jsonField j "currency" = Some (JString currency) /\
      jsonField j "requires_approval" =
        (if isEmpty approval then None else Some (JString approval)) in
  (forall req,
     In r (requestsOf (fst (PayoutService_MPesa zeroResp newRequestError c
                              (Some req) script))) ->
     routed "MPESA-B2C" (prCurrency req) (prRequiresApproval req)) /\
  (forall req,
     In r (requestsOf (fst (PayoutService_MPesaB2B zeroResp newRequestError c
                              (Some req) script))) ->
     routed "MPESA-B2B" (mbCurrency req) (mbRequiresApproval req)) /\
  (forall req,
     In r (requestsOf (fst (PayoutService_Bank zeroResp newRequestError c
                              (Some req) script))) ->
     routed "PESALINK" (brCurrency req) (brRequiresApproval req)) /\
  (forall req,
     In r (requestsOf (fst (PayoutService_IntaSend zeroResp newRequestError c
                              (Some req) script))) ->
     routed "INTASEND" (prCurrency req) (prRequiresApproval req)) /\
  (forall req,
     In r (requestsOf (fst (PayoutService_Airtime zeroResp newRequestError c
                              (Some req) script))) ->
     routed "AIRTIME" (prCurrency req) (prRequiresApproval req)).
Proof.
  cbv zeta.
  split; [| split; [| split; [| split]]]; intros req Hin;
    [ unfold PayoutService_MPesa in Hin
    | unfold PayoutService_MPesaB2B in Hin
    | unfold PayoutService_Bank in Hin
    | unfold PayoutService_IntaSend in Hin
    | unfold PayoutService_Airtime in Hin ];
    cbv zeta in Hin; apply Initiate_request in Hin;
    destruct Hin as (Hm & Hu & Ha & j & Hb & Hp & Hc & _ & _ & _ & Hr);
    (split; [exact Hm |]); (split; [exact Hu |]); (split; [exact Ha |]);
    exists j; (split; [exact Hb |]); (split; [exact Hp |]);
    (split; [exact Hc | exact Hr]).
Qed.

(** X24.  [MPesaB2B] and [Bank] rewrite their transactions one for one: the
    [transactions] member is an array as long as the caller's slice, and its
    [i]-th element is made from the caller's [i]-th transaction.  A B2B
    transaction keeps its account, amount, name, narrative, account type and
    account reference and has no [bank_code]; a bank transaction keeps its
    account, amount, name, narrative and bank code and has neither
    [account_type] nor [account_reference]. *)
Theorem payout_transactions_are_mapped_in_order (c : Client) (script : list Round)
  (r : Request) :
  (forall req,
     In r (requestsOf (fst (PayoutService_MPesaB2B zeroResp newRequestError c
                              (Some req) script))) ->
     exists j elems,
       reqBody r = Some j /\
       jsonField j "transactions" = Some (JArray elems) /\
       length elems = length (sliceElems (mbTransactions req)) /\
       forall (i : nat) (t : B2BTransaction),
         sliceElems (mbTransactions req) !! i = Some t ->
         exists e,
           elems !! i = Some e /\
           jsonField e "account" = Some (JString (b2Account t)) /\
           jsonField e "amount" = Some (JString (b2Amount t)) /\
           jsonStringField e "name" = b2Name t /\
           jsonStringField e "narrative" = b2Narrative t /\
           jsonStringField e "account_type" = b2AccountType t /\
           jsonStringField e "account_reference" = b2AccountReference t /\
           jsonField e "bank_code" = None) /\
  (forall req,
     In r (requestsOf (fst (PayoutService_Bank zeroResp newRequestError c
                              (Some req) script))) ->
     exists j elems,
       reqBody r = Some j /\
       jsonField j "transactions" = Some (JArray elems) /\
       length elems = length (sliceElems (brTransactions req)) /\
       forall (i : nat) (t : BankTransaction),
         sliceElems (brTransactions req) !! i = Some t ->
         exists e,
           elems !! i = Some e /\
           jsonField e "account" = Some (JString (bkAccount t)) /\
           jsonField e "amount" = Some (JString (bkAmount t)) /\
           jsonStringField e "name" = bkName t /\
           jsonStringField e "narrative" = bkNarrative t /\
           jsonField e "bank_code" =
             (if isEmpty (bkBankCode t) then None else Some (JString (bkBankCode t))) /\
           jsonField e "account_type" = None /\
           jsonField e "account_reference" = None).
Proof.
  split; intros req Hin.
  - unfold PayoutService_MPesaB2B in Hin. cbv zeta in Hin.
    apply Initiate_request in Hin.
    destruct Hin as (_ & _ & _ & j & Hb & _ & _ & Ht & _).
    cbn [irTransactions transactionsJSON] in Ht.
    exists j, (map transactionJSON (map b2bTransaction (sliceElems (mbTransactions req)))).
    split; [exact Hb |]. split; [exact Ht |].
    split; [rewrite !length_map; reflexivity |].
    intros i t Hi. exists (transactionJSON (b2bTransaction t)).
    split.
    { rewrite !list_lookup_fmap, Hi. reflexivity. }
    destruct (transactionJSON_members (b2bTransaction t))
      as (Hn & Hac & Ham & Hna & Hty & Href & Hbc & _ & _).
    cbn in Hn, Hac, Ham, Hna, Hty, Href, Hbc.
    repeat split; assumption.
  - unfold PayoutService_Bank in Hin. cbv zeta in Hin.
    apply Initiate_request in Hin.
    destruct Hin as (_ & _ & _ & j & Hb & _ & _ & Ht & _).
    cbn [irTransactions transactionsJSON] in Ht.
    exists j, (map transactionJSON (map bankTransaction (sliceElems (brTransactions req)))).
    split; [exact Hb |]. split; [exact Ht |].
    split; [rewrite !length_map; reflexivity |].
    intros i t Hi. exists (transactionJSON (bankTransaction t)).
    split.
    { rewrite !list_lookup_fmap, Hi. reflexivity. }
    destruct (transactionJSON_members (bankTransaction t))
      as (Hn & Hac & Ham & Hna & _ & _ & Hbc & Hty & Href).
    cbn in Hn, Hac, Ham, Hna, Hty, Href, Hbc.
    repeat split; assumption.
Qed.

(** X25.  A request without transactions (a nil slice) is written differently
    by the provider methods.  [MPesa], [IntaSend] and [Airtime] hand the nil
    slice on, and the body says [transactions: null]; [MPesaB2B] and [Bank]
    make a slice of their own, and the body says [transactions: []]. *)
Theorem payout_without_transactions (c : Client) (script : list Round) (r : Request) :
  (forall req,
     prTransactions req = None ->
     (In r (requestsOf (fst (PayoutService_MPesa zeroResp newRequestError c
                               (Some req) script))) \/
      In r (requestsOf (fst (PayoutService_IntaSend zeroResp newRequestError c
                               (Some req) script))) \/
      In r (requestsOf (fst (PayoutService_Airtime zeroResp newRequestError c
                               (Some req) script)))) ->
     exists j, reqBody r = Some j /\ jsonField j "transactions" = Some JNull) /\
  (forall req,
     mbTransactions req = None ->
     In r (requestsOf (fst (PayoutService_MPesaB2B zeroResp newRequestError c
                              (Some req) script))) ->
     exists j, reqBody r = Some j /\ jsonField j "transactions" = Some (JArray [])) /\
  (forall req,
     brTransactions req = None ->
     In r (requestsOf (fst (PayoutService_Bank zeroResp newRequestError c
                              (Some req) script))) ->
     exists j, reqBody r = Some j /\ jsonField j "transactions" = Some (JArray [])).
Proof.
  split; [| split]; intros req Hnil Hin.
  - destruct Hin as [Hin | [Hin | Hin]];
      [ unfold PayoutService_MPesa in Hin
      | unfold PayoutService_IntaSend in Hin
      | unfold PayoutService_Airtime in Hin ];
      apply Initiate_request in Hin;
      destruct Hin as (_ & _ & _ & j & Hb & _ & _ & Ht & _);
      cbn [irTransactions initiateWith] in Ht; rewrite Hnil in Ht;
      exists j; split; [exact Hb | exact Ht | exact Hb | exact Ht | exact Hb | exact Ht].
  - unfold PayoutService_MPesaB2B in Hin. cbv zeta in Hin.
    apply Initiate_request in Hin.
    destruct Hin as (_ & _ & _ & j & Hb & _ & _ & Ht & _).
    cbn [irTransactions] in Ht. rewrite Hnil in Ht.
    exists j. split; [exact Hb | exact Ht].
  - unfold PayoutService_Bank in Hin. cbv zeta in Hin.
    apply Initiate_request in Hin.
    destruct Hin as (_ & _ & _ & j & Hb & _ & _ & Ht & _).
    cbn [irTransactions] in Ht. rewrite Hnil in Ht.
    exists j. split; [exact Hb | exact Ht].
Qed.

(** *** Payment links *)

(** X26.  The body of [PaymentLinkService.Create] always says whether the
    link is active, [false] included, since [is_active] is not [omitempty];
    the amount is a member unless it is zero; title and currency are always
    members. *)
Theorem PaymentLink_Create_body (c : Client) (req : CreatePaymentLinkRequest)
  (script : list Round) (r : Request) :
  In r (requestsOf (fst (PaymentLinkService_Create zeroResp newRequestError c
                           (Some req) script))) ->
  reqURL r = String.append (baseURL c) "/paymentlinks/" /\
  exists j,
    reqBody r = Some j /\
    jsonField j "is_active" = Some (JBool (plIsActive req)) /\
    jsonField j "title" = Some (JString (plTitle req)) /\
    jsonField j "currency" = Some (JString (plCurrency req)) /\
    jsonField j "amount" =
      (if (plAmount req =? 0)%float then None else Some (JNumber (plAmount req))).
Proof.
  intros Hin. unfold PaymentLinkService_Create in Hin.
  apply postInto_request in Hin. destruct Hin as (_ & Hu & (j & Hj & Hb) & _).
  change (marshal (Some req)) with (marshal req) in Hj.
  apply marshalCreatePaymentLinkRequest_members in Hj.
  split; [exact Hu |]. exists j. split; [exact Hb | exact Hj].
Qed.

(** *** Nil request pointers *)

(** X27.  What a nil request pointer does depends on the operation.
    [CheckStatus], [Initiate], [Approve], [PaymentLinkService.Create] and
    [RefundService.Create] hand the pointer to the transport without reading
    it: they do not panic, and every request they send has the body [null].
    The operations that read a field of the request panic before anything is
    sent. *)
Theorem nil_request_pointer (c : Client) (script : list Round) :
  let sendsNull (call : list event * callOutcome Resp) :=
    snd call <> Panics /\
    forall r, In r (requestsOf (fst call)) -> reqBody r = Some JNull in
  let panics (call : list event * callOutcome Resp) := call = ([], Panics) in
  sendsNull (CheckoutService_CheckStatus zeroResp newRequestError c None script) /\
  sendsNull (PayoutService_Initiate zeroResp newRequestError c None script) /\
  sendsNull (PayoutService_Approve zeroResp newRequestError c None script) /\
  sendsNull (PaymentLinkService_Create zeroResp newRequestError c None script) /\
  sendsNull (RefundService_Create zeroResp newRequestError c None script) /\
  panics (WalletService_IntraTransfer zeroResp newRequestError c None script) /\
  panics (WalletService_FundCheckout zeroResp newRequestError c None script) /\
  panics (CollectionService_Charge zeroResp newRequestError c None script) /\
  panics (CheckoutService_Create zeroResp newRequestError c None script) /\
  panics (PayoutService_MPesa zeroResp newRequestError c None script) /\
  panics (PayoutService_MPesaB2B zeroResp newRequestError c None script) /\
  panics (PayoutService_Bank zeroResp newRequestError c None script) /\
  panics (PayoutService_IntaSend zeroResp newRequestError c None script) /\
  panics (PayoutService_Airtime zeroResp newRequestError c None script).
Proof.
  cbv zeta.
  split.
  { split; [apply postPublicInto_not_panics |].
    intros r Hin. apply postPublicInto_request in Hin.
    destruct Hin as (_ & _ & (j & Hj & Hb) & _).
    cbn in Hj. inversion Hj; subst j. exact Hb. }
  repeat (split;
          [ split; [apply postInto_not_panics |];
            intros r Hin; apply postInto_request in Hin;
            destruct Hin as (_ & _ & (j & Hj & Hb) & _);
            cbn in Hj; inversion Hj; subst j; exact Hb |]).
  repeat split; reflexivity.
Qed.

(** *** Amounts that have no JSON form *)

(** X3.  An amount that is NaN or infinite never leaves the process:
    [IntraTransfer], [FundCheckout], [Charge], [CheckoutService.Create] and
    [RefundService.Create] return the encoder's error for it without sending
    anything and without consulting the world, whatever else the request
    holds. *)
Theorem non_finite_amount_is_never_sent (c : Client) (script : list Round)
  (amount : float) :
  is_nan amount || is_infinity amount = true ->
  let refused (call : list event * callOutcome Resp) :=
    call = ([], Returns None (Some (EMarshalBody (UnsupportedValue "float64")))) in
  (forall req, itAmount req = amount ->
     refused (WalletService_IntraTransfer zeroResp newRequestError c (Some req) script)) /\
  (forall req, fcAmount req = amount ->
     refused (WalletService_FundCheckout zeroResp newRequestError c (Some req) script)) /\
  (forall req, crAmount req = amount ->
     refused (CollectionService_Charge zeroResp newRequestError c (Some req) script)) /\
  (forall req, coAmount req = amount ->
     refused (CheckoutService_Create zeroResp newRequestError c (Some req) script)) /\
  (forall req, cgAmount req = amount ->
     refused (RefundService_Create zeroResp newRequestError c (Some req) script)).
Proof.
  intros Hbad. cbv zeta.
  split; [| split; [| split; [| split]]]; intros req Hamount; subst amount.
  - unfold WalletService_IntraTransfer. cbv zeta. apply postInto_refused.
    unfold marshal, marshalIntraTransferBody, marshalStruct.
    cbn [ibAmount]. rewrite (fieldFloat_refused _ _ Hbad). reflexivity.
  - unfold WalletService_FundCheckout. cbv zeta. apply postPublicInto_refused.
    unfold marshal, marshalFundCheckoutBody, marshalStruct.
    cbn [fkAmount]. rewrite (fieldFloat_refused _ _ Hbad). reflexivity.
  - unfold CollectionService_Charge. cbv zeta. apply postPublicInto_refused.
    unfold marshal, marshalChargeRequestBody, marshalStruct.
    cbn [cbAmount]. rewrite (fieldFloat_refused _ _ Hbad). reflexivity.
  - unfold CheckoutService_Create. cbv zeta. apply postPublicInto_refused.
    unfold marshal, marshalCreateCheckoutBody, marshalStruct.
    cbn [ckAmount]. rewrite (fieldFloat_refused _ _ Hbad). reflexivity.
  - unfold RefundService_Create. apply postInto_refused.
    change (marshal (Some req)) with (marshal req).
    unfold marshal, marshalCreateChargebackRequest, marshalStruct.
    rewrite (fieldFloat_refused _ _ Hbad). reflexivity.
Qed.


(** *** Answers without a body *)

Lemma doRequest_empty_success_body {P : Type} `{Marshal P} (c : Client)
  (cfg : requestConfig P Resp) (bodyBytes : option JSON) (rd : Round)
  (rest : list Round) (status : Z) :
  encodedBody cfg = inr bodyBytes ->
  requestAccepted newRequestError c cfg ->
  0 <= maxRetries c ->
  exchange rd = Response status "" ->
  isErrorStatus status = false ->
  doRequest newRequestError c cfg (rd :: rest) =
    ([EvSend (buildRequest c cfg bodyBytes)], Done None (result cfg)).
Proof.
  intros Henc Hacc Hbudget Hex Hst.
  assert (Hloop : retryLoop newRequestError c cfg bodyBytes (rd :: rest) 0 None =
                  ([EvSend (buildRequest c cfg bodyBytes)], Done None (result cfg))).
  { rewrite retryLoop_step by exact Hbudget.
    rewrite (attemptOnce_success_status newRequestError c cfg bodyBytes 0 rd status "")
      by (first [exact Hacc | exact Hex | exact Hst | left; lia]).
    unfold decodeResult. destruct (result cfg); reflexivity. }
  unfold doRequest. unfold encodedBody in Henc.
  destruct (body cfg) as [b |]; [destruct (marshal b) as [e | j]; [discriminate |] |];
    inversion Henc; subst; exact Hloop.
Qed.

(** X15.  A 2xx answer with an empty body is a success whose response is the
    zero value: the decoder is not run, so the operation returns a response
    with no field set and a nil error, after a single request.  Shown for a
    [get], a [post] and a public [post]: [WalletService.Get],
    [PayoutService.Status] and [CollectionService.Status]. *)
Theorem empty_success_body_gives_zero_response (c : Client) (rd : Round)
  (rest : list Round) (status : Z) :
  0 <= maxRetries c ->
  exchange rd = Response status "" ->
  200 <= status < 300 ->
  (forall walletID,
     newRequestError MethodGet
       (String.append (baseURL c)
          (String.append "/wallets/" (String.append walletID "/"))) = None ->
     exists r,
       WalletService_Get zeroResp newRequestError c walletID (rd :: rest) =
         ([EvSend r], Returns (Some zeroResp) None)) /\
  (forall trackingID,
     newRequestError MethodPost (String.append (baseURL c) "/send-money/status/") = None ->
     exists r,
       PayoutService_Status zeroResp newRequestError c trackingID (rd :: rest) =
         ([EvSend r], Returns (Some zeroResp) None)) /\
  (forall invoiceID opts,
     newRequestError MethodPost (String.append (baseURL c) "/payment/status/") = None ->
     exists r,
       CollectionService_Status zeroResp newRequestError c invoiceID opts (rd :: rest) =
         ([EvSend r], Returns (Some zeroResp) None)).
Proof.
  intros Hbudget Hex Hrange.
  assert (Hst : isErrorStatus status = false).
  { unfold isErrorStatus. apply orb_false_iff. split; [apply Z.ltb_ge | apply Z.leb_gt]; lia. }
  split; [| split].
  - intros walletID Hacc. eexists.
    unfold WalletService_Get, getInto, get.
    erewrite doRequest_empty_success_body;
      [reflexivity | reflexivity | exact Hacc | exact Hbudget | exact Hex | exact Hst].
  - intros trackingID Hacc. eexists.
    unfold PayoutService_Status, postInto, post.
    erewrite doRequest_empty_success_body;
      [reflexivity | reflexivity | exact Hacc | exact Hbudget | exact Hex | exact Hst].
  - intros invoiceID opts Hacc.
    destruct (marshalStatusRequest_members
                (match opts with
                 | Some o => {| srInvoiceID := invoiceID; srPublicKey := publishableKey c;
                                srCheckoutID := soCheckoutID o;
                                srSignature := soSignature o |}
                 | None => {| srInvoiceID := invoiceID; srPublicKey := publishableKey c;
                              srCheckoutID := ""; srSignature := "" |}
                 end)) as (j & Hj & _).
    eexists.
    unfold CollectionService_Status, postPublicInto, postPublic. cbv zeta.
    erewrite doRequest_empty_success_body;
      [reflexivity
      | unfold encodedBody; cbn [body]; destruct opts; cbn [srInvoiceID srPublicKey];
        rewrite Hj; reflexivity
      | exact Hacc | exact Hbudget | exact Hex | exact Hst].
Qed.

End MoreOperationsProperties.

(** ** [WalletService.Create], once more *)

Section CreateExtras.

Context {Wallet : Type} `{Unmarshal Wallet} `{Unmarshal APIErrorFields}.
Variable zeroWallet : Wallet.
Variable newRequestError : string -> string -> option string.

(** X16.  The default that [Create] writes into the caller's request is
    written once.  From the memory a call leaves behind, a further call
    writes nothing, and it does exactly what a call from the original memory
    would have done on the same world: the same requests with the same
    bodies, the same outcome and the same memory afterwards. *)
Theorem Create_again_from_written_memory (c : Client)
  (h : gmap positive CreateWalletRequest) (req : positive)
  (script script' : list Round) :
  let h1 := (WalletService_Create zeroWallet newRequestError c h req script).1.1 in
  (WalletService_Create zeroWallet newRequestError c h1 req script').1.1 = h1 /\
  WalletService_Create zeroWallet newRequestError c h1 req script' =
    WalletService_Create zeroWallet newRequestError c h req script'.
Proof.
  cbv zeta. unfold WalletService_Create.
  destruct (h !! req) as [r |] eqn:Hreq.
  - destruct (isEmpty (cwWalletType r)) eqn:He.
    + rewrite lookup_insert_eq.
      destruct (post newRequestError c "/wallets/" _ (Some zeroWallet) script)
        as [evs fin].
      cbn [fst]. rewrite lookup_insert_eq. cbn [cwWalletType cwCurrency cwLabel cwCanDisburse].
      change (isEmpty WalletTypeWorking) with false. cbv iota.
      rewrite lookup_insert_eq.
      destruct (post newRequestError c "/wallets/" _ (Some zeroWallet) script')
        as [evs' fin'].
      split; reflexivity.
    + rewrite Hreq.
      destruct (post newRequestError c "/wallets/" _ (Some zeroWallet) script)
        as [evs fin].
      cbn [fst]. rewrite Hreq, He, Hreq.
      destruct (post newRequestError c "/wallets/" _ (Some zeroWallet) script')
        as [evs' fin'].
      split; reflexivity.
  - cbn [fst]. rewrite Hreq. split; reflexivity.
Qed.

End CreateExtras.

(** ** The error helpers on what a call returns *)

Section ErrorHelpers.

Context {B R : Type} `{Marshal B} `{Unmarshal R} `{Unmarshal APIErrorFields}.
Variable newRequestError : string -> string -> option string.

Lemma attemptOnce_error_carries_status (c : Client) (cfg : requestConfig B R)
  (bodyBytes : option JSON) (attempt : Z) (rd : Round) :
  match attemptOnce newRequestError c cfg bodyBytes attempt rd with
  | (_, Return err _) => carriesErrorStatus err
  | (_, Continue lastErr) => carriesErrorStatus lastErr
  end.
Proof.
  unfold attemptOnce, decodeResult, carriesErrorStatus.
  destruct (if 0 <? attempt then selected rd else TimerFired);
    [intros a Ha; discriminate |].
  destruct (newRequestError _ _); [intros a Ha; discriminate |].
  destruct (exchange rd) as [te | st te | st b]; [intros a Ha; discriminate .. |].
  destruct (isErrorStatus st) eqn:Hst.
  - destruct (isTerminalStatus st); intros a Ha; inversion Ha; subst;
      rewrite apiErrorOf_status; exact Hst.
  - destruct (result cfg) as [r |];
      [destruct (0 <? Z.of_nat (String.length b));
         [destruct (unmarshal b r) as [r' [je |]] |] |];
      intros a Ha; discriminate.
Qed.

Lemma retryLoop_error_carries_status (c : Client) (cfg : requestConfig B R)
  (bodyBytes : option JSON) (script : list Round) :
  forall (attempt : Z) (lastErr : option error) (evs : list event)
         (err : option error) (res : option R),
    carriesErrorStatus lastErr ->
    retryLoop newRequestError c cfg bodyBytes script attempt lastErr
      = (evs, Done err res) ->
    carriesErrorStatus err.
Proof.
  induction script as [| rd rest IH]; intros attempt lastErr evs err res Hlast Hrun.
  - cbn in Hrun. destruct (attempt <=? maxRetries c); inversion Hrun; subst. exact Hlast.
  - cbn [retryLoop] in Hrun.
    destruct (attempt <=? maxRetries c); [| inversion Hrun; subst; exact Hlast].
    pose proof (attemptOnce_error_carries_status c cfg bodyBytes attempt rd) as Hpass.
    destruct (attemptOnce newRequestError c cfg bodyBytes attempt rd)
      as [evs0 [lastErr' | err0 res0]].
    + destruct (retryLoop newRequestError c cfg bodyBytes rest
                  (wrap64 (attempt + 1)) lastErr') as [evs' fin] eqn:Hrest.
      inversion Hrun; subst. eapply IH; [exact Hpass | exact Hrest].
    + inversion Hrun; subst. exact Hpass.
Qed.

(** X28.  The helpers of the errors file on what a call returns.  An error
    is never both an API error and a network error.  The [APIError] that
    [AsAPIError] finds in it carries a status outside 200..299, and at most
    one of [IsNotFound], [IsAuthenticationError], [IsValidationError] and
    [IsRateLimited] holds of it; the first three are statuses that end a call
    at once, the fourth is one that is retried. *)
Theorem returned_error_helpers (c : Client) (cfg : requestConfig B R)
  (script : list Round) (evs : list event) (err : option error) (res : option R) :
  doRequest newRequestError c cfg script = (evs, Done err res) ->
  IsAPIError err && IsNetworkError err = false /\
  (forall a : APIError,
     AsAPIError err = Some a ->
     IsAPIError err = true /\
     (HTTPStatusCode a < 200 \/ 300 <= HTTPStatusCode a) /\
     Z.b2z (IsNotFound a) + Z.b2z (IsAuthenticationError a)
       + Z.b2z (IsValidationError a) + Z.b2z (IsRateLimited a) <= 1 /\
     (IsNotFound a || IsAuthenticationError a || IsValidationError a = true ->
      isTerminalStatus (HTTPStatusCode a) = true) /\
     (IsRateLimited a = true -> isTerminalStatus (HTTPStatusCode a) = false)).
Proof.
  intros Hrun.
  assert (Hcarry : carriesErrorStatus err).
  { unfold doRequest in Hrun.
    destruct (body cfg) as [b |]; [destruct (marshal b) as [me | j] |].
    - inversion Hrun; subst. intros a Ha. discriminate.
    - eapply retryLoop_error_carries_status; [| exact Hrun]. intros a Ha. discriminate.
    - eapply retryLoop_error_carries_status; [| exact Hrun]. intros a Ha. discriminate. }
  split.
  - destruct err as [[] |]; reflexivity.
  - intros a Ha.
    assert (Herr : err = Some (EAPI a)).
    { destruct err as [[] |]; cbn in Ha; try discriminate. congruence. }
    specialize (Hcarry a Herr). subst err.
    split; [reflexivity |].
    unfold isErrorStatus in Hcarry. apply orb_true_iff in Hcarry.
    unfold IsNotFound, IsAuthenticationError, IsValidationError, IsRateLimited,
      isTerminalStatus.
    split.
    { destruct Hcarry as [Hlt | Hge]; [apply Z.ltb_lt in Hlt | apply Z.leb_le in Hge]; lia. }
    destruct (HTTPStatusCode a =? 404) eqn:E404;
      destruct (HTTPStatusCode a =? 401) eqn:E401;
      destruct (HTTPStatusCode a =? 403) eqn:E403;
      destruct (HTTPStatusCode a =? 400) eqn:E400;
      destruct (HTTPStatusCode a =? 429) eqn:E429;
      destruct (0 <? Z.of_nat (length (Errors a)));
      try apply Z.eqb_eq in E404; try apply Z.eqb_eq in E401;
      try apply Z.eqb_eq in E403; try apply Z.eqb_eq in E400;
      try apply Z.eqb_eq in E429;
      try lia;
      cbn;
      (split; [lia |]);
      (split; [intros Hh; try discriminate Hh | intros Hh; try discriminate Hh]);
      first [ rewrite E404 | rewrite E401 | rewrite E403 | rewrite E400 | rewrite E429
            | idtac ];
      try reflexivity.
Qed.

End ErrorHelpers.

(** *** The other operations on concrete calls

    The calls below run in the small world: responses are stood in for by
    [unit], decoded by the decoder that accepts the empty object. *)

#[local] Existing Instance emptyObjectDecoder.

(** Looking up wallet [W-001] on a server that answers 200. *)
Lemma operations_return_value_or_error_witness :
  snd (WalletService_Get tt acceptAnyRequest (testClient 0 0) "W-001" [okRound])
    = Returns (Some tt) None /\
  ((Some tt = None /\ (None : option error) <> None) \/
   (Some tt <> None /\ (None : option error) = None)).
Proof.
  split; [reflexivity |].
  apply (proj1 (operations_return_value_or_error tt acceptAnyRequest
                  (testClient 0 0) [okRound] (Some tt) None) "W-001").
  reflexivity.
Defined.

(** The same lookup on a server that answers 204. *)
Lemma empty_success_body_gives_zero_response_witness :
  exists r,
    WalletService_Get tt acceptAnyRequest (testClient 0 0) "W-001" [noContentRound] =
      ([EvSend r], Returns (Some tt) None).
Proof.
  assert (Hbudget : 0 <= maxRetries (testClient 0 0)) by (cbn; lia).
  assert (Hrange : 200 <= 204 < 300) by lia.
  apply (proj1 (empty_success_body_gives_zero_response tt acceptAnyRequest
                  (testClient 0 0) noContentRound [] 204 Hbudget eq_refl Hrange) "W-001").
  reflexivity.
Defined.

(** A checkout by the client of the test suite, which holds a secret key. *)
Lemma public_operations_send_no_authorization_witness :
  exists r,
    requestsOf (fst (CheckoutService_Create tt acceptAnyRequest (testClient 0 0)
                       (Some sampleCreateCheckoutRequest) [okRound])) = [r] /\
    secretKey (testClient 0 0) <> "" /\
    reqMethod r = MethodPost /\
    reqURL r = "http://127.0.0.1:8080/checkout/" /\
    Header_Get (reqHeader r) headerAuthorization = None.
Proof.
  eexists. split; [reflexivity |]. split; [discriminate |].
  apply (proj1 (proj2 (proj2 (proj2
           (public_operations_send_no_authorization tt acceptAnyRequest
              (testClient 0 0) [okRound] _))))
           (Some sampleCreateCheckoutRequest)).
  left. reflexivity.
Defined.

(** Reading the transactions of wallet [W-001]. *)
Lemma read_operations_are_bearer_gets_witness :
  exists r,
    requestsOf (fst (WalletService_Transactions tt acceptAnyRequest (testClient 0 0)
                       "W-001" [okRound])) = [r] /\
    reqMethod r = MethodGet /\
    reqURL r = "http://127.0.0.1:8080/wallets/W-001/transactions/" /\
    reqBody r = None /\
    Header_Get (reqHeader r) headerAuthorization = Some "Bearer ISSecretKey_test_secret".
Proof.
  eexists. split; [reflexivity |].
  apply (proj1 (proj2 (proj2
           (read_operations_are_bearer_gets tt acceptAnyRequest
              (testClient 0 0) [okRound] _))) "W-001").
  left. reflexivity.
Defined.

(** A transfer from [W-SRC] to [W-DST] without a narrative. *)
Lemma IntraTransfer_source_in_path_destination_in_body_witness :
  exists r,
    requestsOf (fst (WalletService_IntraTransfer tt acceptAnyRequest (testClient 0 0)
                       (Some sampleIntraTransferRequest) [okRound])) = [r] /\
    reqMethod r = MethodPost /\
    reqURL r = "http://127.0.0.1:8080/wallets/W-SRC/intra_transfer/" /\
    reqBody r = Some (JObject [("wallet_id", JString "W-DST");
                               ("amount", JNumber 1000%float);
                               ("narrative", JString "")]) /\
    Header_Get (reqHeader r) headerAuthorization = Some "Bearer ISSecretKey_test_secret".
Proof.
  eexists. split; [reflexivity |].
  apply (IntraTransfer_source_in_path_destination_in_body tt acceptAnyRequest
           (testClient 0 0) sampleIntraTransferRequest [okRound]).
  left. reflexivity.
Defined.

(** Funding a wallet by checkout for a customer with a full address. *)
Lemma FundCheckout_drops_customer_address_witness :
  exists r j,
    requestsOf (fst (WalletService_FundCheckout tt acceptAnyRequest (testClient 0 0)
                       (Some sampleFundCheckoutRequest) [okRound])) = [r] /\
    wcCity (fcCustomer sampleFundCheckoutRequest) = "Nairobi" /\
    reqBody r = Some j /\
    jsonStringField j "email" = "john@example.com" /\
    jsonField j "city" = None /\
    jsonField j "address" = None /\
    jsonField j "state" = None /\
    jsonField j "zipcode" = None.
Proof.
  assert (Hsent : exists r,
            requestsOf (fst (WalletService_FundCheckout tt acceptAnyRequest
                               (testClient 0 0) (Some sampleFundCheckoutRequest)
                               [okRound])) = [r] /\
            In r (requestsOf (fst (WalletService_FundCheckout tt acceptAnyRequest
                                     (testClient 0 0) (Some sampleFundCheckoutRequest)
                                     [okRound])))).
  { eexists. split; [reflexivity | left; reflexivity]. }
  destruct Hsent as (r & Hr & Hin).
  destruct (proj1 (FundCheckout_drops_customer_address tt acceptAnyRequest
                     (testClient 0 0) [okRound] r) sampleFundCheckoutRequest Hin)
    as (j & Hb & _ & _ & He & _ & _ & _ & _ & Hci & Had & Hst & Hz).
  exists r, j. split; [exact Hr |]. split; [reflexivity |].
  repeat split; assumption.
Defined.



(** A bank payout, with no approval flag set. *)
Lemma payout_methods_name_their_provider_witness :
  exists r j,
    requestsOf (fst (PayoutService_Bank tt acceptAnyRequest (testClient 0 0)
                       (Some sampleBankRequest) [okRound])) = [r] /\
    reqURL r = "http://127.0.0.1:8080/send-money/initiate/" /\
    reqBody r = Some j /\
    jsonField j "provider" = Some (JString "PESALINK") /\
    jsonField j "currency" = Some (JString "KES") /\
    jsonField j "requires_approval" = None.
Proof.
  assert (Hsent : exists r,
            requestsOf (fst (PayoutService_Bank tt acceptAnyRequest (testClient 0 0)
                               (Some sampleBankRequest) [okRound])) = [r] /\
            In r (requestsOf (fst (PayoutService_Bank tt acceptAnyRequest
                                     (testClient 0 0) (Some sampleBankRequest)
                                     [okRound])))).
  { eexists. split; [reflexivity | left; reflexivity]. }
  destruct Hsent as (r & Hr & Hin).
  destruct (proj1 (proj2 (proj2
              (payout_methods_name_their_provider tt acceptAnyRequest
                 (testClient 0 0) [okRound] r))) sampleBankRequest Hin)
    as (_ & Hu & _ & j & Hb & Hp & Hc & Hap).
  exists r, j. split; [exact Hr |].
  repeat split; assumption.
Defined.

(** A payout to a pay bill number. *)
Lemma payout_transactions_are_mapped_in_order_witness :
  exists r j elems e,
    requestsOf (fst (PayoutService_MPesaB2B tt acceptAnyRequest (testClient 0 0)
                       (Some sampleMPesaB2BRequest) [okRound])) = [r] /\
    reqBody r = Some j /\
    jsonField j "transactions" = Some (JArray elems) /\
    length elems = 1%nat /\
    elems !! 0%nat = Some e /\
    jsonField e "account" = Some (JString "247247") /\
    jsonStringField e "account_type" = "PayBill" /\
    jsonField e "bank_code" = None.
Proof.
  assert (Hsent : exists r,
            requestsOf (fst (PayoutService_MPesaB2B tt acceptAnyRequest (testClient 0 0)
                               (Some sampleMPesaB2BRequest) [okRound])) = [r] /\
            In r (requestsOf (fst (PayoutService_MPesaB2B tt acceptAnyRequest
                                     (testClient 0 0) (Some sampleMPesaB2BRequest)
                                     [okRound])))).
  { eexists. split; [reflexivity | left; reflexivity]. }
  destruct Hsent as (r & Hr & Hin).
  destruct (proj1 (payout_transactions_are_mapped_in_order tt acceptAnyRequest
                     (testClient 0 0) [okRound] r) sampleMPesaB2BRequest Hin)
    as (j & elems & Hb & Ht & Hlen & Helems).
  destruct (Helems 0%nat sampleB2BTransaction eq_refl)
    as (e & He & Hac & _ & _ & _ & Hty & _ & Hbc).
  exists r, j, elems, e. split; [exact Hr |].
  repeat split; assumption.
Defined.

(** A mobile-money payout without transactions. *)
Lemma payout_without_transactions_witness :
  exists r j,
    requestsOf (fst (PayoutService_MPesa tt acceptAnyRequest (testClient 0 0)
                       (Some sampleEmptyPayoutRequest) [okRound])) = [r] /\
    reqBody r = Some j /\
    jsonField j "transactions" = Some JNull.
Proof.
  assert (Hsent : exists r,
            requestsOf (fst (PayoutService_MPesa tt acceptAnyRequest (testClient 0 0)
                               (Some sampleEmptyPayoutRequest) [okRound])) = [r] /\
            In r (requestsOf (fst (PayoutService_MPesa tt acceptAnyRequest
                                     (testClient 0 0) (Some sampleEmptyPayoutRequest)
                                     [okRound])))).
  { eexists. split; [reflexivity | left; reflexivity]. }
  destruct Hsent as (r & Hr & Hin).
  destruct (proj1 (payout_without_transactions tt acceptAnyRequest
                     (testClient 0 0) [okRound] r) sampleEmptyPayoutRequest eq_refl
              (or_introl Hin))
    as (j & Hb & Ht).
  exists r, j. split; [exact Hr |]. split; assumption.
Defined.

(** An inactive payment link with an open amount. *)
Lemma PaymentLink_Create_body_witness :
  exists r j,
    requestsOf (fst (PaymentLinkService_Create tt acceptAnyRequest (testClient 0 0)
                       (Some samplePaymentLinkRequest) [okRound])) = [r] /\
    reqBody r = Some j /\
    jsonField j "is_active" = Some (JBool false) /\
    jsonField j "amount" = None.
Proof.
  assert (Hsent : exists r,
            requestsOf (fst (PaymentLinkService_Create tt acceptAnyRequest
                               (testClient 0 0) (Some samplePaymentLinkRequest)
                               [okRound])) = [r] /\
            In r (requestsOf (fst (PaymentLinkService_Create tt acceptAnyRequest
                                     (testClient 0 0) (Some samplePaymentLinkRequest)
                                     [okRound])))).
  { eexists. split; [reflexivity | left; reflexivity]. }
  destruct Hsent as (r & Hr & Hin).
  destruct (PaymentLink_Create_body tt acceptAnyRequest (testClient 0 0)
              samplePaymentLinkRequest [okRound] r Hin)
    as (_ & j & Hb & Hact & _ & _ & Ham).
  exists r, j. split; [exact Hr |].
  repeat split; assumption.
Defined.

(** Approving a payout with a nil request. *)
Lemma nil_request_pointer_witness :
  exists r,
    requestsOf (fst (PayoutService_Approve tt acceptAnyRequest (testClient 0 0)
                       None [okRound])) = [r] /\
    reqBody r = Some JNull.
Proof.
  eexists. split; [reflexivity |].
  apply (proj2 (proj1 (proj2 (proj2
           (nil_request_pointer tt acceptAnyRequest (testClient 0 0) [okRound]))))).
  left. reflexivity.
Defined.

(** A chargeback of an infinite amount. *)
Lemma non_finite_amount_is_never_sent_witness :
  RefundService_Create tt acceptAnyRequest (testClient 3 Second)
      (Some sampleChargebackRequest) [okRound]
    = ([], Returns None (Some (EMarshalBody (UnsupportedValue "float64")))).
Proof.
  apply (proj2 (proj2 (proj2 (proj2
           (non_finite_amount_is_never_sent tt acceptAnyRequest (testClient 3 Second)
              [okRound] infinity eq_refl)))) sampleChargebackRequest).
  reflexivity.
Defined.

(** The wallet lookup on a server that answers 404. *)
Lemma returned_error_helpers_witness :
  exists a,
    snd (runList (testClient 0 0) [notFoundRound]) = Done (Some (EAPI a)) (Some tt) /\
    IsNotFound a = true /\
    (HTTPStatusCode a < 200 \/ 300 <= HTTPStatusCode a) /\
    isTerminalStatus (HTTPStatusCode a) = true.
Proof.
  eexists. split; [reflexivity |].
  split; [reflexivity |].
  destruct (proj2 (@returned_error_helpers unit unit marshalUnit (emptyObjectDecoder unit)
                     (emptyObjectDecoder APIErrorFields) acceptAnyRequest
                     (testClient 0 0) walletListConfig [notFoundRound] _ _ _ eq_refl)
              _ eq_refl)
    as (_ & Hstatus & _ & Hterm & _).
  split; [exact Hstatus | apply Hterm; reflexivity].
Defined.

(** ** Construction that fails *)

Lemma applyOptions_fails (opts : list Option) :
  forall (c : Client) (e : error),
    applyOptions opts c = inl e ->
    exists (before : list Option) (opt : Option) (after : list Option) (c1 : Client),
      opts = (before ++ opt :: after)%list /\
      applyOptions before c = inr c1 /\
      opt c1 = inl e.
Proof.
  induction opts as [| opt opts IH]; intros c e Hrun; [discriminate |].
  cbn in Hrun. destruct (opt c) as [e0 | c'] eqn:Hopt.
  - inversion Hrun; subst. exists [], opt, opts, c. repeat split. exact Hopt.
  - destruct (IH c' e Hrun) as (before & opt' & after & c1 & Heq & Hbefore & Hfail).
    exists (opt :: before), opt', after, c1. subst opts.
    repeat split; [| exact Hfail]. cbn. rewrite Hopt. exact Hbefore.
Qed.

(** X29.  How [New] fails.  An option that returns an error ends
    construction with that error: the options after it are not run and no
    check is made.  Apart from the error of such an option, [New] fails only
    with [ErrNoKeysProvided] or [ErrInvalidEnvironment]; in particular it
    never returns [ErrMissingPublishableKey] or [ErrMissingSecretKey] of its
    own.  Once the options have run, it fails with [ErrNoKeysProvided]
    exactly when both keys are empty, an endpoint being set or not. *)
Theorem New_failure_modes (opts : list Option) :
  (forall (before after : list Option) (opt : Option) (c1 : Client) (e : error),
     opts = (before ++ opt :: after)%list ->
     applyOptions before initialClient = inr c1 ->
     opt c1 = inl e ->
     New opts = inl e) /\
  (forall e : error,
     New opts = inl e ->
     (exists (before : list Option) (opt : Option) (after : list Option) (c1 : Client),
        opts = (before ++ opt :: after)%list /\
        applyOptions before initialClient = inr c1 /\
        opt c1 = inl e) \/
     e = ESentinel ErrNoKeysProvided \/
     e = ESentinel ErrInvalidEnvironment) /\
  (forall c0 : Client,
     applyOptions opts initialClient = inr c0 ->
     (New opts = inl (ESentinel ErrNoKeysProvided) <->
      publishableKey c0 = "" /\ secretKey c0 = "")).
Proof.
  split; [| split].
  - intros before after opt c1 e -> Hbefore Hfail.
    unfold New. rewrite applyOptions_app, Hbefore. cbn. rewrite Hfail. reflexivity.
  - intros e HN. unfold New in HN.
    destruct (applyOptions opts initialClient) as [e0 | c0] eqn:Hrun.
    + inversion HN; subst. left. apply applyOptions_fails. exact Hrun.
    + right.
      destruct (isEmpty (publishableKey c0) && isEmpty (secretKey c0));
        [inversion HN; auto |].
      cbv zeta in HN.
      destruct (isEmpty (baseURL (if isEmpty (baseURL c0) then detectEnvironment c0 else c0)));
        [inversion HN; auto | discriminate].
  - intros c0 Hrun. unfold New. rewrite Hrun. split.
    + intros HN.
      destruct (isEmpty (publishableKey c0)) eqn:Hp;
        destruct (isEmpty (secretKey c0)) eqn:Hs; cbn in HN.
      * split; apply isEmpty_true; assumption.
      * destruct (isEmpty (baseURL (if isEmpty (baseURL c0) then detectEnvironment c0 else c0)));
          discriminate.
      * destruct (isEmpty (baseURL (if isEmpty (baseURL c0) then detectEnvironment c0 else c0)));
          discriminate.
      * destruct (isEmpty (baseURL (if isEmpty (baseURL c0) then detectEnvironment c0 else c0)));
          discriminate.
    + intros [Hp Hs]. apply isEmpty_true in Hp, Hs. rewrite Hp, Hs. reflexivity.
Qed.

(** An option that fails between a key and an endpoint. *)
Lemma New_failure_modes_witness :
  New [WithSecretKey "ISSecretKey_test_secret"; failingOption "bad option"; WithSandbox]
    = inl (EOption "bad option").
Proof.
  apply (proj1 (New_failure_modes
                  [WithSecretKey "ISSecretKey_test_secret"; failingOption "bad option";
                   WithSandbox])
           [WithSecretKey "ISSecretKey_test_secret"] [WithSandbox]
           (failingOption "bad option")
           (setSecretKey initialClient "ISSecretKey_test_secret")
           (EOption "bad option") eq_refl eq_refl eq_refl).
Defined.

(** ** The text of an [APIError] *)

Lemma HasPrefix_append (p s : string) : HasPrefix (String.append p s) p = true.
Proof.
  unfold HasPrefix. induction p as [| a p IH].
  - destruct s; reflexivity.
  - change (String.prefix (String a p) (String a (String.append p s)) = true).
    unfold String.prefix; fold String.prefix.
    destruct (Ascii.ascii_dec a a) as [_ | Hne]; [exact IH | contradiction].
Qed.

Lemma append_assoc (a b c : string) :
  String.append (String.append a b) c = String.append a (String.append b c).
Proof.
  induction a as [| x a IH]; [reflexivity |].
  change (String x (String.append (String.append a b) c)
          = String x (String.append a (String.append b c))).
  rewrite IH. reflexivity.
Qed.

Lemma HasPrefix_status_text (a d rest : string) :
  HasPrefix (String.append a (String.append d (String.append ")" rest)))
    (String.append a (String.append d ")")) = true.
Proof.
  rewrite <- (append_assoc d ")" rest), <- (append_assoc a (String.append d ")") rest).
  apply HasPrefix_append.
Qed.

Section ErrorText.

Context `{Unmarshal APIErrorFields}.

(** X30.  The text of an [APIError] always starts with
    [intasend: API error (HTTP <status>)], the status in decimal.  A message
    takes precedence over a detail.  For an answer whose body did not parse
    as an error document and is not empty, the text ends with the body as the
    server sent it. *)
Theorem APIError_Error_text :
  (forall e : APIError,
     HasPrefix (APIError_Error e)
       (String.append "intasend: API error (HTTP "
          (String.append (formatInt (HTTPStatusCode e)) ")")) = true) /\
  (forall e : APIError,
     Message e <> "" ->
     APIError_Error e =
       String.append "intasend: API error (HTTP "
         (String.append (formatInt (HTTPStatusCode e))
            (String.append "): " (Message e)))) /\
  (forall (status : Z) (respBody : string) (f : APIErrorFields) (err : jsonError),
     respBody <> "" ->
     unmarshal respBody (mkAPIErrorFields "" "" "" [] "") = (f, Some err) ->
     APIError_Error (apiErrorOf status respBody) =
       String.append "intasend: API error (HTTP "
         (String.append (formatInt status) (String.append "): " respBody))).
Proof.
  assert (Hmsg : forall e : APIError,
            Message e <> "" ->
            APIError_Error e =
              String.append "intasend: API error (HTTP "
                (String.append (formatInt (HTTPStatusCode e))
                   (String.append "): " (Message e)))).
  { intros e Hne. unfold APIError_Error.
    apply isEmpty_false in Hne. rewrite Hne. reflexivity. }
  split; [| split].
  - intros e. unfold APIError_Error.
    destruct (isEmpty (Message e)); [destruct (isEmpty (Detail e)) |]; cbn [negb].
    + exact (HasPrefix_status_text "intasend: API error (HTTP "
               (formatInt (HTTPStatusCode e)) "").
    + exact (HasPrefix_status_text "intasend: API error (HTTP "
               (formatInt (HTTPStatusCode e)) (String.append ": " (Detail e))).
    + exact (HasPrefix_status_text "intasend: API error (HTTP "
               (formatInt (HTTPStatusCode e)) (String.append ": " (Message e))).
  - exact Hmsg.
  - intros status respBody f err Hne Hdec.
    rewrite Hmsg; rewrite (apiErrorOf_unparseable status respBody f err Hdec);
      [rewrite apiErrorOf_status; reflexivity | exact Hne].
Qed.

End ErrorText.

(** The 500 of the test suite, whose body is not an error document. *)
Lemma APIError_Error_text_witness :
  APIError_Error (sampleAPIError 500 "upstream exploded")
    = "intasend: API error (HTTP 500): upstream exploded".
Proof.
  assert (Hne : "upstream exploded" <> "") by discriminate.
  apply (proj2 (proj2 (@APIError_Error_text (emptyObjectDecoder APIErrorFields)))
           500 "upstream exploded" (mkAPIErrorFields "" "" "" [] "")
           (SyntaxError "invalid character looking for beginning of value") Hne).
  reflexivity.
Defined.
